(** * Syllabus scraper: a shallow embedding of [scrape_syllabus.py]

    The development follows the layout of the Python module: Python
    strings and their library operations, the parsed HTML tree with the
    BeautifulSoup queries the scraper issues, the classifier, the two
    extractors, the record builder, the batch annotator and the CSV
    serializer.  Theorems come after the definitions. *)

From Stdlib Require Import Strings.String Strings.Ascii.
From stdpp Require Import gmap list sorting.

(** ** Python strings

    A Python [str] is a sequence of Unicode code points; it is modelled as
    a list of code points so that [strip], [split], the regular-expression
    character classes and the ordering used by [sorted] act on characters
    exactly as in the source. *)

Abbreviation str := (list N).

(** Source literals are written as UTF-8 text and decoded once. *)
Fixpoint string_bytes (s : string) : list N :=
  match s with
  | EmptyString => []
  | String a s' => N_of_ascii a :: string_bytes s'
  end.

Local Open Scope N_scope.

Fixpoint utf8_decode (bs : list N) : str :=
  match bs with
  | [] => []
  | b0 :: t0 =>
    if b0 <? 128 then b0 :: utf8_decode t0
    else if b0 <? 224 then
      match t0 with
      | b1 :: t1 => ((b0 - 192) * 64 + (b1 - 128)) :: utf8_decode t1
      | _ => []
      end
    else if b0 <? 240 then
      match t0 with
      | b1 :: b2 :: t2 =>
        ((b0 - 224) * 4096 + (b1 - 128) * 64 + (b2 - 128)) :: utf8_decode t2
      | _ => []
      end
    else
      match t0 with
      | b1 :: b2 :: b3 :: t3 =>
        ((b0 - 240) * 262144 + (b1 - 128) * 4096 + (b2 - 128) * 64 + (b3 - 128))
          :: utf8_decode t3
      | _ => []
      end
  end.

Definition lit (s : string) : str := utf8_decode (string_bytes s).


Local Close Scope N_scope.

(** Truthiness of a string: [if value] holds for a non-empty string. *)
Definition truthy (s : str) : bool :=
  match s with [] => false | _ :: _ => true end.

Definition str_eqb (a b : str) : bool := bool_decide (a = b).

(** [str.isspace] on one character.  The same set is used by [str.strip],
    by [str.split] without a separator and by the class [\s] of [re] on
    [str] patterns. *)
Definition isspace (c : N) : bool :=
  ((9 <=? c) && (c <=? 13) || (28 <=? c) && (c <=? 32) ||
   (c =? 133) || (c =? 160) || (c =? 5760) ||
   (8192 <=? c) && (c <=? 8202) || (c =? 8232) || (c =? 8233) ||
   (c =? 8239) || (c =? 8287) || (c =? 12288))%N.

Fixpoint take_while (p : N -> bool) (s : str) : str :=
  match s with
  | c :: s' => if p c then c :: take_while p s' else []
  | [] => []
  end.

Fixpoint drop_while (p : N -> bool) (s : str) : str :=
  match s with
  | c :: s' => if p c then drop_while p s' else s
  | [] => []
  end.

Definition lstrip (s : str) : str := drop_while isspace s.
Definition rstrip (s : str) : str := reverse (drop_while isspace (reverse s)).

(** [s.strip()] *)
Definition strip (s : str) : str := rstrip (lstrip s).

Fixpoint startswith (p s : str) : bool :=
  match p, s with
  | [], _ => true
  | a :: p', b :: s' => (a =? b)%N && startswith p' s'
  | _ :: _, [] => false
  end.

(** [needle in hay] *)
Fixpoint str_in (needle hay : str) : bool :=
  startswith needle hay ||
  match hay with
  | [] => false
  | _ :: hay' => str_in needle hay'
  end.

(** [sep.join(items)] *)
Fixpoint join (sep : str) (items : list str) : str :=
  match items with
  | [] => []
  | [x] => x
  | x :: rest => x ++ sep ++ join sep rest
  end.

(** [value.split(maxsplit=1)]: leading whitespace is skipped, the first
    token runs up to the next whitespace character, the whitespace run
    after it is skipped and what is left, if anything, is the second part
    (its trailing whitespace is kept). *)
Definition split_maxsplit1 (value : str) : list str :=
  match drop_while isspace value with
  | [] => []
  | tok =>
    let first := take_while (fun c => negb (isspace c)) tok in
    match drop_while isspace (drop_while (fun c => negb (isspace c)) tok) with
    | [] => [first]
    | rest => [first; rest]
    end
  end.

(** [value.split(",")]: split at every occurrence of a one-character
    separator; empty pieces are kept. *)
Fixpoint split_char (sep : N) (s : str) : list str :=
  match s with
  | [] => [[]]
  | c :: s' =>
    if (c =? sep)%N then [] :: split_char sep s'
    else match split_char sep s' with
         | p :: ps => (c :: p) :: ps
         | [] => [[c]]
         end
  end.

(** [re.split(r"[...]+", s)] for a character class: the pieces between
    the maximal runs of class characters; a run at either end leaves an
    empty piece there. *)
Fixpoint re_split_go (cls : N -> bool) (in_run : bool) (s : str) : list str :=
  match s with
  | [] => [[]]
  | c :: s' =>
    if cls c then
      if in_run then re_split_go cls true s' else [] :: re_split_go cls true s'
    else match re_split_go cls false s' with
         | p :: ps => (c :: p) :: ps
         | [] => [[c]]
         end
  end.

Definition re_split (cls : N -> bool) (s : str) : list str :=
  re_split_go cls false s.

(** *** The fragment of [re] the scraper uses

    A pattern is a sequence of character classes, each taken once or
    one-or-more times ([+], greedy, with backtracking); [re_match] anchors
    at the start of the string as [re.match] does and returns the text of
    every item. *)
Inductive quant := Once | Plus.

Definition pattern := list ((N -> bool) * quant).

Fixpoint run_length (cls : N -> bool) (s : str) : nat :=
  match s with
  | c :: s' => if cls c then S (run_length cls s') else O
  | [] => O
  end.

(** Try the lengths [n], [n-1], ..., [1] for a [+] item and continue with
    [k] on what follows. *)
Fixpoint try_lengths (k : str -> option (list str)) (n : nat) (s : str)
  : option (list str) :=
  match n with
  | O => None
  | S m =>
    match k (drop (S m) s) with
    | Some caps => Some (take (S m) s :: caps)
    | None => try_lengths k m s
    end
  end.

Fixpoint re_match (p : pattern) (s : str) : option (list str) :=
  match p with
  | [] => Some []
  | (cls, Once) :: p' =>
    match s with
    | c :: s' =>
      if cls c then
        match re_match p' s' with
        | Some caps => Some ([c] :: caps)
        | None => None
        end
      else None
    | [] => None
    end
  | (cls, Plus) :: p' => try_lengths (re_match p') (run_length cls s) s
  end.

(** [pattern.search(text)] for an alternation of literal strings. *)
Definition re_search (alternatives : list str) (text : str) : bool :=
  existsb (fun a => str_in a text) alternatives.

(** The order of [str] values, by code point, as [sorted] uses it. *)
Fixpoint str_leb (a b : str) : bool :=
  match a, b with
  | [], _ => true
  | _ :: _, [] => false
  | x :: a', y :: b' =>
    if (x <? y)%N then true
    else if (x =? y)%N then str_leb a' b' else false
  end.

Definition str_le (a b : str) : Prop := str_leb a b = true.

#[global] Instance str_le_dec a b : Decision (str_le a b).
Proof. unfold str_le. apply _. Defined.

(** [sorted(items)] *)
Definition sorted (items : list str) : list str := merge_sort str_le items.

(** [str.lower] on the ASCII range, used to run the functions below on
    ASCII examples; the functions themselves take the lowering function
    as a parameter. *)
Definition ascii_lower (s : str) : str :=
  map (fun c => if ((65 <=? c) && (c <=? 90))%N then (c + 32)%N else c) s.

(** ** The parsed document

    [BeautifulSoup(fp, "html.parser")] yields a tree of tags and of
    strings; the document object is itself a tag, named [[document]].
    The scraper only reads the tree.

    The parser gives every string a class.  Plain text is a
    [NavigableString] and a CDATA section a [CData].  Text found below a
    [rt], [rp], [style], [script] or [template] tag gets the class that
    belongs to the innermost such tag (RubyTextString,
    RubyParenthesisString, Stylesheet, Script, TemplateString):
    [ContainerString] carries the name of that tag.  [Comment] stands
    for the comments, declarations, doctypes and processing
    instructions. *)
#[warnings="-register-all"]
Inductive node :=
| NavigableString (text : str)
| CData (text : str)
| Comment (text : str)
| ContainerString (container : str) (text : str)
| Tag (name : str) (attrs : gmap str str) (contents : list node).

Definition BeautifulSoup (contents : list node) : node :=
  Tag (lit "[document]") ∅ contents.

(** [tag.descendants]: everything below a tag, in document order. *)
Fixpoint descendants (n : node) : list node :=
  match n with
  | Tag _ _ cs =>
    (fix go (l : list node) : list node :=
       match l with
       | [] => []
       | c :: l' => c :: descendants c ++ go l'
       end) cs
  | _ => []
  end.

Definition is_tag (n : node) : bool :=
  match n with Tag _ _ _ => true | _ => false end.

Definition tag_named (names : list str) (n : node) : bool :=
  match n with
  | Tag name _ _ => bool_decide (name ∈ names)
  | _ => false
  end.

(** [tag.string]: the single text below a tag, looking through a chain
    of only children; [None] when some tag on the way has no child or
    more than one. *)
Fixpoint tag_string (n : node) : option str :=
  match n with
  | NavigableString s | CData s | Comment s | ContainerString _ s => Some s
  | Tag _ _ [c] => tag_string c
  | Tag _ _ _ => None
  end.

(** The test behind [find(names, string=re.compile(...))]: a tag with
    one of the names whose [.string] exists and is matched somewhere by
    the pattern. *)
Definition tag_matches (names alternatives : list str) (n : node) : bool :=
  tag_named names n &&
  match tag_string n with
  | Some s => re_search alternatives s
  | None => false
  end.

(** The tags whose text the parser sets apart
    ([HTMLTreeBuilder.DEFAULT_STRING_CONTAINERS]). *)
Definition string_containers : list str :=
  [lit "rt"; lit "rp"; lit "style"; lit "script"; lit "template"].

(** [tag.interesting_string_types], as a test on a string below the
    tag: a tag that sets its text apart looks at the strings of its own
    class only, every other tag at plain text and CDATA sections.  The
    class is compared exactly, so text set apart by a container is not
    seen from the tags around the container. *)
Definition interesting_string (n d : node) : option str :=
  match n with
  | Tag name _ _ =>
    if bool_decide (name ∈ string_containers)
    then match d with
         | ContainerString container s =>
           if bool_decide (container = name) then Some s else None
         | _ => None
         end
    else match d with
         | NavigableString s | CData s => Some s
         | _ => None
         end
  | _ => None
  end.

(** [tag.get_text(strip=True)]: the strings below the tag that the tag
    is interested in, each stripped, the empty ones dropped,
    concatenated. *)
Definition get_text_strip (n : node) : str :=
  concat (omap (fun d => match interesting_string n d with
                         | Some s =>
                           if truthy (strip s) then Some (strip s) else None
                         | None => None
                         end) (descendants n)).

(** [tag.find_all(names)] *)
Definition find_all (names : list str) (n : node) : list node :=
  filter (fun d => tag_named names d = true) (descendants n).

(** The first element of a list that passes a test, with the elements
    after it: [find] followed by the [next_elements] of what it found. *)
Fixpoint find_with_next (p : node -> bool) (l : list node) : option (node * list node) :=
  match l with
  | [] => None
  | n :: rest => if p n then Some (n, rest) else find_with_next p rest
  end.

Definition attr (key : str) (n : node) : option str :=
  match n with
  | Tag _ attrs _ => attrs !! key
  | _ => None
  end.

(** The class attribute is a whitespace-separated list. *)
Definition has_class (cls : str) (n : node) : bool :=
  match attr (lit "class") n with
  | Some v => bool_decide (cls ∈ filter (fun t => truthy t = true) (re_split isspace v))
  | None => false
  end.

Definition has_id (id : str) (n : node) : bool :=
  bool_decide (attr (lit "id") n = Some id).

(** [select("#table-syllabusitems table.stdlist")]: the [table] tags of
    class [stdlist] that lie below an element whose id is
    [table-syllabusitems], in document order.  [inside] records whether
    such an ancestor has been passed. *)
Fixpoint select_course_tables (inside : bool) (n : node) : list node :=
  match n with
  | Tag _ _ cs =>
    (if inside && tag_named [lit "table"] n && has_class (lit "stdlist") n
     then [n] else []) ++
    (fix go (l : list node) : list node :=
       match l with
       | [] => []
       | c :: l' =>
         select_course_tables (inside || has_id (lit "table-syllabusitems") n) c ++ go l'
       end) cs
  | _ => []
  end.

(** [soup.select_one("#table-syllabusitems table.stdlist")] *)
Definition select_one_course_table (soup : node) : option node :=
  head (select_course_tables false soup).

(** ** Exceptions

    A function that can raise returns a [result]. *)
Inductive exn :=
| ValueError (msg : string)
| KeyError (key : str)
| SystemExit (msg : string).

Inductive result (A : Type) :=
| Return (x : A)
| Raise (e : exn).
Arguments Return {A} x.
Arguments Raise {A} e.

#[global] Instance result_ret : MRet result := @Return.

#[global] Instance result_bind : MBind result := fun A B k r =>
  match r with
  | Return x => k x
  | Raise e => Raise e
  end.

(** ** Records *)

Record TextbookRecord := {
  course_code : str;
  course_title : str;
  campus : str;
  faculty_names : list str;
  textbook_title : str;
  textbook_title_reading : str;
  authors : str;
  publisher : str;
  publication_year : str;
  isbn : str;
  note : str;
  tag_names : str;
  course_category : str;
  instruction_language : str;
  academic_year : str;
  term : str;
  schedule : str;
  classroom : str;
  credits : str;
  instructors : option (list str)
}.

Definition comma : str := Eval vm_compute in lit ",".

(** [TextbookRecord.to_csv_row] *)
Definition to_csv_row (self : TextbookRecord) : list str :=
  [ textbook_title self;
    textbook_title_reading self;
    authors self;
    publisher self;
    publication_year self;
    isbn self;
    course_title self;
    course_code self;
    academic_year self;
    term self;
    schedule self;
    classroom self;
    credits self;
    join comma (default [] (instructors self));
    join comma (faculty_names self);
    campus self;
    tag_names self;
    course_category self;
    instruction_language self;
    note self ].

Module CourseMetadata.
Record t := {
    course_code : str;
    course_title : str;
    academic_year : str;
    term : str;
    schedule : str;
    campus : str;
    classroom : str;
    faculties : list str;
    instructors : list str;
    credits : str;
    instruction_language : str
}.
End CourseMetadata.

Definition CSV_HEADER : list str := Eval vm_compute in
  map lit
    [ "textbook_title"; "textbook_title_reading"; "authors"; "publisher";
      "publication_year"; "isbn"; "course_title"; "course_code";
      "academic_year"; "term"; "schedule"; "classroom"; "credits";
      "instructors"; "faculty_names"; "campus"; "tag_names";
      "course_category"; "instruction_language"; "note" ]%string.

Definition GENERAL_FACULTY_KEYWORDS : list str := Eval vm_compute in
  map lit
    [ "共通教育"; "教養教育"; "全学共通"; "基盤教育"; "汎用教育";
      "General Education"; "教養科目"; "共通科目" ]%string.

Definition GENERAL_TITLE_KEYWORDS : list str := Eval vm_compute in
  map lit [ "教養"; "共通科目"; "General Education"; "Liberal Arts" ]%string.

Definition INTERNATIONAL_TITLE_KEYWORDS : list str := Eval vm_compute in
  map lit
    [ "留学生"; "International Students"; "for International Students";
      "Non-Japanese"; "外国人" ]%string.

Definition general_education : str := Eval vm_compute in lit "general-education".
Definition faculty_course : str := Eval vm_compute in lit "faculty-course".
Definition multi_faculty : str := Eval vm_compute in lit "multi-faculty".
Definition international_student : str := Eval vm_compute in lit "international-student".
Definition lang_prefix : str := Eval vm_compute in lit "lang:".

(** ** Classifier *)

(** [determine_course_category] *)
Definition determine_course_category (faculty_names : list str) (course_title : str) : str :=
  let normalized_faculties :=
    omap (fun name => if truthy (strip name) then Some (strip name) else None)
         faculty_names in
  match normalized_faculties with
  | [] => general_education
  | _ :: _ =>
    if existsb (fun faculty =>
                  existsb (fun keyword => str_in keyword faculty)
                          GENERAL_FACULTY_KEYWORDS)
               normalized_faculties
    then general_education
    else if bool_decide (3 <= size (list_to_set normalized_faculties : gset str))
    then general_education
    else if existsb (fun keyword => str_in keyword course_title)
                    GENERAL_TITLE_KEYWORDS
    then general_education
    else faculty_course
  end.

Section Lowercase.

(** [str.lower] is a function of the Unicode character database; the
    scraper is modelled for an arbitrary lowering function. *)
Variable lower : str -> str.

(** [normalize_textbook_header] *)
Definition normalize_textbook_header (label : str) : option str :=
  let value := strip label in
  if negb (truthy value) then None
  else
    let lower_ := lower value in
    if str_in (lit "書名") value || str_in (lit "タイトル") value
       || str_in (lit "name") lower_
    then Some (lit "title")
    else if str_in (lit "読み") value || str_in (lit "フリガナ") value
            || str_in (lit "ふりがな") value
    then Some (lit "reading")
    else if str_in (lit "著者") value || str_in (lit "編者") value
            || str_in (lit "author") lower_
    then Some (lit "authors")
    else if str_in (lit "出版社") value || str_in (lit "publisher") lower_
    then Some (lit "publisher")
    else if str_in (lit "isbn") (lower value)
    then Some (lit "isbn")
    else if str_in (lit "備考") value || str_in (lit "補足") value
            || str_in (lit "メモ") value || str_in (lit "使用頻度") value
            || str_in (lit "note") lower_
    then Some (lit "note")
    else None.

(** [detect_international_course] *)
Definition detect_international_course (course_title : str) : bool :=
  let lowered := lower course_title in
  existsb (fun keyword => str_in (lower keyword) lowered)
          INTERNATIONAL_TITLE_KEYWORDS.

(** [normalize_language_tag] *)
Definition normalize_language_tag (language_value : str) : option str :=
  if negb (truthy language_value) then None
  else
    let lowered := lower language_value in
    if str_in (lit "english") lowered || str_in (lit "英語") language_value
    then Some (lit "english")
    else if str_in (lit "japanese") lowered || str_in (lit "日本語") language_value
    then Some (lit "japanese")
    else if str_in (lit "chinese") lowered || str_in (lit "中国語") language_value
    then Some (lit "chinese")
    else if str_in (lit "korean") lowered || str_in (lit "韓国語") language_value
    then Some (lit "korean")
    else if str_in (lit "french") lowered || str_in (lit "フランス語") language_value
    then Some (lit "french")
    else if str_in (lit "german") lowered || str_in (lit "ドイツ語") language_value
    then Some (lit "german")
    else None.

(** [derive_tags] *)
Definition derive_tags (category : str) (faculty_names : list str)
    (course_title instruction_language : str) : list str :=
  let tags : gset str := {[ category ]} in
  let unique_faculties : gset str :=
    list_to_set (filter (fun name => truthy name = true) faculty_names) in
  let tags :=
    if bool_decide (1 < size unique_faculties)
       && negb (str_eqb category general_education)
    then tags ∪ {[ multi_faculty ]} else tags in
  let tags :=
    if detect_international_course course_title
    then tags ∪ {[ international_student ]} else tags in
  let language_tag := normalize_language_tag instruction_language in
  let tags :=
    match language_tag with
    | Some tag => if truthy tag then tags ∪ {[ lang_prefix ++ tag ]} else tags
    | None => tags
    end in
  sorted (elements tags).

End Lowercase.

(** ** Batch annotator

    Both passes mutate the records they are handed.  The records live in
    a store and the Python list holds references (positions in the
    store), so the same record may be listed more than once. *)
Abbreviation store := (list TextbookRecord).

Definition set_note (record : TextbookRecord) (value : str) : TextbookRecord :=
  {| course_code := course_code record;
     course_title := course_title record;
     campus := campus record;
     faculty_names := faculty_names record;
     textbook_title := textbook_title record;
     textbook_title_reading := textbook_title_reading record;
     authors := authors record;
     publisher := publisher record;
     publication_year := publication_year record;
     isbn := isbn record;
     note := value;
     tag_names := tag_names record;
     course_category := course_category record;
     instruction_language := instruction_language record;
     academic_year := academic_year record;
     term := term record;
     schedule := schedule record;
     classroom := classroom record;
     credits := credits record;
     instructors := instructors record |}.

Definition note_separator : str := Eval vm_compute in lit " / ".

(** [append_note(record, addition)]; a reference that is not in the
    store cannot occur and leaves the store as it is. *)
Definition append_note (record : nat) (addition : str) (σ : store) : store :=
  match σ !! record with
  | None => σ
  | Some r =>
    if negb (truthy addition) then σ
    else if str_in addition (note r) then σ
    else if truthy (note r)
    then <[record := set_note r (note r ++ note_separator ++ addition)]> σ
    else <[record := set_note r addition]> σ
  end.

(** First loop of [annotate_aliases]: the titles seen under each
    non-empty course code. *)
Definition collect_titles (records : list nat) (σ : store) : gmap str (gset str) :=
  foldl (fun titles_by_code record =>
           match σ !! record with
           | Some r =>
             if truthy (course_code r)
             then <[course_code r :=
                      default ∅ (titles_by_code !! course_code r) ∪ {[ course_title r ]}]>
                    titles_by_code
             else titles_by_code
           | None => titles_by_code
           end) ∅ records.

Definition alias_note (other_titles : list str) : str :=
  lit "別名称: " ++ join note_separator other_titles.

(** Body of the second loop of [annotate_aliases]. *)
Definition annotate_alias (titles_by_code : gmap str (gset str)) (σ : store)
    (record : nat) : store :=
  match σ !! record with
  | None => σ
  | Some r =>
    if negb (truthy (course_code r)) then σ
    else
      let alias_titles :=
        default {[ course_title r ]} (titles_by_code !! course_code r) in
      if bool_decide (size alias_titles <= 1) then σ
      else
        let other_titles :=
          sorted (filter (fun title => title ≠ course_title r) (elements alias_titles)) in
        match other_titles with
        | [] => σ
        | _ :: _ => append_note record (alias_note other_titles) σ
        end
  end.

(** [annotate_aliases] *)
Definition annotate_aliases (records : list nat) (σ : store) : store :=
  let titles_by_code := collect_titles records σ in
  foldl (annotate_alias titles_by_code) σ records.

Definition faculty_scope_note (unique_faculties : list str) : str :=
  lit "複数学部向け: " ++ join (lit ", ") unique_faculties.

Definition general_education_note : str := Eval vm_compute in
  lit "教養・共通科目 (自動判定)".

(** Body of the loop of [annotate_faculty_scope]. *)
Definition annotate_scope (σ : store) (record : nat) : store :=
  match σ !! record with
  | None => σ
  | Some r =>
    let unique_faculties :=
      sorted (elements (list_to_set (faculty_names r) : gset str)) in
    let σ :=
      if bool_decide (1 < length unique_faculties)
      then append_note record (faculty_scope_note unique_faculties) σ
      else σ in
    if str_eqb (course_category r) general_education
    then append_note record general_education_note σ
    else σ
  end.

(** [annotate_faculty_scope] *)
Definition annotate_faculty_scope (records : list nat) (σ : store) : store :=
  foldl annotate_scope σ records.

(** ** Identifier parser *)

Definition full_width_colon : N := 65306.
Definition ascii_colon : N := 58.

Definition is_colon (c : N) : bool :=
  ((c =? full_width_colon) || (c =? ascii_colon))%N.

(** The class [[^\s：:]]. *)
Definition code_char (c : N) : bool := negb (isspace c || is_colon c).

(** The class [.]: anything but a line feed. *)
Definition dot (c : N) : bool := negb (c =? 10)%N.

(** [(?P<code>[^\s：:]+)[：:](?P<title>.+)] *)
Definition course_identifier_pattern : pattern :=
  [ (code_char, Plus); (is_colon, Once); (dot, Plus) ].

(** [parse_course_identifier] *)
Definition parse_course_identifier (value : str) : str * str :=
  match re_match course_identifier_pattern value with
  | Some [code; _; title] => (code, strip title)
  | _ =>
    match split_maxsplit1 value with
    | [part0; part1] => (strip part0, strip part1)
    | _ => (strip value, [])
    end
  end.

(** ** Metadata extractor *)

(** [extract_section_text], walking the document in order: [l] is what
    is left of the document from the current position. *)
Fixpoint section_text_from (alternatives : list str) (l : list node) : str :=
  match l with
  | [] => []
  | header :: next_elements =>
    if tag_matches [lit "h3"; lit "th"] alternatives header then
      match find_with_next is_tag next_elements with
      | None => section_text_from alternatives next_elements
      | Some (sibling, _) =>
        let text := get_text_strip sibling in
        if truthy text then text
        else section_text_from alternatives next_elements
      end
    else section_text_from alternatives next_elements
  end.

Definition extract_section_text (soup : node) (alternatives : list str) : str :=
  section_text_from alternatives (descendants soup).

Definition name_separator (c : N) : bool :=
  ((c =? 12289) || (c =? 44))%N || isspace c.

(** [normalize_name_list] *)
Definition normalize_name_list (value : str) : list str :=
  if negb (truthy value) then []
  else
    let raw_items := re_split name_separator (strip value) in
    filter (fun item => truthy item = true) raw_items.

Definition instructor_separator (c : N) : bool :=
  ((c =? 12289) || (c =? 44) || (c =? 47) || (c =? 65295))%N.

(** [normalize_instructor_list] *)
Definition normalize_instructor_list (value : str) : list str :=
  if negb (truthy value) then []
  else
    let raw_items := re_split instructor_separator (strip value) in
    omap (fun item => if truthy (strip item) then Some (strip item) else None)
         raw_items.

(** [extract_course_metadata] *)
Definition extract_course_metadata (soup : node) : result CourseMetadata.t :=
  match select_one_course_table soup with
  | None => Raise (ValueError "Could not locate course metadata table in HTML page")
  | Some course_table =>
    let rows := find_all [lit "tr"] course_table in
    match rows with
    | _ :: row1 :: _ =>
      let cells := map get_text_strip (find_all [lit "td"] row1) in
      if bool_decide (length cells < 1)
      then Raise (ValueError "Course metadata row missing expected columns")
      else
        let get_cell (index : nat) : str := default [] (cells !! index) in
        let course_identifier := get_cell 0 in
        let '(course_code, course_title) := parse_course_identifier course_identifier in
        let academic_year := get_cell 1 in
        let term := get_cell 2 in
        let schedule := get_cell 3 in
        let faculties := normalize_name_list (get_cell 4) in
        let instructors := normalize_instructor_list (get_cell 5) in
        let credits := if bool_decide (6 < length cells) then get_cell 6 else [] in
        let campus := extract_section_text soup [lit "キャンパス"] in
        let classroom :=
          extract_section_text soup
            [lit "授業施設"; lit "教室"; lit "教場"; lit "教室名"] in
        let instruction_language :=
          extract_section_text soup
            [lit "使用言語"; lit "Language of instruction"; lit "使用言語等";
             lit "使用される言語"] in
        Return {| CourseMetadata.course_code := course_code;
                  CourseMetadata.course_title := course_title;
                  CourseMetadata.academic_year := academic_year;
                  CourseMetadata.term := term;
                  CourseMetadata.schedule := schedule;
                  CourseMetadata.campus := campus;
                  CourseMetadata.classroom := classroom;
                  CourseMetadata.faculties := faculties;
                  CourseMetadata.instructors := instructors;
                  CourseMetadata.credits := credits;
                  CourseMetadata.instruction_language := instruction_language |}
    | _ => Raise (ValueError "Course metadata table does not contain expected rows")
    end
  end.

(** ** Textbook table extractor and record builder *)

(** [d.get(key, default)], [d.setdefault(key, value)] and [d[key]] on a
    dictionary of strings. *)
Definition dict_get (key default_ : str) (d : gmap str str) : str :=
  default default_ (d !! key).

Definition setdefault (key value : str) (d : gmap str str) : gmap str str :=
  match d !! key with
  | Some _ => d
  | None => <[key := value]> d
  end.

Definition getitem (key : str) (d : gmap str str) : result str :=
  match d !! key with
  | Some v => Return v
  | None => Raise (KeyError key)
  end.

Definition k_title : str := Eval vm_compute in lit "title".
Definition k_reading : str := Eval vm_compute in lit "reading".
Definition k_authors : str := Eval vm_compute in lit "authors".
Definition k_publisher : str := Eval vm_compute in lit "publisher".
Definition k_isbn : str := Eval vm_compute in lit "isbn".
Definition k_note : str := Eval vm_compute in lit "note".

(** The fallback by position for a cell without a usable header. *)
Definition positional_fallback (index : nat) (text : str) (values : gmap str str)
  : gmap str str :=
  match index with
  | 0 => setdefault k_title text values
  | 1 => setdefault k_authors text values
  | 2 => setdefault k_publisher text values
  | 3 => setdefault k_isbn text values
  | 4 => setdefault k_note text values
  | _ => values
  end.

(** One turn of the loop over the cells of a row. *)
Definition cell_step (header_map : list (option str)) (values : gmap str str)
    (indexed : nat * node) : gmap str str :=
  let '(index, cell) := indexed in
  let key :=
    match header_map with
    | [] => None
    | _ :: _ =>
      if bool_decide (index < length header_map)
      then default None (header_map !! index) else None
    end in
  let text := get_text_strip cell in
  match key with
  | Some k =>
    if truthy k then <[k := text]> values
    else positional_fallback index text values
  | None => positional_fallback index text values
  end.

Definition row_values (header_map : list (option str)) (cells : list node)
  : gmap str str :=
  foldl (cell_step header_map) ∅ (imap pair cells).

(** The entry appended for a row whose resolved title is [title]. *)
Definition textbook_entry (title : str) (values : gmap str str) : gmap str str :=
  <[k_title := title]>
  (<[k_reading := dict_get k_reading [] values]>
  (<[k_authors := dict_get k_authors [] values]>
  (<[k_publisher := dict_get k_publisher [] values]>
  (<[k_isbn := dict_get k_isbn [] values]>
  (<[k_note := dict_get k_note [] values]> ∅))))).

(** One turn of the loop over the data rows. *)
Definition row_step (header_map : list (option str))
    (textbooks : list (gmap str str)) (row : node) : list (gmap str str) :=
  let cells := find_all [lit "td"; lit "th"] row in
  match cells with
  | [] => textbooks
  | _ :: _ =>
    let values := row_values header_map cells in
    let title := strip (dict_get k_title [] values) in
    if negb (truthy title) then textbooks
    else textbooks ++ [textbook_entry title values]
  end.

Section Extraction.

Variable lower : str -> str.

(** [extract_textbooks] *)
Definition extract_textbooks (soup : node) : list (gmap str str) :=
  match find_with_next (tag_matches [lit "h3"] [lit "教科書"]) (descendants soup) with
  | None => []
  | Some (textbooks_section, next_elements) =>
    match find_with_next (tag_named [lit "table"]) next_elements with
    | None => []
    | Some (table, _) =>
      let rows := find_all [lit "tr"] table in
      match rows with
      | [] => []
      | row0 :: rest =>
        let first_row_cells := find_all [lit "th"; lit "td"] row0 in
        let has_header := existsb (tag_named [lit "th"]) first_row_cells in
        let header_map :=
          if has_header
          then map (fun cell => normalize_textbook_header lower (get_text_strip cell))
                   first_row_cells
          else [] in
        let data_rows := if has_header then rest else rows in
        foldl (row_step header_map) [] data_rows
      end
    end
  end.

(** The record built for one textbook of a document. *)
Definition build_record (metadata : CourseMetadata.t)
    (resolved_course_title course_category : str) (base_tags : list str)
    (textbook : gmap str str) : result TextbookRecord :=
  let note_ := dict_get k_note [] textbook in
  let record_tags : gset str := list_to_set base_tags in
  let record_tags :=
    if detect_international_course lower note_
    then record_tags ∪ {[ international_student ]} else record_tags in
  title ← getitem k_title textbook;
  Return {| course_code := CourseMetadata.course_code metadata;
            course_title := resolved_course_title;
            campus := CourseMetadata.campus metadata;
            faculty_names := CourseMetadata.faculties metadata;
            textbook_title := title;
            textbook_title_reading := dict_get k_reading [] textbook;
            authors := dict_get k_authors [] textbook;
            publisher := dict_get k_publisher [] textbook;
            publication_year := [];
            isbn := [];
            note := note_;
            tag_names := join comma (sorted (elements record_tags));
            course_category := course_category;
            instruction_language := CourseMetadata.instruction_language metadata;
            academic_year := CourseMetadata.academic_year metadata;
            term := CourseMetadata.term metadata;
            schedule := CourseMetadata.schedule metadata;
            classroom := CourseMetadata.classroom metadata;
            credits := CourseMetadata.credits metadata;
            instructors := Some (CourseMetadata.instructors metadata) |}.

(** [build_records] *)
Definition build_records (soup : node) : result (list TextbookRecord) :=
  metadata ← extract_course_metadata soup;
  let textbooks := extract_textbooks soup in
  let resolved_course_title :=
    if truthy (CourseMetadata.course_title metadata)
    then CourseMetadata.course_title metadata
    else if truthy (CourseMetadata.course_code metadata)
    then CourseMetadata.course_code metadata else [] in
  let resolved_course_title :=
    if negb (truthy resolved_course_title) then lit "Untitled Course"
    else resolved_course_title in
  let course_category :=
    determine_course_category (CourseMetadata.faculties metadata) resolved_course_title in
  let base_tags :=
    derive_tags lower course_category (CourseMetadata.faculties metadata)
                resolved_course_title (CourseMetadata.instruction_language metadata) in
  foldl (fun acc textbook =>
           records ← acc;
           record ← build_record metadata resolved_course_title course_category
                                 base_tags textbook;
           Return (records ++ [record]))
        (Return []) textbooks.

End Extraction.

(** ** CSV serializer *)

(** [write_csv]: the rows handed to [csv.writer], header first. *)
Definition write_csv (records : list TextbookRecord) : result (list (list str)) :=
  match records with
  | [] =>
    Raise (SystemExit
      "No textbook records found. Ensure the input HTML contains textbook tables.")
  | _ :: _ => Return (CSV_HEADER :: map to_csv_row records)
  end.

(** [main] on already parsed documents. *)
Definition main (lower : str -> str) (documents : list node)
  : result (list (list str)) :=
  all_records ←
    foldl (fun acc soup =>
             all_records ← acc;
             records ← build_records lower soup;
             Return (all_records ++ records))
          (Return []) documents;
  match all_records with
  | [] =>
    Raise (SystemExit
      "Finished scanning HTML files but found no textbook entries. Double-check the input pages.")
  | _ :: _ =>
    let references := seq 0 (length all_records) in
    let σ := annotate_aliases references all_records in
    let σ := annotate_faculty_scope references σ in
    write_csv σ
  end.

(** ** Reading of the claims

    Predicates and second definitions that state what the specification
    says, to be compared with the functions above. *)

(** [needle] occurs in [hay]. *)
Definition occurs_in (needle hay : str) : Prop :=
  ∃ before after, hay = before ++ needle ++ after.

(** Some keyword of the table occurs in the text. *)
Definition has_keyword (keywords : list str) (text : str) : Prop :=
  ∃ keyword, keyword ∈ keywords ∧ occurs_in keyword text.

(** The string holds no ASCII comma. *)
Definition no_comma (s : str) : Prop := 44%N ∉ s.

(** The faculty names the category rules look at: every name trimmed,
    the blank ones left out. *)
Definition trimmed_names (faculty_names : list str) : list str :=
  filter (fun name => name ≠ []) (map strip faculty_names).

(** The five rules of §4.4 read on the list of names as it is given. *)
Definition category_rules (faculty_names : list str) (course_title : str) : str :=
  match faculty_names with
  | [] => general_education
  | _ :: _ =>
    if existsb (fun faculty =>
                  existsb (fun keyword => str_in keyword faculty)
                          GENERAL_FACULTY_KEYWORDS) faculty_names
    then general_education
    else if bool_decide (3 <= size (list_to_set faculty_names : gset str))
    then general_education
    else if existsb (fun keyword => str_in keyword course_title)
                    GENERAL_TITLE_KEYWORDS
    then general_education
    else faculty_course
  end.


(** The note that [append_note] leaves in a record. *)
Definition appended (existing addition : str) : str :=
  if negb (truthy addition) then existing
  else if str_in addition existing then existing
  else if truthy existing then existing ++ note_separator ++ addition
  else addition.

(** What one turn of the alias loop does to the record it visits. *)
Definition alias_update (titles_by_code : gmap str (gset str)) (r : TextbookRecord)
  : TextbookRecord :=
  if negb (truthy (course_code r)) then r
  else
    let alias_titles := default {[ course_title r ]} (titles_by_code !! course_code r) in
    if bool_decide (size alias_titles <= 1) then r
    else
      match sorted (filter (fun title => title ≠ course_title r) (elements alias_titles)) with
      | [] => r
      | other_titles => set_note r (appended (note r) (alias_note other_titles))
      end.

(** What one turn of the faculty-scope loop does to the record it visits. *)
Definition scope_update (r : TextbookRecord) : TextbookRecord :=
  let unique_faculties := sorted (elements (list_to_set (faculty_names r) : gset str)) in
  let r1 :=
    if bool_decide (1 < length unique_faculties)
    then set_note r (appended (note r) (faculty_scope_note unique_faculties))
    else r in
  if str_eqb (course_category r) general_education
  then set_note r1 (appended (note r1) general_education_note)
  else r1.

(** *** Sample records and documents *)

(** A record with the given course code, course title, faculties,
    category and note, the other fields empty. *)
Definition sample_record (code title : string) (faculties : list string)
    (category : str) (note_ : string) : TextbookRecord :=
  {| course_code := lit code; course_title := lit title; campus := [];
     faculty_names := map lit faculties; textbook_title := lit "Textbook";
     textbook_title_reading := []; authors := []; publisher := [];
     publication_year := []; isbn := []; note := lit note_; tag_names := category;
     course_category := category; instruction_language := [];
     academic_year := []; term := []; schedule := []; classroom := [];
     credits := []; instructors := Some [] |}.

Definition sample_store : store :=
  [ sample_record "XYZ9" "Physics I" ["Science"]%string faculty_course "";
    sample_record "XYZ9" "General Physics" ["Science"; "Engineering"]%string faculty_course "used weekly";
    sample_record "" "Seminar" [] general_education "" ].

(** What the claim reads into the pattern: [value] starts with the
    non-empty token [code], free of whitespace and colons, then a colon,
    then the non-empty text [title], which runs to the end of the line. *)
Definition identifier_match (value code title : str) : Prop :=
  ∃ c rest,
    value = code ++ c :: title ++ rest ∧
    code ≠ [] ∧
    Forall (fun x => isspace x = false ∧ x ≠ ascii_colon ∧ x ≠ full_width_colon) code ∧
    (c = ascii_colon ∨ c = full_width_colon) ∧
    title ≠ [] ∧
    Forall (fun x => x ≠ 10%N) title ∧
    (rest = [] ∨ ∃ rest', rest = 10%N :: rest').

(** [value] splits at its first whitespace run into exactly the two
    parts [first] and [second]: leading whitespace, the token [first],
    a whitespace run, and [second], which starts with a character that
    is not whitespace. *)
Definition two_parts (value first second : str) : Prop :=
  ∃ leading gap c second',
    value = leading ++ first ++ gap ++ second ∧
    Forall (fun x => isspace x = true) leading ∧
    first ≠ [] ∧ Forall (fun x => isspace x = false) first ∧
    gap ≠ [] ∧ Forall (fun x => isspace x = true) gap ∧
    second = c :: second' ∧ isspace c = false.

(** The third case as the claim words it: the trimmed string as the
    title, with an empty code. *)
Definition whole_string_as_title (value : str) : str * str := ([], strip value).

Definition text (s : string) : node := NavigableString (lit s).

Definition element (name : string) (attrs : gmap str str) (contents : list node) : node :=
  Tag (lit name) attrs contents.

Definition td (s : string) : node := element "td" ∅ [text s].
Definition th (s : string) : node := element "th" ∅ [text s].
Definition tr (cells : list node) : node := element "tr" ∅ cells.

(** The course-info table where the selector looks for it. *)
Definition course_info (rows : list node) : node :=
  element "div" {[ lit "id" := lit "table-syllabusitems" ]}
    [ element "table" {[ lit "class" := lit "stdlist" ]} rows ].

(** A textbook table with a header row and two data rows, the second
    with a blank title. *)
Definition sample_textbook_table : node :=
  element "table" ∅
    [ tr [th "書名"; th "著者"; th "出版社"; th "ISBN"];
      tr [td "Algorithms"; td "A. Author"; td "Univ. Press"; td "123"];
      tr [td "   "; td "B. Author"; td "Other Press"; td "456"] ].

(** A page for ABC123 with one textbook whose row carries an ISBN. *)
Definition sample_document : node :=
  BeautifulSoup
    [ course_info
        [ tr [th "Course"; th "Year"; th "Term"; th "Schedule"; th "Faculty";
              th "Instructor"; th "Credits"];
          tr [td "ABC123：Intro to CS"; td "2024"; td "Spring"; td "Mon 1";
              td "Science、Engineering"; td "Smith／Jones"; td "2"] ];
      element "h3" ∅ [text "教科書"];
      sample_textbook_table ].

(** A page whose course-info table has two rows, the second one made of
    header cells only. *)
Definition document_without_data_cells : node :=
  BeautifulSoup
    [ course_info [ tr [th "Course"]; tr [th "ABC123：Intro to CS"] ] ].

(** The heading the extractor looks for, with what follows it in the
    document. *)
Definition textbook_heading (soup : node) : option (node * list node) :=
  find_with_next (tag_matches [lit "h3"] [lit "教科書"]) (descendants soup).

(** The textbook table: the first table after that heading. *)
Definition textbook_table (soup : node) : option node :=
  match textbook_heading soup with
  | Some (_, next_elements) =>
    fst <$> find_with_next (tag_named [lit "table"]) next_elements
  | None => None
  end.

Definition has_header_row (table : node) : bool :=
  match find_all [lit "tr"] table with
  | [] => false
  | row0 :: _ => existsb (tag_named [lit "th"]) (find_all [lit "th"; lit "td"] row0)
  end.

(** The data rows of the table: all rows but a header row. *)
Definition table_data_rows (table : node) : list node :=
  if has_header_row table then tail (find_all [lit "tr"] table)
  else find_all [lit "tr"] table.

(** The canonical field of each column when the table has a header row. *)
Definition table_header_map (lower : str -> str) (table : node) : list (option str) :=
  if has_header_row table
  then map (fun cell => normalize_textbook_header lower (get_text_strip cell))
           (find_all [lit "th"; lit "td"] (default (text "") (head (find_all [lit "tr"] table))))
  else [].

(** The title a data row resolves to, trimmed. *)
Definition resolved_title (header_map : list (option str)) (row : node) : str :=
  strip (dict_get k_title [] (row_values header_map (find_all [lit "td"; lit "th"] row))).

(** The entry emitted for a data row. *)
Definition row_entry (header_map : list (option str)) (row : node) : gmap str str :=
  textbook_entry (resolved_title header_map row)
                 (row_values header_map (find_all [lit "td"; lit "th"] row)).

(** ** The consumer of the CSV: [prepare_textbooks.py] *)

(** [normalize_value] *)
Definition normalize_value (value : option str) : str :=
  match value with
  | None => []
  | Some v => strip v
  end.

(** [split_multi_value] *)
Definition split_multi_value (value : option str) : list str :=
  match value with
  | None => []
  | Some v =>
    if negb (truthy v) then []
    else map (fun part => normalize_value (Some part))
             (filter (fun part => truthy (strip part) = true) (split_char 44 v))
  end.

Module TextbookRow.
Record t := {
  textbook_title : str;
  course_title : str;
  campus : str;
  textbook_title_reading : str;
  course_title_reading : str;
  course_code : str;
  course_category : str;
  instruction_language : str;
  note : str;
  authors : str;
  publisher : str;
  publication_year : str;
  isbn : str;
  faculties : list str;
  departments : list str;
  tags : list str
}.
End TextbookRow.

(** [normalize_row]; the required columns are read with [raw[...]] and
    raise [KeyError] when missing, the others with [raw.get]. *)
Definition normalize_row (raw : gmap str str) : result TextbookRow.t :=
  textbook_title_ ← getitem (lit "textbook_title") raw;
  let textbook_title_reading_ :=
    normalize_value (Some (dict_get (lit "textbook_title_reading") [] raw)) in
  course_title_ ← getitem (lit "course_title") raw;
  let course_title_reading_ :=
    normalize_value (Some (dict_get (lit "course_title_reading") [] raw)) in
  campus_ ← getitem (lit "campus") raw;
  Return {| TextbookRow.textbook_title := normalize_value (Some textbook_title_);
            TextbookRow.textbook_title_reading := textbook_title_reading_;
            TextbookRow.course_title := normalize_value (Some course_title_);
            TextbookRow.course_title_reading := course_title_reading_;
            TextbookRow.campus := normalize_value (Some campus_);
            TextbookRow.course_code :=
              normalize_value (Some (dict_get (lit "course_code") [] raw));
            TextbookRow.course_category :=
              normalize_value (Some (dict_get (lit "course_category") [] raw));
            TextbookRow.instruction_language :=
              normalize_value (Some (dict_get (lit "instruction_language") [] raw));
            TextbookRow.note := normalize_value (Some (dict_get (lit "note") [] raw));
            TextbookRow.authors := normalize_value (Some (dict_get (lit "authors") [] raw));
            TextbookRow.publisher :=
              normalize_value (Some (dict_get (lit "publisher") [] raw));
            TextbookRow.publication_year :=
              normalize_value (Some (dict_get (lit "publication_year") [] raw));
            TextbookRow.isbn := normalize_value (Some (dict_get (lit "isbn") [] raw));
            TextbookRow.faculties := split_multi_value (raw !! lit "faculty_names");
            TextbookRow.departments := split_multi_value (raw !! lit "department_names");
            TextbookRow.tags := split_multi_value (raw !! lit "tag_names") |}.

(** The dictionary [csv.DictReader] yields for a data row that has as
    many fields as the header: each header name with the field under
    it. *)
Definition dict_row (header row : list str) : gmap str str :=
  list_to_map (zip header row).

(** The course title the record builder settles on: the title, else the
    code, else a fixed placeholder. *)
Definition resolve_course_title (metadata : CourseMetadata.t) : str :=
  let resolved_course_title :=
    if truthy (CourseMetadata.course_title metadata)
    then CourseMetadata.course_title metadata
    else if truthy (CourseMetadata.course_code metadata)
    then CourseMetadata.course_code metadata else [] in
  if negb (truthy resolved_course_title) then lit "Untitled Course"
  else resolved_course_title.

(** [r'] is [r] with a note that extends the note of [r]. *)
Definition note_extended (r r' : TextbookRecord) : Prop :=
  set_note r' [] = set_note r [] ∧ note r `prefix_of` note r'.

(** A component that survives the consumer's splitting: no comma, not
    empty, no surrounding whitespace. *)
Definition tidy (s : str) : Prop := no_comma s ∧ s ≠ [] ∧ strip s = s.

(** ** Sample pages for the textbook table and the tags *)

(** A page for ABC123 around a given textbook table. *)
Definition page_with_textbooks (table : node) : node :=
  BeautifulSoup
    [ course_info
        [ tr [th "Course"; th "Year"; th "Term"; th "Schedule"; th "Faculty";
              th "Instructor"; th "Credits"];
          tr [td "ABC123：Intro to CS"; td "2024"; td "Spring"; td "Mon 1";
              td "Science、Engineering"; td "Smith／Jones"; td "2"] ];
      element "h3" ∅ [text "教科書"];
      table ].

(** A textbook table without a header row: two data rows, each with a
    title in its first cell. *)
Definition plain_textbook_table : node :=
  element "table" ∅
    [ tr [td "Algorithms"; td "A. Author"];
      tr [td "Compilers"] ].

(** A textbook table whose header row names the second column as the
    title column; the second of its three data rows has a blank title. *)
Definition numbered_textbook_table : node :=
  element "table" ∅
    [ tr [th "No."; th "書名"; th "著者"];
      tr [td "1"; td "Algorithms"; td "A. Author"];
      tr [td "2"; td "   "; td "B. Author"];
      tr [td "3"; td "Compilers"; td "C. Author"] ].

(** A textbook table whose only textbook has a note for international
    students. *)
Definition international_textbook_table : node :=
  element "table" ∅
    [ tr [th "書名"; th "備考"];
      tr [td "Nihongo"; td "留学生対象"] ].

(** ** Rows and titles, read off the cells *)

(** The cells of the first row of a table. *)
Definition header_cells (table : node) : list node :=
  match find_all [lit "tr"] table with
  | [] => []
  | row0 :: _ => find_all [lit "th"; lit "td"] row0
  end.

(** The text of the cell of a row in a column; empty when the row has
    no cell there. *)
Definition column_text (column : nat) (row : node) : str :=
  default [] (get_text_strip <$> find_all [lit "td"; lit "th"] row !! column).

(** A header label that names the title column with one of the two
    Japanese keywords. *)
Definition title_label (label : str) : Prop :=
  occurs_in (lit "書名") (strip label) ∨ occurs_in (lit "タイトル") (strip label).

(** The canonical field that the header row gives a column: none when
    the table has no header row, when the header row is too short, or
    when the header of the column is not recognised. *)
Definition column_field (header_map : list (option str)) (column : nat) : option str :=
  match header_map !! column with
  | Some (Some field) => if truthy field then Some field else None
  | _ => None
  end.

(** The text of a cell when its column is a title column. *)
Definition title_cell (header_map : list (option str)) (indexed : nat * node)
  : option str :=
  if bool_decide (column_field header_map indexed.1 = Some k_title)
  then Some (get_text_strip indexed.2) else None.

(** The title of a data row, read off its cells: the text of the last
    cell in a title column; without one, the text of the first cell when
    the header row gives the first column no field; otherwise nothing.
    The result is trimmed. *)
Definition row_title (header_map : list (option str)) (row : node) : str :=
  let cells := find_all [lit "td"; lit "th"] row in
  strip match last (omap (title_cell header_map) (imap pair cells)) with
        | Some title => title
        | None =>
          match column_field header_map 0, cells with
          | None, cell :: _ => get_text_strip cell
          | _, _ => []
          end
        end.

(** ** Tags and commas *)

(** The set of tags the builder gives the record of one textbook: the
    tags of the course and, when the note of the textbook matches the
    international-course detector, [international-student].  The builder
    joins the sorted elements of this set. *)
Definition record_tags (lower : str -> str) (metadata : CourseMetadata.t)
    (textbook : gmap str str) : gset str :=
  let resolved_course_title := resolve_course_title metadata in
  let course_category :=
    determine_course_category (CourseMetadata.faculties metadata) resolved_course_title in
  let base_tags :=
    derive_tags lower course_category (CourseMetadata.faculties metadata)
                resolved_course_title (CourseMetadata.instruction_language metadata) in
  if detect_international_course lower (dict_get k_note [] textbook)
  then list_to_set base_tags ∪ {[ international_student ]}
  else list_to_set base_tags.

(** Every tag the scraper can write. *)
Definition tag_vocabulary : list str :=
  [general_education; faculty_course; multi_faculty; international_student] ++
  map (fun language => lang_prefix ++ language)
      [lit "english"; lit "japanese"; lit "chinese"; lit "korean";
       lit "french"; lit "german"].

(** A record whose two multi-valued columns can be split back at the
    commas: no faculty name holds a comma, splitting the joined faculty
    names returns them, and every part of [tag_names] between two commas
    is one of the tags of the vocabulary. *)
Definition comma_safe (r : TextbookRecord) : Prop :=
  Forall no_comma (faculty_names r) ∧
  filter (fun part => part ≠ []) (split_char 44 (join comma (faculty_names r)))
    = faculty_names r ∧
  Forall (fun part => part ∈ tag_vocabulary) (split_char 44 (tag_names r)).

(** * Theorems *)

(** ** Strings: facts *)

Lemma startswith_spec p s : startswith p s = true ↔ ∃ q, s = p ++ q.
Proof.
  revert s. induction p as [|a p IH]; intros s; simpl.
  - split; eauto.
  - destruct s as [|b s]; simpl.
    + split; [done | intros [q Hq]; discriminate].
    + rewrite andb_true_iff, N.eqb_eq, IH. split.
      * intros [-> [q ->]]. eauto.
      * intros [q Hq]. injection Hq as -> ->. eauto.
Qed.

Lemma str_in_spec needle hay : str_in needle hay = true ↔ occurs_in needle hay.
Proof.
  unfold occurs_in. induction hay as [|c hay IH].
  - simpl. rewrite orb_false_r, startswith_spec. split.
    + intros [q Hq]. exists [], q. done.
    + intros (before & after & Hq). destruct before; [eauto|discriminate].
  - cbn [str_in]. rewrite orb_true_iff, startswith_spec, IH. split.
    + intros [[q ->] | (before & after & ->)].
      * exists [], q. done.
      * exists (c :: before), after. done.
    + intros (before & after & Hq). destruct before as [|b before].
      * left. eauto.
      * right. injection Hq as -> ->. eauto.
Qed.

Lemma str_in_refl s : str_in s s = true.
Proof. apply str_in_spec. exists [], []. by rewrite app_nil_r. Qed.

Lemma str_in_app_r needle before s :
  str_in needle s = true → str_in needle (before ++ s) = true.
Proof.
  rewrite !str_in_spec. intros (b & a & ->).
  exists (before ++ b), a. by rewrite <- app_assoc.
Qed.

Lemma str_in_app_l needle s after :
  str_in needle s = true → str_in needle (s ++ after) = true.
Proof.
  rewrite !str_in_spec. intros (b & a & ->).
  exists b, (a ++ after). by rewrite <- !app_assoc.
Qed.

Lemma existsb_keyword keywords text :
  existsb (fun keyword => str_in keyword text) keywords = true ↔
  has_keyword keywords text.
Proof.
  unfold has_keyword. rewrite existsb_exists. split.
  - intros (k & Hk & Hin). exists k. split; [by apply list_elem_of_In|by apply str_in_spec].
  - intros (k & Hk & Hin). exists k. split; [by apply list_elem_of_In|by apply str_in_spec].
Qed.

Lemma truthy_true s : truthy s = true ↔ s ≠ [].
Proof. destruct s; simpl; split; done. Qed.

Lemma truthy_false s : truthy s = false ↔ s = [].
Proof. destruct s; simpl; split; done. Qed.

(** ** Classifier: course category *)

Lemma trimmed_names_omap faculty_names :
  omap (fun name => if truthy (strip name) then Some (strip name) else None)
       faculty_names
  = trimmed_names faculty_names.
Proof.
  unfold trimmed_names.
  induction faculty_names as [|name rest IH]; [done|].
  cbn [omap list_omap map fmap list_fmap].
  destruct (strip name) as [|c s] eqn:E; simpl.
  - rewrite filter_cons_False by (intros H; by apply H). exact IH.
  - rewrite filter_cons_True by done. cbn [fmap list_fmap] in IH. by rewrite <- IH.
Qed.

Lemma determine_course_category_trimmed faculty_names course_title :
  determine_course_category faculty_names course_title
  = category_rules (trimmed_names faculty_names) course_title.
Proof.
  unfold determine_course_category, category_rules.
  by rewrite trimmed_names_omap.
Qed.

Lemma existsb_faculty_keyword names :
  existsb (fun faculty =>
             existsb (fun keyword => str_in keyword faculty) GENERAL_FACULTY_KEYWORDS)
          names = true
  ↔ Exists (has_keyword GENERAL_FACULTY_KEYWORDS) names.
Proof.
  rewrite existsb_exists, Exists_exists. split.
  - intros (f & Hf & Hk). exists f. split; [by apply list_elem_of_In|].
    by apply existsb_keyword.
  - intros (f & Hf & Hk). exists f. split; [by apply list_elem_of_In|].
    by apply existsb_keyword.
Qed.

Lemma general_education_ne_faculty_course : general_education ≠ faculty_course.
Proof. discriminate. Qed.

(** C4 (as amended).  [determine_course_category] applies the rules of
    §4.4 to the faculty names after trimming them and leaving out the
    blank ones: the result is [general-education] when no such name is
    left, or one of them contains a general-education faculty keyword,
    or three or more of them are distinct, or the course title contains
    a general-education title keyword, and [faculty-course] otherwise.
    Every rule that applies gives the same category, so evaluating them
    in order and stopping at the first match gives this result.  In
    particular three distinct departments, and no faculties at all, give
    [general-education]. *)
Theorem determine_course_category_rules (faculty_names : list str) (course_title : str) :
  let names := trimmed_names faculty_names in
  let general :=
    names = [] ∨
    Exists (has_keyword GENERAL_FACULTY_KEYWORDS) names ∨
    3 ≤ size (list_to_set names : gset str) ∨
    has_keyword GENERAL_TITLE_KEYWORDS course_title in
  (general →
   determine_course_category faculty_names course_title = general_education) ∧
  (¬ general →
   determine_course_category faculty_names course_title = faculty_course) ∧
  determine_course_category [lit "Dept A"; lit "Dept B"; lit "Dept C"] (lit "Any Title")
    = general_education ∧
  determine_course_category [] course_title = general_education.
Proof.
  intros names general.
  rewrite determine_course_category_trimmed. fold names.
  split; [|split; [|split; [by vm_compute | done]]].
  - unfold category_rules, general.
    intros [H | [H | [H | H]]].
    + by rewrite H.
    + destruct names; [done|].
      apply existsb_faculty_keyword in H. by rewrite H.
    + destruct names; [done|].
      rewrite (bool_decide_eq_true_2 _ H). by destruct (existsb _ _).
    + destruct names; [done|].
      apply existsb_keyword in H. rewrite H.
      by repeat match goal with |- context [if ?b then _ else _] => destruct b end.
  - unfold category_rules, general. intros Hno.
    destruct names as [|n ns] eqn:En; [destruct Hno; by left|].
    destruct (existsb _ (n :: ns)) eqn:E1.
    { destruct Hno. right; left. by apply existsb_faculty_keyword. }
    case_bool_decide as E2.
    { destruct Hno. right; right; left. done. }
    destruct (existsb _ GENERAL_TITLE_KEYWORDS) eqn:E3; [|done].
    destruct Hno. right; right; right. by apply existsb_keyword.
Qed.

(** The theorem at [["Faculty of Engineering"]] and ["Linear Algebra"]:
    none of the four conditions holds and the course is a faculty
    course. *)
Lemma determine_course_category_rules_witness :
  determine_course_category [lit "Faculty of Engineering"] (lit "Linear Algebra")
  = faculty_course.
Proof.
  apply (determine_course_category_rules [lit "Faculty of Engineering"] (lit "Linear Algebra")).
  intros [H | [H | [H | H]]].
  - vm_compute in H. discriminate.
  - apply existsb_faculty_keyword in H. vm_compute in H. discriminate.
  - vm_compute in H. lia.
  - apply existsb_keyword in H. vm_compute in H. discriminate.
Defined.

(** C4 as the claim states it fails: these three names are distinct as
    given, so the rules read on the given list classify the course as
    general education, while the function compares the trimmed names,
    finds one, and returns [faculty-course]. *)
Lemma determine_course_category_untrimmed_counterexample :
  let faculty_names := [lit "Law"; lit "Law "; lit " Law"] in
  let course_title := lit "Linear Algebra" in
  category_rules faculty_names course_title = general_education ∧
  determine_course_category faculty_names course_title = faculty_course ∧
  determine_course_category faculty_names course_title
    ≠ category_rules faculty_names course_title.
Proof. vm_compute. repeat split; discriminate. Qed.

(** On names that are already trimmed and not blank, as the metadata
    extractor produces them, the rules read on the given list are what
    the function computes. *)
Lemma determine_course_category_on_trimmed faculty_names course_title :
  Forall (fun name => strip name = name ∧ name ≠ []) faculty_names →
  determine_course_category faculty_names course_title
  = category_rules faculty_names course_title.
Proof.
  intros H. rewrite determine_course_category_trimmed. f_equal.
  unfold trimmed_names. induction H as [|name rest [Hs Hne] _ IH]; [done|].
  cbn [map fmap list_fmap]. rewrite Hs, filter_cons_True by done.
  cbn [fmap list_fmap] in IH. by rewrite IH.
Qed.

(** ** CSV serializer *)



(** An empty record list aborts and nothing is written. *)
Lemma write_csv_empty : ∃ msg, write_csv [] = Raise (SystemExit msg).
Proof. eexists. reflexivity. Qed.

(** ** Record builder *)

Lemma fold_append_results {A B} (f : A → result B) (xs : list A) (init : list B) (out : list B) :
  foldl (fun acc x => records ← acc; record ← f x; Return (records ++ [record]))
        (Return init) xs = Return out →
  ∃ rs, out = init ++ rs ∧ Forall2 (fun x r => f x = Return r) xs rs.
Proof.
  revert init. induction xs as [|x xs IH]; intros init; simpl.
  - intros [= <-]. exists []. by rewrite app_nil_r.
  - destruct (f x) as [r|e] eqn:E; simpl.
    + intros H. destruct (IH _ H) as (rs & -> & HF).
      exists (r :: rs). rewrite <- app_assoc. split; [done|]. by constructor.
    + intros H. exfalso. clear -H.
      induction xs as [|y ys IHy]; simpl in H; [discriminate|]. by apply IHy.
Qed.

Lemma fold_append_returns {A B} (f : A → result B) (xs : list A) (init : list B) (rs : list B) :
  Forall2 (fun x r => f x = Return r) xs rs →
  foldl (fun acc x => records ← acc; record ← f x; Return (records ++ [record]))
        (Return init) xs = Return (init ++ rs).
Proof.
  intros HF. revert init. induction HF as [|x r xs rs Hx _ IH]; intros init; simpl.
  - by rewrite app_nil_r.
  - rewrite Hx. simpl. rewrite IH. by rewrite <- app_assoc.
Qed.

Section Builder.

Variable lower : str -> str.

(** What [build_records] returns: one record per extracted textbook, in
    order, each built from the metadata of the document. *)
Lemma build_records_inv soup records :
  build_records lower soup = Return records →
  ∃ metadata resolved_course_title course_category base_tags,
    extract_course_metadata soup = Return metadata ∧
    course_category
      = determine_course_category (CourseMetadata.faculties metadata) resolved_course_title ∧
    base_tags
      = derive_tags lower course_category (CourseMetadata.faculties metadata)
          resolved_course_title (CourseMetadata.instruction_language metadata) ∧
    Forall2 (fun textbook r =>
               build_record lower metadata resolved_course_title course_category
                            base_tags textbook = Return r)
            (extract_textbooks lower soup) records.
Proof.
  unfold build_records.
  destruct (extract_course_metadata soup) as [metadata|e]; [|discriminate].
  simpl. intros H. apply fold_append_results in H as (rs & -> & HF).
  eexists metadata, _, _, _. repeat split; try reflexivity. exact HF.
Qed.

Lemma build_record_fields metadata title category tags textbook r :
  build_record lower metadata title category tags textbook = Return r →
  textbook !! k_title = Some (textbook_title r) ∧
  textbook_title_reading r = dict_get k_reading [] textbook ∧
  authors r = dict_get k_authors [] textbook ∧
  publisher r = dict_get k_publisher [] textbook ∧
  note r = dict_get k_note [] textbook ∧
  isbn r = [] ∧
  publication_year r = [] ∧
  faculty_names r = CourseMetadata.faculties metadata ∧
  course_category r = category ∧
  tag_names r =
    join comma
      (sorted (elements
         (if detect_international_course lower (dict_get k_note [] textbook)
          then list_to_set tags ∪ {[ international_student ]}
          else list_to_set tags : gset str))).
Proof.
  unfold build_record, getitem.
  destruct (textbook !! k_title) as [t|]; [|discriminate].
  simpl. intros [= <-]. simpl. repeat split; done.
Qed.

End Builder.

(** ** Batch annotator: the store *)

Lemma set_note_same r : set_note r (note r) = r.
Proof. by destruct r. Qed.

Lemma set_note_set_note r a b : set_note (set_note r a) b = set_note r b.
Proof. done. Qed.

Lemma appended_fixed existing addition :
  str_in addition existing = true → appended existing addition = existing.
Proof. unfold appended. intros ->. by destruct (negb _). Qed.

Lemma appended_contains existing addition :
  addition ≠ [] → str_in addition (appended existing addition) = true.
Proof.
  intros Hne. unfold appended. apply truthy_true in Hne. rewrite Hne. cbn [negb].
  destruct (str_in addition existing) eqn:E; [done|].
  destruct (truthy existing).
  - apply str_in_app_r, str_in_app_r, str_in_refl.
  - apply str_in_refl.
Qed.

Lemma appended_mono fragment existing addition :
  str_in fragment existing = true →
  str_in fragment (appended existing addition) = true.
Proof.
  intros H. unfold appended.
  destruct (negb _); [done|]. destruct (str_in addition existing); [done|].
  destruct (truthy existing) eqn:E.
  - by apply str_in_app_l.
  - apply truthy_false in E. subst. apply str_in_spec in H as (b & a & H).
    symmetry in H. apply app_eq_nil in H as [-> H]. apply app_eq_nil in H as [-> ->].
    apply str_in_spec. exists [], addition. done.
Qed.

Lemma appended_idem existing addition :
  appended (appended existing addition) addition = appended existing addition.
Proof.
  destruct addition as [|c s] eqn:E; [done|]. rewrite <- E.
  apply appended_fixed, appended_contains. by subst.
Qed.

Lemma alter_fixed {A} (f : A → A) (i : nat) (l : list A) :
  (∀ x, l !! i = Some x → f x = x) → alter f i l = l.
Proof.
  intros H. apply list_eq. intros j. rewrite list_lookup_alter.
  case_decide; [subst|done]. destruct (l !! j) eqn:E; [|done]. simpl. by rewrite H.
Qed.

Lemma insert_alter_at {A} (f : A → A) (i : nat) (l : list A) x :
  l !! i = Some x → <[i := f x]> l = alter f i l.
Proof.
  intros H. apply list_eq. intros j. rewrite list_lookup_alter.
  destruct (decide (i = j)) as [->|Hne].
  - rewrite H. simpl. apply list_lookup_insert_eq. by eapply lookup_lt_Some.
  - by apply list_lookup_insert_ne.
Qed.

Lemma append_note_alter i addition σ :
  append_note i addition σ
  = alter (fun r => set_note r (appended (note r) addition)) i σ.
Proof.
  unfold append_note. destruct (σ !! i) as [r|] eqn:E.
  - unfold appended.
    destruct (negb (truthy addition)) eqn:E1.
    { symmetry. apply alter_fixed. intros x Hx. apply set_note_same. }
    destruct (str_in addition (note r)) eqn:E2.
    { symmetry. apply alter_fixed. intros x Hx.
      assert (x = r) as -> by congruence. rewrite E2. apply set_note_same. }
    rewrite <- (insert_alter_at (fun r => set_note r _) i σ r E).
    cbv beta. rewrite E2. by destruct (truthy (note r)).
  - symmetry. apply alter_fixed. intros x Hx. congruence.
Qed.

Lemma annotate_alias_alter titles_by_code σ i :
  annotate_alias titles_by_code σ i = alter (alias_update titles_by_code) i σ.
Proof.
  unfold annotate_alias. destruct (σ !! i) as [r|] eqn:E.
  2:{ symmetry. apply alter_fixed. intros x Hx. congruence. }
  rewrite <- (insert_alter_at (alias_update titles_by_code) i σ r E).
  unfold alias_update.
  destruct (negb (truthy (course_code r))); [symmetry; by apply list_insert_id|].
  case_bool_decide; [symmetry; by apply list_insert_id|].
  destruct (sorted _) as [|t ts] eqn:Es; [symmetry; by apply list_insert_id|].
  rewrite append_note_alter. by rewrite <- (insert_alter_at _ i σ r E).
Qed.

Lemma annotate_scope_alter σ i : annotate_scope σ i = alter scope_update i σ.
Proof.
  unfold annotate_scope. destruct (σ !! i) as [r|] eqn:E.
  2:{ symmetry. apply alter_fixed. intros x Hx. congruence. }
  rewrite <- (insert_alter_at scope_update i σ r E).
  unfold scope_update.
  set (unique_faculties := sorted (elements (list_to_set (faculty_names r) : gset str))).
  rewrite !append_note_alter.
  case_bool_decide.
  - destruct (str_eqb (course_category r) general_education).
    + rewrite list_alter_alter_eq. by rewrite <- (insert_alter_at _ i σ r E).
    + by rewrite <- (insert_alter_at _ i σ r E).
  - destruct (str_eqb (course_category r) general_education).
    + by rewrite <- (insert_alter_at _ i σ r E).
    + symmetry. by apply list_insert_id.
Qed.

(** A pass that applies the same update to every listed record. *)
Section Pass.

Variable update : TextbookRecord → TextbookRecord.
Hypothesis update_idem : ∀ r, update (update r) = update r.

Lemma pass_lookup (records : list nat) (σ : store) (j : nat) :
  foldl (fun σ i => alter update i σ) σ records !! j
  = (if bool_decide (j ∈ records) then update else id) <$> σ !! j.
Proof.
  revert σ. induction records as [|i records IH]; intros σ.
  - cbn [foldl]. rewrite bool_decide_eq_false_2 by apply not_elem_of_nil.
    by destruct (σ !! j).
  - cbn [foldl]. rewrite IH, list_lookup_alter.
    destruct (decide (i = j)) as [->|Hne].
    + rewrite (bool_decide_eq_true_2 (j ∈ j :: records)) by apply list_elem_of_here.
      destruct (σ !! j) as [r|]; [|done]. simpl.
      case_bool_decide; simpl; by rewrite ?update_idem.
    + destruct (σ !! j) as [r|]; [|done]. simpl. f_equal.
      case_bool_decide as H1; case_bool_decide as H2; try done.
      * destruct H2. by apply list_elem_of_further.
      * apply elem_of_cons in H2 as [?|?]; [congruence|done].
Qed.

Lemma pass_idem (records : list nat) (σ : store) :
  foldl (fun σ i => alter update i σ)
        (foldl (fun σ i => alter update i σ) σ records) records
  = foldl (fun σ i => alter update i σ) σ records.
Proof.
  apply list_eq. intros j. rewrite !pass_lookup.
  destruct (σ !! j) as [r|]; [|done]. simpl. f_equal.
  case_bool_decide; [apply update_idem | done].
Qed.

End Pass.

Lemma scope_update_idem r : scope_update (scope_update r) = scope_update r.
Proof.
  unfold scope_update.
  set (unique_faculties := sorted (elements (list_to_set (faculty_names r) : gset str))).
  assert (Hscope : faculty_scope_note unique_faculties ≠ []) by done.
  assert (Hgen : general_education_note ≠ []) by done.
  case_bool_decide as H1; destruct (str_eqb (course_category r) general_education) eqn:H2;
    cbn [faculty_names course_category note set_note]; fold unique_faculties;
    rewrite ?(bool_decide_eq_true_2 _ H1), ?(bool_decide_eq_false_2 _ H1), ?H2;
    cbn [faculty_names course_category note set_note].
  - rewrite (appended_fixed (appended (appended (note r) _) _) (faculty_scope_note _))
      by (apply appended_mono; by apply appended_contains).
    by rewrite appended_idem, !set_note_set_note.
  - by rewrite appended_idem.
  - by rewrite appended_idem.
  - done.
Qed.

Lemma alias_update_key titles_by_code r :
  course_code (alias_update titles_by_code r) = course_code r ∧
  course_title (alias_update titles_by_code r) = course_title r.
Proof.
  unfold alias_update.
  destruct (negb _); [done|]. case_bool_decide; [done|].
  by destruct (sorted _).
Qed.

Lemma alias_update_idem titles_by_code r :
  alias_update titles_by_code (alias_update titles_by_code r)
  = alias_update titles_by_code r.
Proof.
  unfold alias_update.
  destruct (negb (truthy (course_code r))) eqn:E1; [by rewrite E1|].
  case_bool_decide as E2; [by rewrite E1, (bool_decide_eq_true_2 _ E2)|].
  destruct (sorted _) as [|t ts] eqn:E3.
  - by rewrite E1, (bool_decide_eq_false_2 _ E2), E3.
  - cbn [course_code course_title note set_note].
    by rewrite E1, (bool_decide_eq_false_2 _ E2), E3, appended_idem.
Qed.

Lemma collect_titles_ext records (σ σ' : store) :
  (∀ i, (fun r => (course_code r, course_title r)) <$> σ' !! i
        = (fun r => (course_code r, course_title r)) <$> σ !! i) →
  collect_titles records σ' = collect_titles records σ.
Proof.
  intros Hkey. unfold collect_titles. generalize (∅ : gmap str (gset str)).
  induction records as [|i records IH]; intros acc; [done|].
  cbn [foldl]. rewrite <- IH. f_equal.
  specialize (Hkey i).
  destruct (σ' !! i) as [r'|], (σ !! i) as [r|]; simpl in Hkey; try done.
  by injection Hkey as -> ->.
Qed.

Lemma foldl_ext_fun {A B} (f g : A → B → A) (a : A) (l : list B) :
  (∀ x y, f x y = g x y) → foldl f a l = foldl g a l.
Proof.
  intros H. revert a. induction l as [|y l IH]; intros a; [done|].
  simpl. by rewrite H, IH.
Qed.

Lemma annotate_aliases_pass records σ :
  annotate_aliases records σ
  = foldl (fun s i => alter (alias_update (collect_titles records σ)) i s) σ records.
Proof.
  unfold annotate_aliases. apply foldl_ext_fun. intros. apply annotate_alias_alter.
Qed.

Lemma annotate_faculty_scope_pass records σ :
  annotate_faculty_scope records σ
  = foldl (fun σ i => alter scope_update i σ) σ records.
Proof.
  unfold annotate_faculty_scope. apply foldl_ext_fun. intros. apply annotate_scope_alter.
Qed.

Lemma annotate_aliases_idem records σ :
  annotate_aliases records (annotate_aliases records σ) = annotate_aliases records σ.
Proof.
  rewrite (annotate_aliases_pass records (annotate_aliases records σ)).
  assert (collect_titles records (annotate_aliases records σ) = collect_titles records σ)
    as ->.
  { apply collect_titles_ext. intros i. rewrite annotate_aliases_pass.
    rewrite pass_lookup by apply alias_update_idem.
    destruct (σ !! i) as [r|]; [|done]. simpl.
    case_bool_decide; [|done].
    by destruct (alias_update_key (collect_titles records σ) r) as [-> ->]. }
  rewrite annotate_aliases_pass. apply pass_idem, alias_update_idem.
Qed.

Lemma annotate_faculty_scope_idem records σ :
  annotate_faculty_scope records (annotate_faculty_scope records σ)
  = annotate_faculty_scope records σ.
Proof.
  rewrite !annotate_faculty_scope_pass. apply pass_idem, scope_update_idem.
Qed.

Lemma append_note_unchanged i addition σ r :
  σ !! i = Some r →
  addition = [] ∨ occurs_in addition (note r) →
  append_note i addition σ = σ.
Proof.
  intros Hi H. unfold append_note. rewrite Hi.
  destruct H as [->|H]; [done|].
  apply str_in_spec in H. rewrite H. by destruct (negb _).
Qed.

Lemma append_note_appends i addition σ r :
  σ !! i = Some r →
  addition ≠ [] → ¬ occurs_in addition (note r) →
  append_note i addition σ
  = <[i := set_note r (if bool_decide (note r = []) then addition
                       else note r ++ lit " / " ++ addition)]> σ.
Proof.
  intros Hi Hne Hno. unfold append_note. rewrite Hi.
  apply truthy_true in Hne. rewrite Hne. cbn [negb].
  destruct (str_in addition (note r)) eqn:E.
  { by apply str_in_spec in E. }
  destruct (note r); simpl; done.
Qed.

(** C8.  Both passes of the batch annotator are idempotent: on every
    store and every list of record references (a record may be listed
    more than once), running [annotate_aliases] twice leaves the store,
    and so every note, as one run leaves it, and likewise for
    [annotate_faculty_scope].  [append_note] leaves the record alone
    when the fragment is empty or already occurs in the note, and
    otherwise sets the note to the fragment, after the old note and the
    separator [" / "] when the old note is not empty. *)
Theorem annotator_passes_idempotent (records : list nat) (σ : store) :
  annotate_aliases records (annotate_aliases records σ)
    = annotate_aliases records σ ∧
  annotate_faculty_scope records (annotate_faculty_scope records σ)
    = annotate_faculty_scope records σ ∧
  (∀ i r addition,
     σ !! i = Some r →
     (addition = [] ∨ occurs_in addition (note r) → append_note i addition σ = σ) ∧
     (addition ≠ [] → ¬ occurs_in addition (note r) →
      append_note i addition σ
      = <[i := set_note r (if bool_decide (note r = []) then addition
                           else note r ++ lit " / " ++ addition)]> σ)).
Proof.
  split; [apply annotate_aliases_idem|].
  split; [apply annotate_faculty_scope_idem|].
  intros i r addition Hi. split.
  - by apply append_note_unchanged.
  - by apply append_note_appends.
Qed.

(** The theorem on a store of three records, the second listed twice:
    appending a fragment that the note of the second record lacks. *)
Lemma annotator_passes_idempotent_witness :
  append_note 1 (lit "see errata") sample_store
  = <[1 := sample_record "XYZ9" "General Physics" ["Science"; "Engineering"]%string
             faculty_course "used weekly / see errata"]> sample_store.
Proof.
  destruct (annotator_passes_idempotent [0; 1; 1; 2] sample_store) as (_ & _ & H).
  destruct (H 1 (sample_record "XYZ9" "General Physics" ["Science"; "Engineering"]%string
                   faculty_course "used weekly")
              (lit "see errata") eq_refl) as [_ Happ].
  rewrite Happ.
  - reflexivity.
  - discriminate.
  - intros Hocc. apply str_in_spec in Hocc. vm_compute in Hocc. discriminate.
Defined.

(** §8: two records that share the code XYZ9 under different titles each
    get a note naming the title of the other. *)
Lemma alias_pass_example :
  map note (annotate_aliases [0; 1; 2] sample_store)
  = [ lit "別名称: General Physics";
      lit "used weekly / 別名称: Physics I";
      [] ].
Proof. by vm_compute. Qed.

(** ** Identifier parser *)

Lemma take_drop_while p s : take_while p s ++ drop_while p s = s.
Proof. induction s as [|c s IH]; simpl; [done|]. destruct (p c); simpl; by rewrite ?IH. Qed.

Lemma take_while_Forall p s : Forall (fun x => p x = true) (take_while p s).
Proof.
  induction s as [|c s IH]; simpl; [constructor|].
  destruct (p c) eqn:E; by constructor.
Qed.

Lemma drop_while_head p s :
  drop_while p s = [] ∨ ∃ c s', drop_while p s = c :: s' ∧ p c = false.
Proof.
  induction s as [|c s IH]; simpl; [by left|].
  destruct (p c) eqn:E; [done|]. right. eauto.
Qed.

Lemma take_while_app p a rest :
  Forall (fun x => p x = true) a →
  (rest = [] ∨ ∃ c rest', rest = c :: rest' ∧ p c = false) →
  take_while p (a ++ rest) = a ∧ drop_while p (a ++ rest) = rest.
Proof.
  intros Ha Hrest. induction Ha as [|x a Hx _ IH]; simpl.
  - destruct Hrest as [->|(c & rest' & -> & Hc)]; simpl; [done|]. by rewrite Hc.
  - rewrite Hx. destruct IH as [-> ->]. done.
Qed.

Lemma run_length_take_while cls s : run_length cls s = length (take_while cls s).
Proof. induction s as [|c s IH]; simpl; [done|]. destruct (cls c); simpl; by rewrite ?IH. Qed.

Lemma run_length_le cls s : run_length cls s ≤ length s.
Proof. induction s as [|c s IH]; simpl; [done|]. destruct (cls c); simpl; lia. Qed.

Lemma drop_run_length cls s : drop (run_length cls s) s = drop_while cls s.
Proof. induction s as [|c s IH]; simpl; [done|]. by destruct (cls c). Qed.

Lemma take_run_length cls s m :
  m ≤ run_length cls s → Forall (fun x => cls x = true) (take m s).
Proof.
  revert m. induction s as [|c s IH]; intros m; simpl.
  - intros _. destruct m; constructor.
  - destruct (cls c) eqn:E.
    + destruct m; simpl; [constructor|]. intros H. constructor; [done|]. apply IH. lia.
    + intros H. assert (m = 0) as -> by lia. constructor.
Qed.

Lemma try_lengths_Some k n s r :
  try_lengths k n s = Some r →
  ∃ m caps, 1 ≤ m ≤ n ∧ k (drop m s) = Some caps ∧ r = take m s :: caps.
Proof.
  induction n as [|n IH]; simpl; [done|].
  destruct (k (drop (S n) s)) as [caps|] eqn:E.
  - intros [= <-]. exists (S n), caps. repeat split; [lia|lia|done].
  - intros H. destruct (IH H) as (m & caps & Hm & Hk & ->).
    exists m, caps. repeat split; [lia|lia|done].
Qed.

Lemma try_lengths_greedy k n s caps :
  1 ≤ n → k (drop n s) = Some caps → try_lengths k n s = Some (take n s :: caps).
Proof. destruct n; [lia|]. intros _ H. simpl. by rewrite H. Qed.

Lemma code_char_spec x :
  code_char x = true ↔ isspace x = false ∧ x ≠ ascii_colon ∧ x ≠ full_width_colon.
Proof.
  unfold code_char, is_colon.
  rewrite negb_true_iff, !orb_false_iff, !N.eqb_neq. tauto.
Qed.

Lemma is_colon_spec c : is_colon c = true ↔ c = ascii_colon ∨ c = full_width_colon.
Proof. unfold is_colon. rewrite orb_true_iff, !N.eqb_eq. tauto. Qed.

Lemma dot_spec x : dot x = true ↔ x ≠ 10%N.
Proof. unfold dot. by rewrite negb_true_iff, N.eqb_neq. Qed.

Lemma re_match_identifier value code title :
  identifier_match value code title →
  ∃ c, re_match course_identifier_pattern value = Some [code; [c]; title].
Proof.
  intros (c & rest & -> & Hne & Hcode & Hc & Htne & Htitle & Hrest).
  exists c. unfold course_identifier_pattern. cbn [re_match].
  assert (Hcc : code_char c = false).
  { apply not_true_iff_false. rewrite code_char_spec. tauto. }
  assert (Hrun : run_length code_char (code ++ c :: title ++ rest) = length code).
  { rewrite run_length_take_while.
    destruct (take_while_app code_char code (c :: title ++ rest)) as [-> _]; [|by eauto|done].
    eapply Forall_impl; [exact Hcode|]. intros x Hx. by apply code_char_spec. }
  rewrite Hrun.
  assert (Hdot : run_length dot (title ++ rest) = length title).
  { rewrite run_length_take_while.
    destruct (take_while_app dot title rest) as [-> _]; [| |done].
    - eapply Forall_impl; [exact Htitle|]. intros x Hx. by apply dot_spec.
    - destruct Hrest as [->|(rest' & ->)]; [by left|]. right. by eexists _, _. }
  rewrite (try_lengths_greedy _ _ _ [[c]; title]).
  - by rewrite take_app_length.
  - destruct code; [done|]. simpl. lia.
  - rewrite drop_app_length.
    apply is_colon_spec in Hc. rewrite Hc, Hdot.
    rewrite (try_lengths_greedy _ _ _ []).
    + by rewrite take_app_length.
    + destruct title; [done|]. simpl. lia.
    + done.
Qed.

Lemma re_match_identifier_inv value caps :
  re_match course_identifier_pattern value = Some caps →
  ∃ code c title, caps = [code; [c]; title] ∧ identifier_match value code title.
Proof.
  unfold course_identifier_pattern. cbn [re_match]. intros H.
  apply try_lengths_Some in H as (m & caps1 & Hm & Hk & ->).
  destruct (drop m value) as [|c s] eqn:Ed; [done|].
  destruct (is_colon c) eqn:Ec; [|done].
  destruct (try_lengths _ _ s) as [caps2|] eqn:Et; [|done].
  injection Hk as <-.
  pose proof Et as Et'.
  apply try_lengths_Some in Et' as (m' & caps3 & Hm' & Hk' & ->).
  injection Hk' as <-.
  assert (m' = run_length dot s) as ->.
  { rewrite (try_lengths_greedy _ (run_length dot s) s []) in Et by (done || lia).
    injection Et as Et. apply (f_equal length) in Et.
    rewrite !length_take in Et.
    pose proof (run_length_le dot s). lia. }
  exists (take m value), c, (take (run_length dot s) s). split; [done|].
  exists c, (drop (run_length dot s) s). repeat split.
  - by rewrite take_drop, <- Ed, take_drop.
  - intros Hnil. apply (f_equal length) in Hnil. rewrite length_take in Hnil.
    assert (m ≤ length value); [|simpl in Hnil; lia].
    destruct (decide (m ≤ length value)); [done|].
    rewrite drop_ge in Ed by lia. done.
  - eapply Forall_impl; [apply (take_run_length code_char); lia|].
    intros x Hx. by apply code_char_spec.
  - by apply is_colon_spec.
  - intros Hnil. apply (f_equal length) in Hnil. rewrite length_take in Hnil.
    pose proof (run_length_le dot s). simpl in Hnil. lia.
  - eapply Forall_impl; [apply (take_run_length dot); lia|].
    intros x Hx. by apply dot_spec.
  - rewrite drop_run_length.
    destruct (drop_while_head dot s) as [->|(c' & s' & -> & Hc')]; [by left|].
    right. exists s'. f_equal. unfold dot in Hc'.
    apply negb_false_iff, N.eqb_eq in Hc'. done.
Qed.

Lemma drop_while_none p s : Forall (fun x => p x = false) s → drop_while p s = s.
Proof. destruct 1 as [|x s Hx _]; simpl; [done|]. by rewrite Hx. Qed.

Lemma strip_no_space s : Forall (fun x => isspace x = false) s → strip s = s.
Proof.
  intros H. unfold strip, lstrip, rstrip.
  rewrite (drop_while_none _ s H).
  rewrite drop_while_none by by apply Forall_reverse.
  apply reverse_involutive.
Qed.

Lemma split_two_parts value first second :
  two_parts value first second → split_maxsplit1 value = [first; second].
Proof.
  intros (leading & gap & c & second' & -> & Hl & Hne & Hf & Hgne & Hg & -> & Hc).
  unfold split_maxsplit1.
  destruct first as [|f first]; [done|]. clear Hne.
  destruct gap as [|g gap]; [done|]. clear Hgne.
  apply Forall_cons in Hf as [Hf0 Hf]. apply Forall_cons in Hg as [Hg0 Hg].
  destruct (take_while_app isspace leading ((f :: first) ++ (g :: gap) ++ c :: second'))
    as [_ ->]; [done|right; by eexists _, _|].
  set (nonspace := fun c => negb (isspace c)).
  destruct (take_while_app nonspace (f :: first) ((g :: gap) ++ c :: second'))
    as [Ht Hd].
  { constructor; [unfold nonspace; by rewrite Hf0|].
    eapply Forall_impl; [exact Hf|]. intros x Hx. unfold nonspace. by rewrite Hx. }
  { right. eexists _, _. split; [done|]. unfold nonspace. by rewrite Hg0. }
  cbn [app] in *. rewrite Ht, Hd.
  destruct (take_while_app isspace (g :: gap) (c :: second')) as [_ Hd2].
  { by constructor. }
  { right. by eexists _, _. }
  cbn [app] in Hd2. by rewrite Hd2.
Qed.

Lemma split_two_parts_inv value first second :
  split_maxsplit1 value = [first; second] → two_parts value first second.
Proof.
  unfold split_maxsplit1.
  set (nonspace := fun c => negb (isspace c)).
  destruct (drop_while isspace value) as [|t tok] eqn:Etok; [done|].
  destruct (drop_while isspace (drop_while nonspace (t :: tok))) as [|c second']
    eqn:Erest; [done|].
  intros [= <- <-].
  exists (take_while isspace value),
         (take_while isspace (drop_while nonspace (t :: tok))), c, second'.
  assert (Ht : isspace t = false).
  { destruct (drop_while_head isspace value) as [H|(c0 & s0 & H & Hc0)]; congruence. }
  assert (Hc : isspace c = false).
  { destruct (drop_while_head isspace (drop_while nonspace (t :: tok)))
      as [H|(c0 & s0 & H & Hc0)]; congruence. }
  change (if nonspace t then t :: take_while nonspace tok else [])
    with (take_while nonspace (t :: tok)).
  repeat split.
  - rewrite <- Erest, take_drop_while, take_drop_while, <- Etok.
    by rewrite take_drop_while.
  - apply take_while_Forall.
  - simpl. unfold nonspace at 1. by rewrite Ht.
  - eapply Forall_impl; [apply take_while_Forall|].
    intros x Hx. unfold nonspace in Hx. by apply negb_true_iff in Hx.
  - destruct (drop_while_head nonspace (t :: tok)) as [H|(c0 & s0 & H & Hc0)].
    + rewrite H in Erest. done.
    + rewrite H. simpl. unfold nonspace in Hc0. apply negb_false_iff in Hc0.
      by rewrite Hc0.
  - apply take_while_Forall.
  - done.
Qed.

(** C3 (as amended).  [parse_course_identifier] is a total function to
    pairs of strings.  If the string starts with a non-empty token free
    of whitespace and colons, then a colon (ASCII or full-width), then
    some text, it returns the token and the rest of that line, trimmed.
    Otherwise, if the string splits at its first whitespace run into
    exactly two parts, it returns the first part and the second part
    trimmed.  Otherwise it returns the whole trimmed string as the code,
    with an empty title. *)
Theorem parse_course_identifier_cases (value : str) :
  (∀ code title,
     identifier_match value code title →
     parse_course_identifier value = (code, strip title)) ∧
  ((∀ code title, ¬ identifier_match value code title) →
   (∀ first second,
      two_parts value first second →
      parse_course_identifier value = (first, strip second)) ∧
   ((∀ first second, ¬ two_parts value first second) →
    parse_course_identifier value = (strip value, []))).
Proof.
  split.
  - intros code title H. apply re_match_identifier in H as [c H].
    unfold parse_course_identifier. by rewrite H.
  - intros Hno.
    assert (Hnone : re_match course_identifier_pattern value = None).
    { destruct (re_match course_identifier_pattern value) as [caps|] eqn:E; [|done].
      apply re_match_identifier_inv in E as (code & c & title & _ & H).
      by destruct (Hno code title). }
    unfold parse_course_identifier. rewrite Hnone. split.
    + intros first second H. pose proof H as Hparts.
      apply split_two_parts in H. rewrite H.
      destruct Hparts as (_ & _ & _ & _ & _ & _ & _ & Hf & _).
      by rewrite (strip_no_space first).
    + intros Hno2.
      destruct (split_maxsplit1 value) as [|a [|b [|? ?]]] eqn:E; try done.
      apply split_two_parts_inv in E. by destruct (Hno2 a b).
Qed.

(** The theorem at ["CS101：Intro to Programming"], with the full-width
    colon. *)
Lemma parse_course_identifier_cases_witness :
  parse_course_identifier (lit "CS101：Intro to Programming")
  = (lit "CS101", strip (lit "Intro to Programming")).
Proof.
  apply (proj1 (parse_course_identifier_cases (lit "CS101：Intro to Programming"))).
  exists full_width_colon, [].
  vm_compute. repeat split; try discriminate; try (right; reflexivity);
    try (left; reflexivity); repeat constructor; discriminate.
Defined.

(** C3 as the claim states it fails in its third case: ["Seminar"] does
    not match the pattern and does not split into two parts, and the
    function returns it as the code with an empty title, not as the
    title with an empty code. *)
Lemma parse_course_identifier_seminar_counterexample :
  (∀ code title, ¬ identifier_match (lit "Seminar") code title) ∧
  (∀ first second, ¬ two_parts (lit "Seminar") first second) ∧
  parse_course_identifier (lit "Seminar") = (lit "Seminar", []) ∧
  parse_course_identifier (lit "Seminar") ≠ whole_string_as_title (lit "Seminar").
Proof.
  split; [|split; [|split]].
  - intros code title H. apply re_match_identifier in H as [c H].
    vm_compute in H. discriminate.
  - intros first second H. apply split_two_parts in H. vm_compute in H. discriminate.
  - by vm_compute.
  - vm_compute. discriminate.
Qed.

(** The examples of §8. *)
Lemma parse_course_identifier_examples :
  parse_course_identifier (lit "CS101：Intro to Programming")
    = (lit "CS101", lit "Intro to Programming") ∧
  parse_course_identifier (lit "Basic Math") = (lit "Basic", lit "Math") ∧
  parse_course_identifier (lit "Seminar") = (lit "Seminar", lit "").
Proof. by vm_compute. Qed.

(** ** Metadata extractor *)

(** C6 (as amended).  [extract_course_metadata] fails, with a
    [ValueError], if and only if the course-info table is absent, or
    that table has fewer than two rows, or its second row has no [td]
    cell; for every other document it returns a [CourseMetadata]. *)
Theorem extract_course_metadata_failure (soup : node) :
  let failing :=
    select_one_course_table soup = None ∨
    (∃ table, select_one_course_table soup = Some table ∧
              length (find_all [lit "tr"] table) < 2) ∨
    (∃ table row, select_one_course_table soup = Some table ∧
                  find_all [lit "tr"] table !! 1 = Some row ∧
                  find_all [lit "td"] row = []) in
  (failing → ∃ msg, extract_course_metadata soup = Raise (ValueError msg)) ∧
  (¬ failing → ∃ metadata, extract_course_metadata soup = Return metadata).
Proof.
  intros failing. unfold failing, extract_course_metadata.
  destruct (select_one_course_table soup) as [table|].
  2:{ split; [eauto|]. intros H. destruct H. by left. }
  destruct (find_all [lit "tr"] table) as [|row0 [|row1 rows]] eqn:Erows.
  - split; [eauto|]. intros H. destruct H. right; left. exists table.
    rewrite Erows. simpl. split; [done|lia].
  - split; [eauto|]. intros H. destruct H. right; left. exists table.
    rewrite Erows. simpl. split; [done|lia].
  - rewrite length_map.
    destruct (find_all [lit "td"] row1) as [|cell cells] eqn:Ecells.
    + split; [eauto|]. intros H. destruct H. right; right. exists table, row1.
      by rewrite Erows.
    + split.
      * intros [H | [(t & [= <-] & H) | (t & row & [= <-] & H1 & H2)]]; [done| |].
        { rewrite Erows in H. simpl in H. lia. }
        rewrite Erows in H1. injection H1 as <-. congruence.
      * intros _. rewrite bool_decide_eq_false_2 by (simpl; lia).
        destruct (parse_course_identifier _). eauto.
Qed.

(** The theorem on the sample page: the table is there with two rows and
    a data cell, and the metadata is returned. *)
Lemma extract_course_metadata_failure_witness :
  ∃ metadata, extract_course_metadata sample_document = Return metadata.
Proof.
  apply (extract_course_metadata_failure sample_document).
  intros [H | [(t & H1 & H2) | (t & row & H1 & H2 & H3)]].
  - vm_compute in H. discriminate.
  - vm_compute in H1. injection H1 as <-. vm_compute in H2. lia.
  - vm_compute in H1. injection H1 as <-. vm_compute in H2. injection H2 as <-.
    vm_compute in H3. discriminate.
Defined.

(** C6 as the claim states it fails: here the course-info table is
    present and has two rows, and the extractor still raises, because
    the second row has no [td] cell. *)
Lemma extract_course_metadata_no_cells_counterexample :
  ∃ table,
    select_one_course_table document_without_data_cells = Some table ∧
    2 ≤ length (find_all [lit "tr"] table) ∧
    extract_course_metadata document_without_data_cells
    = Raise (ValueError "Course metadata row missing expected columns").
Proof. eexists. split; [by vm_compute|]. split; [vm_compute; lia | by vm_compute]. Qed.

(** ** Textbook table extractor *)

Lemma strip_nil : strip [] = [].
Proof. done. Qed.

Lemma row_step_entry header_map textbooks row :
  row_step header_map textbooks row
  = textbooks ++
    (if bool_decide (resolved_title header_map row ≠ [])
     then [row_entry header_map row] else []).
Proof.
  unfold row_step, row_entry, resolved_title.
  destruct (find_all [lit "td"; lit "th"] row) as [|cell cells] eqn:E.
  - case_bool_decide as H; [|by rewrite app_nil_r].
    destruct H. unfold row_values, dict_get. simpl. by rewrite lookup_empty.
  - destruct (strip _) as [|c s] eqn:Et; cbn [truthy negb].
    + case_bool_decide as H; [done | by rewrite app_nil_r].
    + case_bool_decide as H; [done | discriminate H].
Qed.

Lemma foldl_row_step header_map textbooks rows :
  foldl (row_step header_map) textbooks rows
  = textbooks ++
    map (row_entry header_map)
        (filter (fun row => resolved_title header_map row ≠ []) rows).
Proof.
  revert textbooks. induction rows as [|row rows IH]; intros textbooks.
  - by rewrite app_nil_r.
  - cbn [foldl]. rewrite IH, row_step_entry, <- app_assoc. f_equal.
    case_bool_decide as H.
    + by rewrite filter_cons_True.
    + by rewrite filter_cons_False by (intros Hn; by apply Hn).
Qed.

Lemma row_entry_title header_map row :
  dict_get k_title [] (row_entry header_map row) = resolved_title header_map row.
Proof. unfold row_entry, textbook_entry, dict_get. by rewrite lookup_insert_eq. Qed.

(** ** Title of a data row *)

Lemma cell_step_field header_map values index cell :
  cell_step header_map values (index, cell)
  = match column_field header_map index with
    | Some field => <[field := get_text_strip cell]> values
    | None => positional_fallback index (get_text_strip cell) values
    end.
Proof.
  unfold cell_step, column_field.
  destruct header_map as [|h header_map]; [done|].
  case_bool_decide as Hlt.
  - destruct (lookup_lt_is_Some_2 (h :: header_map) index Hlt) as [key Hkey].
    rewrite Hkey. cbn [default]. unfold id.
    destruct key as [field|]; [|done]. by destruct (truthy field).
  - rewrite lookup_ge_None_2 by lia. done.
Qed.

Lemma positional_fallback_title index text_ values :
  positional_fallback index text_ values !! k_title
  = match values !! k_title with
    | Some title => Some title
    | None => if bool_decide (index = 0) then Some text_ else None
    end.
Proof.
  destruct index as [|[|[|[|[|index]]]]];
    unfold positional_fallback, setdefault; cbn [bool_decide decide_rel];
    repeat match goal with
           | |- context [match ?d !! ?k with _ => _ end] => destruct (d !! k) eqn:?
           end;
    rewrite ?lookup_insert_ne by done; rewrite ?lookup_insert_eq;
    try congruence; by simplify_eq.
Qed.

Lemma fold_cells_title header_map values indexed :
  Forall (fun cell => cell.1 ≠ 0) (tail indexed) →
  foldl (cell_step header_map) values indexed !! k_title
  = match last (omap (title_cell header_map) indexed) with
    | Some title => Some title
    | None =>
      match values !! k_title with
      | Some title => Some title
      | None =>
        match column_field header_map 0, indexed with
        | None, (0, cell) :: _ => Some (get_text_strip cell)
        | _, _ => None
        end
      end
    end.
Proof.
  revert values. induction indexed as [|[index cell] rest IH]; intros values Hrest.
  - cbn. destruct (values !! k_title); [done|]. by destruct (column_field header_map 0).
  - cbn [tail] in Hrest. cbn [foldl]. rewrite IH by (destruct Hrest; [constructor|done]).
    cbn [omap list_omap]. fold (omap (title_cell header_map) rest).
    assert (match column_field header_map 0, rest with
            | None, (0, cell') :: _ => Some (get_text_strip cell')
            | _, _ => None
            end = None) as ->.
    { destruct (column_field header_map 0); [done|].
      destruct Hrest as [|[[|index'] cell'] rest' Hne _]; [done| |done].
      by destruct Hne. }
    rewrite cell_step_field. unfold title_cell at 2. cbn [fst snd].
    destruct (column_field header_map index) as [field|] eqn:Efield.
    + case_bool_decide as Htitle.
      * injection Htitle as ->. rewrite last_cons, lookup_insert_eq.
        by destruct (last _).
      * rewrite lookup_insert_ne by congruence.
        destruct (last _); [done|]. destruct (values !! k_title); [done|].
        destruct (column_field header_map 0) eqn:E0; [done|].
        destruct index; [congruence | done].
    + rewrite bool_decide_eq_false_2 by done. rewrite positional_fallback_title.
      destruct (last _); [done|]. destruct (values !! k_title); [done|].
      destruct index as [|index]; cbn [bool_decide decide_rel]; [by rewrite Efield|].
      by destruct (column_field header_map 0).
Qed.

Lemma imap_pair_tail (cells : list node) :
  Forall (fun cell : nat * node => cell.1 ≠ 0) (tail (imap pair cells)).
Proof.
  destruct cells as [|cell cells]; [constructor|]. cbn [imap tail].
  apply Forall_lookup. intros i [index c]. rewrite list_lookup_imap.
  destruct (cells !! i); [|done]. by intros [= <- <-].
Qed.

Lemma resolved_title_row_title header_map row :
  resolved_title header_map row = row_title header_map row.
Proof.
  unfold resolved_title, row_title, row_values, dict_get. f_equal.
  rewrite fold_cells_title by apply imap_pair_tail. rewrite lookup_empty.
  destruct (last _); [done|].
  destruct (column_field header_map 0); [done|].
  by destruct (find_all _ row).
Qed.

Lemma omap_all_None {A B} (f : A → option B) (l : list A) :
  Forall (fun x => f x = None) l → omap f l = [].
Proof. induction 1 as [|x l Hx _ IH]; [done|]. cbn. by rewrite Hx. Qed.

Lemma row_title_first_cell row : row_title [] row = strip (column_text 0 row).
Proof.
  unfold row_title, column_text.
  rewrite omap_all_None by (apply Forall_forall; by intros [index cell] _).
  cbn [last]. by destruct (find_all _ row).
Qed.

Lemma last_title_cell header_map cells column cell :
  cells !! column = Some cell →
  column_field header_map column = Some k_title →
  (∀ later, column < later → column_field header_map later ≠ Some k_title) →
  last (omap (title_cell header_map) (imap pair cells)) = Some (get_text_strip cell).
Proof.
  intros Hcell Htitle Hlater.
  assert (column < length cells) as Hlt by (by eapply lookup_lt_Some).
  rewrite <- (take_drop_middle cells column cell Hcell).
  rewrite imap_app, omap_app, length_take_le by lia. cbn [imap omap list_omap].
  unfold title_cell at 2. cbn [fst snd]. rewrite Nat.add_0_r, Htitle.
  rewrite bool_decide_eq_true_2 by done.
  match goal with
  | |- context [?x :: omap ?f ?l] =>
    replace (omap f l) with (@nil str); [apply last_snoc|]
  end.
  symmetry. apply omap_all_None, Forall_lookup. intros i [index c].
  rewrite list_lookup_imap. destruct (drop _ _ !! i); [|done]. intros [= <- <-].
  unfold title_cell. cbn [fst].
  rewrite bool_decide_eq_false_2; [done|]. apply Hlater. lia.
Qed.

Lemma row_title_title_column header_map row column :
  column < length (find_all [lit "td"; lit "th"] row) →
  column_field header_map column = Some k_title →
  (∀ later, column < later → column_field header_map later ≠ Some k_title) →
  row_title header_map row = strip (column_text column row).
Proof.
  intros Hlt Htitle Hlater. unfold row_title, column_text.
  destruct (lookup_lt_is_Some_2 _ _ Hlt) as [cell Hcell].
  by rewrite (last_title_cell _ _ _ _ Hcell Htitle Hlater), Hcell.
Qed.

Lemma normalize_textbook_header_title lower label :
  title_label label → normalize_textbook_header lower label = Some k_title.
Proof.
  intros H. unfold normalize_textbook_header.
  assert (strip label ≠ []) as Hne.
  { intros Hnil. unfold title_label in H. rewrite Hnil in H.
    destruct H as [(b & a & H)|(b & a & H)]; destruct b; discriminate. }
  apply truthy_true in Hne. rewrite Hne. cbn [negb].
  destruct H as [H|H]; apply str_in_spec in H; rewrite H; [done|].
  by rewrite orb_true_r.
Qed.

Lemma table_header_map_cells lower table :
  has_header_row table = true →
  table_header_map lower table
  = map (fun cell => normalize_textbook_header lower (get_text_strip cell))
        (header_cells table) ∧
  table_data_rows table = tail (find_all [lit "tr"] table).
Proof.
  unfold table_header_map, table_data_rows, header_cells. intros H. rewrite H.
  unfold has_header_row in H. by destruct (find_all [lit "tr"] table).
Qed.

Lemma table_without_header lower table :
  has_header_row table = false →
  table_header_map lower table = [] ∧
  table_data_rows table = find_all [lit "tr"] table.
Proof. unfold table_header_map, table_data_rows. by intros ->. Qed.

Lemma column_field_title lower cells column :
  column_field
    (map (fun cell => normalize_textbook_header lower (get_text_strip cell)) cells)
    column = Some k_title
  ↔ ∃ cell, cells !! column = Some cell ∧
            normalize_textbook_header lower (get_text_strip cell) = Some k_title.
Proof.
  unfold column_field. rewrite list_lookup_fmap.
  destruct (cells !! column) as [cell|]; cbn [fmap option_fmap option_map].
  - destruct (normalize_textbook_header lower (get_text_strip cell)) as [field|] eqn:E.
    + split.
      * destruct (truthy field); [|done]. intros [= ->]. eauto.
      * intros (cell' & [= <-] & H). rewrite E in H. by injection H as ->.
    + split; [done|]. intros (cell' & [= <-] & H). by rewrite E in H.
  - split; [done|]. by intros (cell' & [=] & _).
Qed.

Lemma extract_textbooks_table lower soup table :
  textbook_table soup = Some table →
  extract_textbooks lower soup
  = map (row_entry (table_header_map lower table))
        (filter (fun row => resolved_title (table_header_map lower table) row ≠ [])
                (table_data_rows table)).
Proof.
  unfold textbook_table, textbook_heading, extract_textbooks.
  destruct (find_with_next _ (descendants soup)) as [[heading next_elements]|]; [|done].
  destruct (find_with_next _ next_elements) as [[table' rest]|]; [|done].
  intros H. injection H as ->.
  unfold table_header_map, table_data_rows, has_header_row.
  destruct (find_all [lit "tr"] table) as [|row0 rest0] eqn:Erows; [done|].
  rewrite foldl_row_step. cbn [head default tail app].
  by destruct (existsb _ _).
Qed.

Lemma row_entry_titles header_map rows :
  map (dict_get k_title [])
      (map (row_entry header_map)
           (filter (fun row => resolved_title header_map row ≠ []) rows))
  = filter (fun title => title ≠ []) (map (row_title header_map) rows).
Proof.
  induction rows as [|row rows IH]; [done|].
  cbn [map]. rewrite <- resolved_title_row_title.
  destruct (decide (resolved_title header_map row ≠ [])) as [H|H].
  - rewrite !filter_cons_True by done. cbn [map]. by rewrite row_entry_title, IH.
  - by rewrite !filter_cons_False.
Qed.

Lemma filter_all {A} (P : A → Prop) `{!∀ x, Decision (P x)} (l : list A) :
  Forall P l → filter P l = l.
Proof. induction 1 as [|x l Hx _ IH]; [done|]. by rewrite filter_cons_True, IH. Qed.

Lemma titles_length (entries : list (gmap str str)) (titles : list str) :
  map (dict_get k_title []) entries = filter (fun title => title ≠ []) titles →
  Forall (fun title => title ≠ []) titles →
  length entries = length titles.
Proof.
  intros Heq Hall. rewrite filter_all in Heq by done.
  by rewrite <- Heq, length_map.
Qed.

(** C7.  [extract_textbooks] returns the empty list when no heading
    matches the textbook keyword.  When the textbook table is present,
    it returns, in document order, one entry for each data row whose
    title is not empty after trimming, carrying that title, and nothing
    for the other rows; so a table all of whose N data rows have a title
    gives exactly N entries.  The title of a row is read off its cells:
    in a table without a header row it is the text of the first cell of
    the row; in a table with a header row it is the text of the cell in
    the last title column, and a column whose header contains 書名 or
    タイトル is a title column. *)
Theorem extract_textbooks_rows (lower : str -> str) (soup : node) :
  (textbook_heading soup = None → extract_textbooks lower soup = []) ∧
  (∀ table,
     textbook_table soup = Some table →
     let entries := extract_textbooks lower soup in
     let titles := map (dict_get k_title []) entries in
     let rows := find_all [lit "tr"] table in
     (titles = filter (fun title => title ≠ [])
                 (map (row_title (table_header_map lower table)) (table_data_rows table)) ∧
      (Forall (fun row => row_title (table_header_map lower table) row ≠ [])
              (table_data_rows table) →
       length entries = length (table_data_rows table))) ∧
     (has_header_row table = false →
      titles = filter (fun title => title ≠ [])
                 (map (fun row => strip (column_text 0 row)) rows) ∧
      (Forall (fun row => strip (column_text 0 row) ≠ []) rows →
       length entries = length rows)) ∧
     (∀ column header,
        has_header_row table = true →
        header_cells table !! column = Some header →
        title_label (get_text_strip header) →
        (∀ later other,
           column < later → header_cells table !! later = Some other →
           normalize_textbook_header lower (get_text_strip other) ≠ Some k_title) →
        Forall (fun row => column < length (find_all [lit "td"; lit "th"] row))
               (tail rows) →
        titles = filter (fun title => title ≠ [])
                   (map (fun row => strip (column_text column row)) (tail rows)) ∧
        (Forall (fun row => strip (column_text column row) ≠ []) (tail rows) →
         length entries = length (tail rows)))).
Proof.
  split.
  - unfold textbook_heading, extract_textbooks. by intros ->.
  - intros table Htable entries titles rows.
    assert (Htitles :
      titles = filter (fun title => title ≠ [])
                 (map (row_title (table_header_map lower table)) (table_data_rows table))).
    { unfold titles, entries. rewrite (extract_textbooks_table _ _ _ Htable).
      apply row_entry_titles. }
    split; [|split].
    + split; [done|]. intros Hall. unfold titles in Htitles.
      rewrite (titles_length _ _ Htitles), length_map; [done|].
      by apply Forall_fmap.
    + intros Hheader.
      destruct (table_without_header lower table Hheader) as [Hmap Hrows].
      rewrite Hmap, Hrows in Htitles. fold rows in Htitles.
      assert (Hsame : map (row_title []) rows
                      = map (fun row => strip (column_text 0 row)) rows).
      { apply map_ext. intros row. apply row_title_first_cell. }
      rewrite Hsame in Htitles. split; [done|]. intros Hall.
      unfold titles in Htitles.
      rewrite (titles_length _ _ Htitles), length_map; [done|].
      by apply Forall_fmap.
    + intros column header Hheader Hcolumn Hlabel Hlater Hcells.
      destruct (table_header_map_cells lower table Hheader) as [Hmap Hrows].
      rewrite Hmap, Hrows in Htitles. fold rows in Htitles.
      assert (Hsame :
        map (row_title (map (fun cell => normalize_textbook_header lower (get_text_strip cell))
                            (header_cells table))) (tail rows)
        = map (fun row => strip (column_text column row)) (tail rows)).
      { apply map_ext_Forall. eapply Forall_impl; [exact Hcells|].
        intros row Hrow. cbn beta. apply row_title_title_column; [done| |].
        - apply column_field_title. exists header. split; [done|].
          by apply normalize_textbook_header_title.
        - intros later Hlt Hfield. apply column_field_title in Hfield as (other & Ho & Hn).
          by eapply Hlater. }
      rewrite Hsame in Htitles. split; [done|]. intros Hall.
      unfold titles in Htitles.
      rewrite (titles_length _ _ Htitles), length_map; [done|].
      by apply Forall_fmap.
Qed.

(** The theorem on two sample tables.  The table without a header row
    has two data rows with a title in the first cell, and two entries
    come out.  In the numbered table the header 書名 makes the second
    column the title column: the numbers of the first column are not
    taken for titles, and the row with a blank title is left out. *)
Lemma extract_textbooks_rows_witness :
  (length (extract_textbooks ascii_lower (page_with_textbooks plain_textbook_table)) = 2 ∧
   map (dict_get k_title [])
       (extract_textbooks ascii_lower (page_with_textbooks plain_textbook_table))
   = [lit "Algorithms"; lit "Compilers"]) ∧
  map (dict_get k_title [])
      (extract_textbooks ascii_lower (page_with_textbooks numbered_textbook_table))
  = [lit "Algorithms"; lit "Compilers"].
Proof.
  split.
  - assert (Htable : textbook_table (page_with_textbooks plain_textbook_table)
                     = Some plain_textbook_table) by (vm_compute; reflexivity).
    destruct (proj2 (extract_textbooks_rows ascii_lower
                       (page_with_textbooks plain_textbook_table))
                    plain_textbook_table Htable) as (_ & Hplain & _).
    destruct Hplain as [Htitles Hlength]; [vm_compute; reflexivity|].
    split.
    + rewrite Hlength; [vm_compute; reflexivity|].
      repeat constructor; by vm_compute.
    + rewrite Htitles. vm_compute. reflexivity.
  - assert (Htable : textbook_table (page_with_textbooks numbered_textbook_table)
                     = Some numbered_textbook_table) by (vm_compute; reflexivity).
    destruct (proj2 (extract_textbooks_rows ascii_lower
                       (page_with_textbooks numbered_textbook_table))
                    numbered_textbook_table Htable) as (_ & _ & Hnumbered).
    destruct (Hnumbered 1 (th "書名")) as [Htitles _].
    + vm_compute. reflexivity.
    + vm_compute. reflexivity.
    + left. apply str_in_spec. vm_compute. reflexivity.
    + intros later other Hlater Hother.
      destruct later as [|[|[|later]]]; [lia | lia | | discriminate Hother].
      injection Hother as <-. vm_compute. discriminate.
    + repeat constructor; vm_compute; lia.
    + rewrite Htitles. vm_compute. reflexivity.
Defined.

(** Text that the parser sets apart is read from its own tag only: the
    reading inside [rt] is not part of the text of the cell around it,
    and a row whose first cell holds nothing but such text has no title. *)
Lemma get_text_strip_set_apart :
  let reading := element "rt" ∅ [ContainerString (lit "rt") (lit "かん")] in
  get_text_strip reading = lit "かん" ∧
  get_text_strip (element "td" ∅ [element "ruby" ∅ [text "漢"; reading]]) = lit "漢" ∧
  map (dict_get k_title [])
      (extract_textbooks ascii_lower
         (page_with_textbooks
            (element "table" ∅
               [ tr [td "Algorithms"; td "A. Author"];
                 tr [element "td" ∅ [reading]; td "B. Author"] ])))
  = [lit "Algorithms"].
Proof. by vm_compute. Qed.

(** ** Record builder: the fields of the records *)

(** What the builder copies from each extracted entry, and what it
    leaves at the default: the ISBN of the entry is not passed on. *)
Lemma build_records_textbook_fields lower soup records :
  build_records lower soup = Return records →
  Forall2 (fun entry r =>
             textbook_title r = dict_get k_title [] entry ∧
             textbook_title_reading r = dict_get k_reading [] entry ∧
             authors r = dict_get k_authors [] entry ∧
             publisher r = dict_get k_publisher [] entry ∧
             note r = dict_get k_note [] entry ∧
             isbn r = [] ∧
             publication_year r = [])
          (extract_textbooks lower soup) records.
Proof.
  intros H. apply build_records_inv in H as (md & title & cat & tags & _ & _ & _ & HF).
  eapply Forall2_impl; [exact HF|]. intros entry r Hr. cbv beta in Hr.
  apply build_record_fields in Hr as (Ht & Hr & Ha & Hp & Hn & Hi & Hy & _).
  unfold dict_get at 1. rewrite Ht. simpl. done.
Qed.

(** C1, evaluated where the code departs from it.  On the sample page
    the extractor returns one entry, with ISBN 123, and the builder
    returns one record for it that carries the title, reading, authors,
    publisher and note of the entry but an empty ISBN. *)
Theorem build_records_drops_isbn :
  ∃ entry record,
    extract_textbooks ascii_lower sample_document = [entry] ∧
    build_records ascii_lower sample_document = Return [record] ∧
    textbook_title record = dict_get k_title [] entry ∧
    textbook_title_reading record = dict_get k_reading [] entry ∧
    authors record = dict_get k_authors [] entry ∧
    publisher record = dict_get k_publisher [] entry ∧
    note record = dict_get k_note [] entry ∧
    dict_get k_isbn [] entry = lit "123" ∧
    isbn record = [] ∧
    isbn record ≠ dict_get k_isbn [] entry.
Proof.
  assert (Hb : ∃ record, build_records ascii_lower sample_document = Return [record]).
  { eexists. vm_compute. reflexivity. }
  destruct Hb as [record Hb].
  pose proof (build_records_textbook_fields _ _ _ Hb) as HF.
  destruct (extract_textbooks ascii_lower sample_document) as [|entry entries] eqn:E;
    [by apply Forall2_nil_cons_inv in HF|].
  apply Forall2_cons in HF as [(Ht & Hr & Ha & Hp & Hn & Hi & _) HF].
  apply Forall2_nil_inv_r in HF as ->.
  assert (Hisbn : dict_get k_isbn [] entry = lit "123").
  { assert (He : dict_get k_isbn [] <$> head (extract_textbooks ascii_lower sample_document)
                 = Some (lit "123")) by (vm_compute; reflexivity).
    rewrite E in He. by injection He. }
  exists entry, record. repeat split; try done.
  rewrite Hi, Hisbn. discriminate.
Qed.

(** ** The whole run *)

Lemma alias_update_note_only titles_by_code r :
  set_note (alias_update titles_by_code r) [] = set_note r [].
Proof.
  unfold alias_update. destruct (negb _); [done|]. case_bool_decide; [done|].
  by destruct (sorted _).
Qed.

Lemma scope_update_note_only r : set_note (scope_update r) [] = set_note r [].
Proof.
  unfold scope_update. case_bool_decide; by destruct (str_eqb _ _).
Qed.

Lemma pass_Forall (P : TextbookRecord → Prop) update records (σ : store) :
  (∀ r, P r → P (update r)) →
  Forall P σ → Forall P (foldl (fun σ i => alter update i σ) σ records).
Proof.
  intros Hupd. revert σ. induction records as [|i records IH]; intros σ Hσ; [done|].
  cbn [foldl]. apply IH. apply Forall_alter; [done|]. intros x _. apply Hupd.
Qed.

(** A property of the fields other than the note survives both passes. *)
Lemma annotate_Forall (P : TextbookRecord → Prop) records (σ : store) :
  (∀ r n, P r → P (set_note r n)) →
  Forall P σ →
  Forall P (annotate_faculty_scope records (annotate_aliases records σ)).
Proof.
  intros HP Hσ.
  assert (Hnote : ∀ r r', set_note r' [] = set_note r [] → P r → P r').
  { intros r r' Heq Hr. rewrite <- (set_note_same r').
    rewrite <- (set_note_set_note r' [] (note r')), Heq. by apply HP, HP. }
  rewrite annotate_faculty_scope_pass, annotate_aliases_pass.
  apply pass_Forall; [|apply pass_Forall; [|done]].
  - intros r. apply Hnote, scope_update_note_only.
  - intros r. apply Hnote, alias_update_note_only.
Qed.

Lemma collect_records_Forall (P : TextbookRecord → Prop) lower documents init out :
  (∀ soup records, build_records lower soup = Return records → Forall P records) →
  Forall P init →
  foldl (fun acc soup =>
           all_records ← acc;
           records ← build_records lower soup;
           Return (all_records ++ records))
        (Return init) documents = Return out →
  Forall P out.
Proof.
  intros Hb. revert init. induction documents as [|soup documents IH]; intros init Hinit.
  - simpl. by intros [= <-].
  - cbn [foldl]. destruct (build_records lower soup) as [records|e] eqn:E; simpl.
    + apply IH. apply Forall_app. split; [done|]. by eapply Hb.
    + intros H. exfalso. clear -H.
      induction documents as [|d ds IHd]; simpl in H; [discriminate|]. by apply IHd.
Qed.

(** What [main] writes when it returns: the header, then the row of
    every collected record after both passes. *)
Lemma main_rows (P : TextbookRecord → Prop) lower documents rows :
  (∀ r n, P r → P (set_note r n)) →
  (∀ soup records, build_records lower soup = Return records → Forall P records) →
  main lower documents = Return rows →
  ∃ records, rows = CSV_HEADER :: map to_csv_row records ∧ Forall P records.
Proof.
  intros HP Hb. unfold main.
  destruct (foldl _ (Return []) documents) as [all_records|e] eqn:E; [|done].
  simpl. destruct all_records as [|r0 rs]; [done|].
  apply (collect_records_Forall P) in E; [|done|done].
  set (σ := annotate_faculty_scope _ _).
  assert (Hσ : Forall P σ) by by apply annotate_Forall.
  clearbody σ. unfold write_csv. destruct σ as [|s0 ss]; [done|].
  intros [= <-]. by exists (s0 :: ss).
Qed.

(** C10.  Every record the record builder returns has an empty
    [publication_year], whatever the document; and in every table that a
    run writes, the fifth column is headed [publication_year] and is
    empty in every data row. *)
Theorem publication_year_always_empty (lower : str -> str) :
  (∀ soup records,
     build_records lower soup = Return records →
     Forall (fun r => publication_year r = []) records) ∧
  (∀ documents rows,
     main lower documents = Return rows →
     ∃ data, rows = CSV_HEADER :: data ∧
             CSV_HEADER !! 4 = Some (lit "publication_year") ∧
             Forall (fun row => row !! 4 = Some []) data).
Proof.
  assert (Hb : ∀ soup records,
             build_records lower soup = Return records →
             Forall (fun r => publication_year r = []) records).
  { intros soup records H. apply build_records_textbook_fields in H.
    induction H as [|entry r entries records Hr _ IH]; constructor; [|done].
    apply Hr. }
  split; [exact Hb|].
  intros documents rows H.
  apply (main_rows (fun r => publication_year r = [])) in H as (records & -> & HF);
    [|done|done].
  exists (map to_csv_row records). split; [done|]. split; [done|].
  apply Forall_map. eapply Forall_impl; [exact HF|].
  intros r Hr. simpl. by rewrite Hr.
Qed.

(** The theorem on the sample page. *)
Lemma publication_year_always_empty_witness :
  ∃ records,
    build_records ascii_lower sample_document = Return records ∧
    length records = 1 ∧
    Forall (fun r => publication_year r = []) records.
Proof.
  eexists. split; [vm_compute; reflexivity|]. split; [reflexivity|].
  apply (proj1 (publication_year_always_empty ascii_lower) sample_document).
  vm_compute. reflexivity.
Defined.

(** ** The order of strings and [sorted] *)

Lemma str_leb_total a b : str_leb a b = true ∨ str_leb b a = true.
Proof.
  revert b. induction a as [|x a IH]; intros [|y b]; simpl; auto.
  destruct (N.ltb_spec x y), (N.ltb_spec y x), (N.eqb_spec x y), (N.eqb_spec y x);
    auto; lia.
Qed.

Lemma str_leb_trans a b c :
  str_leb a b = true → str_leb b c = true → str_leb a c = true.
Proof.
  revert b c. induction a as [|x a IH]; intros [|y b] [|z c]; simpl; auto; try done.
  destruct (N.ltb_spec x y), (N.ltb_spec y z), (N.ltb_spec x z),
    (N.eqb_spec x y), (N.eqb_spec y z), (N.eqb_spec x z);
    auto; try done; try lia. apply IH.
Qed.

Lemma str_leb_antisym a b : str_leb a b = true → str_leb b a = true → a = b.
Proof.
  revert b. induction a as [|x a IH]; intros [|y b]; simpl; auto; try done.
  destruct (N.ltb_spec x y), (N.ltb_spec y x), (N.eqb_spec x y), (N.eqb_spec y x);
    try done; try lia.
  intros H1 H2. subst. f_equal. by apply IH.
Qed.

#[global] Instance str_le_total : Total str_le.
Proof. intros a b. apply str_leb_total. Qed.

#[global] Instance str_le_trans : Transitive str_le.
Proof. intros a b c. apply str_leb_trans. Qed.

#[global] Instance str_le_antisym : AntiSymm (=) str_le.
Proof. intros a b. apply str_leb_antisym. Qed.

Lemma sorted_Sorted items : Sorted str_le (sorted items).
Proof. apply Sorted_merge_sort. apply _. Qed.

Lemma sorted_elem_of items x : x ∈ sorted items ↔ x ∈ items.
Proof. unfold sorted. by rewrite merge_sort_Permutation. Qed.

Lemma sorted_NoDup items : NoDup items → NoDup (sorted items).
Proof. unfold sorted. by rewrite merge_sort_Permutation. Qed.

(** A sorted list without repetition is determined by its members. *)
Lemma sorted_unique (l1 l2 : list str) :
  Sorted str_le l1 → NoDup l1 → Sorted str_le l2 → NoDup l2 →
  (∀ x, x ∈ l1 ↔ x ∈ l2) → l1 = l2.
Proof.
  intros S1 N1 S2 N2 H. apply (Sorted_unique str_le); [done..|].
  by apply NoDup_Permutation.
Qed.

Lemma sorted_elements_spec (tags : gset str) :
  Sorted str_le (sorted (elements tags)) ∧
  NoDup (sorted (elements tags)) ∧
  ∀ t, t ∈ sorted (elements tags) ↔ t ∈ tags.
Proof.
  split; [apply sorted_Sorted|]. split; [apply sorted_NoDup, NoDup_elements|].
  intros t. by rewrite sorted_elem_of, elem_of_elements.
Qed.

(** ** Classifier: tags *)

Lemma normalize_language_tag_truthy lower language_value tag :
  normalize_language_tag lower language_value = Some tag → truthy tag = true.
Proof.
  unfold normalize_language_tag.
  repeat match goal with
         | |- context [if ?b then _ else _] => destruct b
         end; intros [= <-]; done.
Qed.

Lemma filter_truthy (names : list str) :
  filter (fun name => truthy name = true) names = filter (fun name => name ≠ []) names.
Proof. apply list_filter_iff. intros name. apply truthy_true. Qed.

(** The tags of a course as a set: what [derive_tags] sorts. *)
Lemma derive_tags_members lower category faculty_names course_title instruction_language t :
  t ∈ derive_tags lower category faculty_names course_title instruction_language ↔
  t = category ∨
  (t = multi_faculty ∧
   1 < size (list_to_set (filter (fun name => name ≠ []) faculty_names) : gset str) ∧
   category ≠ general_education) ∨
  (t = international_student ∧ detect_international_course lower course_title = true) ∨
  (∃ tag, normalize_language_tag lower instruction_language = Some tag ∧
          t = lang_prefix ++ tag).
Proof.
  unfold derive_tags. rewrite sorted_elem_of, elem_of_elements, filter_truthy.
  set (n := size _).
  destruct (normalize_language_tag lower instruction_language) as [tag|] eqn:El.
  - rewrite (normalize_language_tag_truthy _ _ _ El).
    rewrite elem_of_union, elem_of_singleton.
    assert ((∃ tag0, Some tag = Some tag0 ∧ t = lang_prefix ++ tag0) ↔ t = lang_prefix ++ tag)
      as ->.
    { split; [by intros (? & [= <-] & ->) | intros ->; eauto]. }
    destruct (detect_international_course lower course_title);
      unfold str_eqb; repeat case_bool_decide; cbn [andb negb];
      rewrite ?elem_of_union, ?elem_of_singleton; intuition congruence.
  - assert ((∃ tag0, None = Some tag0 ∧ t = lang_prefix ++ tag0) ↔ False) as ->.
    { split; [by intros (? & [=] & _) | done]. }
    destruct (detect_international_course lower course_title);
      unfold str_eqb; repeat case_bool_decide; cbn [andb negb];
      rewrite ?elem_of_union, ?elem_of_singleton; intuition congruence.
Qed.

(** C5 (as amended).  [derive_tags] returns a sorted sequence without
    repetition, so the output is fixed by the set of tags alone, whose
    members are exactly: the category; [multi-faculty] when more than
    one distinct non-empty faculty name is listed and the category is
    not [general-education]; [international-student] when the title
    matches the international-course detector; and [lang:<tag>] when the
    language normalizer resolves a tag. *)
Theorem derive_tags_sorted_set (lower : str -> str) (category : str)
    (faculty_names : list str) (course_title instruction_language : str) :
  let tags := derive_tags lower category faculty_names course_title instruction_language in
  Sorted str_le tags ∧
  NoDup tags ∧
  (∀ t, t ∈ tags ↔
        t = category ∨
        (t = multi_faculty ∧
         1 < size (list_to_set (filter (fun name => name ≠ []) faculty_names) : gset str) ∧
         category ≠ general_education) ∨
        (t = international_student ∧
         detect_international_course lower course_title = true) ∨
        (∃ tag, normalize_language_tag lower instruction_language = Some tag ∧
                t = lang_prefix ++ tag)) ∧
  (∀ l, Sorted str_le l → NoDup l → (∀ t, t ∈ l ↔ t ∈ tags) → l = tags).
Proof.
  intros tags.
  assert (Hs : Sorted str_le tags ∧ NoDup tags).
  { unfold tags, derive_tags. split; apply sorted_elements_spec. }
  destruct Hs as [Hs Hn].
  split; [done|]. split; [done|]. split.
  - intros t. apply derive_tags_members.
  - intros l Hl Hnl Hmem. by apply sorted_unique.
Qed.

(** The theorem for a course of two faculties taught in English: the
    three tags come out in code-point order. *)
Lemma derive_tags_sorted_set_witness :
  [lit "faculty-course"; lit "lang:english"; lit "multi-faculty"]
  = derive_tags ascii_lower faculty_course [lit "Science"; lit "Engineering"]
                (lit "Intro to CS") (lit "English").
Proof.
  apply (derive_tags_sorted_set ascii_lower faculty_course
           [lit "Science"; lit "Engineering"] (lit "Intro to CS") (lit "English")).
  - vm_compute. repeat constructor.
  - apply (bool_decide_unpack _). by vm_compute.
  - intros t. by vm_compute.
Defined.

(** C5 as the claim states it fails: this list holds two distinct
    names, the empty string and Law, and the category is not general
    education, yet [multi-faculty] is not among the tags, because the
    function counts the non-empty names only. *)
Lemma derive_tags_empty_name_counterexample :
  let faculty_names := [lit ""; lit "Law"] in
  1 < size (list_to_set faculty_names : gset str) ∧
  faculty_course ≠ general_education ∧
  multi_faculty ∉ derive_tags ascii_lower faculty_course faculty_names
                    (lit "Contract Law") (lit "").
Proof.
  split; [vm_compute; lia|]. split; [discriminate|].
  intros H. apply derive_tags_members in H as [H | [H | [H | H]]].
  - discriminate.
  - destruct H as (_ & H & _). vm_compute in H. lia.
  - destruct H as [_ H]. vm_compute in H. discriminate.
  - destruct H as (tag & H & _). vm_compute in H. discriminate.
Qed.

(** ** Commas *)

Lemma no_comma_forallb s :
  no_comma s ↔ forallb (fun c => negb (c =? 44)%N) s = true.
Proof.
  unfold no_comma. induction s as [|c s IH]; simpl.
  - split; [done|]. intros _. apply not_elem_of_nil.
  - rewrite not_elem_of_cons, andb_true_iff, negb_true_iff, N.eqb_neq, IH.
    split; intros [H1 H2]; split; auto.
Qed.

Lemma no_comma_app a b : no_comma a → no_comma b → no_comma (a ++ b).
Proof. unfold no_comma. rewrite elem_of_app. tauto. Qed.

(** The pieces [re.split] returns hold no character of the class. *)
Lemma re_split_go_pieces cls in_run s :
  Forall (Forall (fun c => cls c = false)) (re_split_go cls in_run s).
Proof.
  revert in_run. induction s as [|c s IH]; intros in_run; simpl.
  - repeat constructor.
  - destruct (cls c) eqn:E.
    + destruct in_run; [apply IH|]. constructor; [constructor | apply IH].
    + specialize (IH false). destruct (re_split_go cls false s) as [|p ps].
      * repeat constructor. done.
      * apply Forall_cons in IH as [Hp Hps]. constructor; [|done]. by constructor.
Qed.

Lemma normalize_name_list_names value :
  Forall (fun name => no_comma name ∧ name ≠ []) (normalize_name_list value).
Proof.
  unfold normalize_name_list. destruct (negb (truthy value)); [constructor|].
  apply Forall_forall. intros name Hin.
  apply list_elem_of_filter in Hin as [Hne Hin]. split; [|by apply truthy_true].
  pose proof (re_split_go_pieces name_separator false (strip value)) as H.
  rewrite Forall_forall in H. specialize (H name Hin).
  unfold no_comma. intros Hc. rewrite Forall_forall in H.
  specialize (H _ Hc). vm_compute in H. discriminate.
Qed.

(** Splitting a comma-joined value gives the components back. *)
Lemma split_char_no_comma s : no_comma s → split_char 44 s = [s].
Proof.
  unfold no_comma. induction s as [|c s IH]; [done|].
  rewrite not_elem_of_cons. intros [Hc Hs]. simpl.
  destruct (N.eqb_spec c 44); [congruence|]. by rewrite IH.
Qed.

Lemma split_char_app_comma a rest :
  no_comma a → split_char 44 (a ++ comma ++ rest) = a :: split_char 44 rest.
Proof.
  unfold no_comma. induction a as [|c a IH]; [done|].
  rewrite not_elem_of_cons. intros [Hc Ha]. cbn [app split_char].
  destruct (N.eqb_spec c 44); [congruence|]. by rewrite IH.
Qed.

Lemma split_join items :
  items ≠ [] → Forall no_comma items → split_char 44 (join comma items) = items.
Proof.
  intros Hne H. induction H as [|x items Hx Hitems IH]; [done|].
  destruct items as [|y items].
  - simpl. by apply split_char_no_comma.
  - change (join comma (x :: y :: items)) with (x ++ comma ++ join comma (y :: items)).
    rewrite split_char_app_comma by done. f_equal. by apply IH.
Qed.

Lemma split_join_filter items :
  Forall (fun item => no_comma item ∧ item ≠ []) items →
  filter (fun part => part ≠ []) (split_char 44 (join comma items)) = items.
Proof.
  intros H. destruct items as [|x items]; [done|].
  rewrite split_join; [|done|by eapply Forall_impl; [exact H|]; intros ? []].
  induction H as [|y ys [_ Hy] _ IH]; [done|].
  by rewrite filter_cons_True, IH.
Qed.

Lemma determine_course_category_values faculty_names course_title :
  determine_course_category faculty_names course_title = general_education ∨
  determine_course_category faculty_names course_title = faculty_course.
Proof.
  unfold determine_course_category. destruct (omap _ _); [by left|].
  repeat match goal with
         | |- context [if ?b then _ else _] => destruct b
         end; auto.
Qed.

Lemma normalize_language_tag_no_comma lower language_value tag :
  normalize_language_tag lower language_value = Some tag →
  no_comma (lang_prefix ++ tag).
Proof.
  unfold normalize_language_tag.
  repeat match goal with
         | |- context [if ?b then _ else _] => destruct b
         end; intros [= <-]; apply no_comma_forallb; by vm_compute.
Qed.

Lemma derive_tags_no_comma lower category faculty_names course_title instruction_language :
  category = general_education ∨ category = faculty_course →
  Forall (fun t => no_comma t ∧ t ≠ [])
         (derive_tags lower category faculty_names course_title instruction_language).
Proof.
  intros Hcat. apply Forall_forall. intros t Ht.
  apply derive_tags_members in Ht as [-> | [(-> & _) | [(-> & _) | (tag & Hl & ->)]]].
  - destruct Hcat as [-> | ->]; (split; [apply no_comma_forallb; by vm_compute | done]).
  - split; [apply no_comma_forallb; by vm_compute | done].
  - split; [apply no_comma_forallb; by vm_compute | done].
  - split; [by eapply normalize_language_tag_no_comma | done].
Qed.

Lemma extract_course_metadata_faculties soup metadata :
  extract_course_metadata soup = Return metadata →
  ∃ value, CourseMetadata.faculties metadata = normalize_name_list value.
Proof.
  unfold extract_course_metadata.
  destruct (select_one_course_table soup) as [table|]; [|done].
  destruct (find_all [lit "tr"] table) as [|row0 [|row1 rows]]; [done|done|].
  case_bool_decide; [done|].
  destruct (parse_course_identifier _). intros [= <-]. simpl. eauto.
Qed.

Lemma record_tags_no_comma (override : bool) (base_tags : list str) :
  Forall (fun t => no_comma t ∧ t ≠ []) base_tags →
  Forall (fun t => no_comma t ∧ t ≠ [])
         (sorted (elements
            (if override then list_to_set base_tags ∪ {[ international_student ]}
             else list_to_set base_tags : gset str))).
Proof.
  rewrite !Forall_forall. intros Hbase t Ht.
  apply sorted_elem_of, elem_of_elements in Ht.
  destruct override.
  - apply elem_of_union in Ht as [Ht|Ht].
    + apply Hbase. by apply elem_of_list_to_set in Ht.
    + apply elem_of_singleton in Ht as ->.
      split; [apply no_comma_forallb; by vm_compute | done].
  - apply Hbase. by apply elem_of_list_to_set in Ht.
Qed.

Lemma build_records_unfold lower soup :
  build_records lower soup
  = match extract_course_metadata soup with
    | Return metadata =>
      let title := resolve_course_title metadata in
      let category :=
        determine_course_category (CourseMetadata.faculties metadata) title in
      foldl (fun acc textbook =>
               records ← acc;
               record ← build_record lower metadata title category
                          (derive_tags lower category (CourseMetadata.faculties metadata)
                             title (CourseMetadata.instruction_language metadata))
                          textbook;
               Return (records ++ [record]))
            (Return []) (extract_textbooks lower soup)
    | Raise e => Raise e
    end.
Proof. unfold build_records. by destruct (extract_course_metadata soup). Qed.

Lemma tag_vocabulary_no_comma : Forall no_comma tag_vocabulary.
Proof.
  apply Forall_forall. intros tag Htag. apply no_comma_forallb.
  revert tag Htag. apply Forall_forall. vm_compute. repeat constructor.
Qed.

Lemma normalize_language_tag_vocabulary lower language_value tag :
  normalize_language_tag lower language_value = Some tag →
  lang_prefix ++ tag ∈ tag_vocabulary.
Proof.
  unfold normalize_language_tag.
  repeat match goal with
         | |- context [if ?b then _ else _] => destruct b
         end; intros [= <-]; apply (bool_decide_unpack _); by vm_compute.
Qed.

Lemma record_tags_members lower metadata textbook t :
  t ∈ sorted (elements (record_tags lower metadata textbook)) ↔
  t ∈ derive_tags lower
        (determine_course_category (CourseMetadata.faculties metadata)
                                   (resolve_course_title metadata))
        (CourseMetadata.faculties metadata) (resolve_course_title metadata)
        (CourseMetadata.instruction_language metadata) ∨
  (t = international_student ∧
   detect_international_course lower (dict_get k_note [] textbook) = true).
Proof.
  rewrite sorted_elem_of, elem_of_elements. unfold record_tags. cbv zeta.
  destruct (detect_international_course lower (dict_get k_note [] textbook)).
  - rewrite elem_of_union, elem_of_list_to_set, elem_of_singleton. tauto.
  - rewrite elem_of_list_to_set. split; [tauto|]. intros [?|[_ ?]]; done.
Qed.

Lemma record_tags_vocabulary lower metadata textbook :
  Forall (fun t => t ∈ tag_vocabulary)
         (sorted (elements (record_tags lower metadata textbook))).
Proof.
  apply Forall_forall. intros t Ht.
  apply record_tags_members in Ht as [Ht|[-> _]];
    [|apply (bool_decide_unpack _); by vm_compute].
  apply derive_tags_members in Ht as [-> | [(-> & _) | [(-> & _) | (tag & Hl & ->)]]].
  - destruct (determine_course_category_values
                (CourseMetadata.faculties metadata) (resolve_course_title metadata))
      as [-> | ->]; apply (bool_decide_unpack _); by vm_compute.
  - apply (bool_decide_unpack _); by vm_compute.
  - apply (bool_decide_unpack _); by vm_compute.
  - by eapply normalize_language_tag_vocabulary.
Qed.

Lemma record_tags_nonempty lower metadata textbook :
  sorted (elements (record_tags lower metadata textbook)) ≠ [].
Proof.
  intros Hnil.
  assert (determine_course_category (CourseMetadata.faculties metadata)
                                    (resolve_course_title metadata)
          ∈ sorted (elements (record_tags lower metadata textbook))) as Hin.
  { apply record_tags_members. left. apply derive_tags_members. by left. }
  rewrite Hnil in Hin. by apply not_elem_of_nil in Hin.
Qed.

Lemma build_records_record_tags lower soup metadata records :
  extract_course_metadata soup = Return metadata →
  build_records lower soup = Return records →
  Forall2 (fun textbook r =>
             faculty_names r = CourseMetadata.faculties metadata ∧
             tag_names r
             = join comma (sorted (elements (record_tags lower metadata textbook))))
          (extract_textbooks lower soup) records.
Proof.
  intros Hmd. rewrite build_records_unfold, Hmd. cbv zeta. intros H.
  apply fold_append_results in H as (rs & -> & HF). cbn [app].
  eapply Forall2_impl; [exact HF|]. intros textbook r Hr. cbv beta in Hr.
  apply build_record_fields in Hr as (_ & _ & _ & _ & _ & _ & _ & Hf & _ & Ht).
  done.
Qed.

Lemma metadata_faculties_split soup metadata :
  extract_course_metadata soup = Return metadata →
  Forall no_comma (CourseMetadata.faculties metadata) ∧
  filter (fun part => part ≠ [])
         (split_char 44 (join comma (CourseMetadata.faculties metadata)))
  = CourseMetadata.faculties metadata.
Proof.
  intros H. apply extract_course_metadata_faculties in H as [value ->].
  split; [|apply split_join_filter, normalize_name_list_names].
  eapply Forall_impl; [apply normalize_name_list_names|]. by intros ? [].
Qed.

Lemma build_records_comma_safe lower soup records :
  build_records lower soup = Return records → Forall comma_safe records.
Proof.
  intros H.
  destruct (extract_course_metadata soup) as [metadata|e] eqn:Hmd;
    [|by rewrite build_records_unfold, Hmd in H].
  pose proof (build_records_record_tags _ _ _ _ Hmd H) as HF.
  destruct (metadata_faculties_split _ _ Hmd) as [Hnames Hsplit].
  clear H. induction HF as [|textbook r textbooks records [Hf Ht] _ IH];
    constructor; [|done].
  unfold comma_safe. rewrite Hf, Ht. split; [done|]. split; [done|].
  rewrite split_join.
  - apply record_tags_vocabulary.
  - apply record_tags_nonempty.
  - eapply Forall_impl; [apply record_tags_vocabulary|]. cbv beta.
    intros t Ht'. pose proof tag_vocabulary_no_comma as Hv.
    rewrite Forall_forall in Hv. by apply Hv.
Qed.

(** C9.  For every document, no faculty name that the metadata
    extractor splits off the faculty cell holds a comma, and no tag that
    [derive_tags] returns for a category the classifier can produce
    holds one.  For every record the builder returns, the tags it joins
    into [tag_names] are the sorted elements of the course tags with the
    per-textbook [international-student] tag added when the note of the
    textbook asks for it; none of them holds a comma, and splitting
    [tag_names] at the commas gives exactly these tags back; the same
    holds for the faculty names.  No tag of the vocabulary holds a
    comma, and in every record a run writes out the faculty names are
    free of commas and every part of [tag_names] between two commas is a
    tag of the vocabulary. *)
Theorem no_comma_in_faculties_and_tags (lower : str -> str) :
  (∀ soup metadata,
     extract_course_metadata soup = Return metadata →
     Forall no_comma (CourseMetadata.faculties metadata)) ∧
  (∀ category faculty_names course_title instruction_language,
     category = general_education ∨ category = faculty_course →
     Forall no_comma
       (derive_tags lower category faculty_names course_title instruction_language)) ∧
  (∀ soup metadata records,
     extract_course_metadata soup = Return metadata →
     build_records lower soup = Return records →
     Forall2 (fun textbook r =>
                let tags := sorted (elements (record_tags lower metadata textbook)) in
                (detect_international_course lower (dict_get k_note [] textbook) = true →
                 international_student ∈ tags) ∧
                Forall no_comma tags ∧
                tag_names r = join comma tags ∧
                split_char 44 (tag_names r) = tags ∧
                Forall no_comma (faculty_names r) ∧
                filter (fun part => part ≠ [])
                       (split_char 44 (join comma (faculty_names r)))
                = faculty_names r)
             (extract_textbooks lower soup) records) ∧
  Forall no_comma tag_vocabulary ∧
  (∀ soup records,
     build_records lower soup = Return records → Forall comma_safe records) ∧
  (∀ documents rows,
     main lower documents = Return rows →
     ∃ records, rows = CSV_HEADER :: map to_csv_row records ∧
                Forall comma_safe records).
Proof.
  split; [|split; [|split; [|split; [|split]]]].
  - intros soup metadata H. by apply metadata_faculties_split in H as [H _].
  - intros category faculty_names course_title instruction_language H.
    eapply Forall_impl; [by apply derive_tags_no_comma|]. by intros ? [].
  - intros soup metadata records Hmd H.
    destruct (metadata_faculties_split _ _ Hmd) as [Hnames Hsplit].
    eapply Forall2_impl; [by apply build_records_record_tags|].
    intros textbook r [Hf Ht]. cbv zeta.
    assert (Forall no_comma (sorted (elements (record_tags lower metadata textbook))))
      as Htags.
    { eapply Forall_impl; [apply record_tags_vocabulary|]. cbv beta.
      intros t Hv. pose proof tag_vocabulary_no_comma as Hall.
      rewrite Forall_forall in Hall. by apply Hall. }
    rewrite Hf, Ht. repeat split; try done.
    + intros Hnote. apply record_tags_members. by right.
    + apply split_join; [apply record_tags_nonempty | done].
  - apply tag_vocabulary_no_comma.
  - apply build_records_comma_safe.
  - intros documents rows H.
    apply (main_rows comma_safe) in H; [done|done|].
    apply build_records_comma_safe.
Qed.

(** The theorem on a sample page whose only textbook has a note for
    international students: the builder adds the per-textbook tag, and
    the parts of [tag_names] are the tags, each free of commas. *)
Lemma no_comma_in_faculties_and_tags_witness :
  ∃ record,
    build_records ascii_lower (page_with_textbooks international_textbook_table)
    = Return [record] ∧
    international_student ∈ split_char 44 (tag_names record) ∧
    Forall no_comma (split_char 44 (tag_names record)).
Proof.
  assert (Hm : ∃ metadata,
             extract_course_metadata (page_with_textbooks international_textbook_table)
             = Return metadata)
    by (eexists; vm_compute; reflexivity).
  destruct Hm as [metadata Hm].
  assert (Hb : ∃ record,
             build_records ascii_lower (page_with_textbooks international_textbook_table)
             = Return [record])
    by (eexists; vm_compute; reflexivity).
  destruct Hb as [record Hb]. exists record. split; [exact Hb|].
  destruct (no_comma_in_faculties_and_tags ascii_lower) as (_ & _ & Hbuilt & _).
  specialize (Hbuilt _ metadata [record] Hm Hb).
  destruct (extract_textbooks ascii_lower
              (page_with_textbooks international_textbook_table))
    as [|textbook textbooks] eqn:E; [by apply Forall2_nil_cons_inv in Hbuilt|].
  apply Forall2_cons in Hbuilt as [(Hnote & Htags & _ & Hsplit & _) _].
  rewrite Hsplit. split; [|exact Htags].
  apply Hnote. vm_compute in E. injection E as <- _. vm_compute. reflexivity.
Defined.

(** * Further properties of the code *)

(** ** Trimming *)

Lemma drop_while_Forall (P : N → Prop) p s : Forall P s → Forall P (drop_while p s).
Proof.
  induction 1 as [|x s Hx Hs IH]; simpl; [constructor|].
  destruct (p x); [done|]. by constructor.
Qed.

Lemma strip_Forall (P : N → Prop) s : Forall P s → Forall P (strip s).
Proof.
  intros H. unfold strip, rstrip, lstrip.
  by apply Forall_reverse, drop_while_Forall, Forall_reverse, drop_while_Forall.
Qed.

Lemma drop_while_idem p s : drop_while p (drop_while p s) = drop_while p s.
Proof.
  destruct (drop_while_head p s) as [->|(c & s' & -> & Hc)]; [done|].
  simpl. by rewrite Hc.
Qed.

Lemma rstrip_prefix s : ∃ trailing, s = rstrip s ++ trailing.
Proof.
  unfold rstrip. exists (reverse (take_while isspace (reverse s))).
  rewrite <- reverse_app, take_drop_while. by rewrite reverse_involutive.
Qed.

Lemma lstrip_head s :
  lstrip s = [] ∨ ∃ c s', lstrip s = c :: s' ∧ isspace c = false.
Proof. apply drop_while_head. Qed.

Lemma strip_idem s : strip (strip s) = strip s.
Proof.
  unfold strip at 1.
  assert (Hl : lstrip (strip s) = strip s).
  { unfold strip. destruct (rstrip_prefix (lstrip s)) as [trailing Ht].
    destruct (rstrip (lstrip s)) as [|c t] eqn:E; [done|].
    destruct (lstrip_head s) as [Hn|(c0 & s0 & Hl & Hc0)].
    - rewrite Hn in Ht. discriminate.
    - rewrite Hl in Ht. injection Ht as -> _. unfold lstrip. simpl. by rewrite Hc0. }
  rewrite Hl. unfold strip, rstrip at 1.
  unfold rstrip. rewrite reverse_involutive, drop_while_idem. done.
Qed.

(** ** Splitting the faculty and instructor cells *)

Lemma re_split_pieces cls s item :
  item ∈ re_split cls s → Forall (fun c => cls c = false) item.
Proof.
  intros Hin. pose proof (re_split_go_pieces cls false s) as H.
  rewrite Forall_forall in H. by apply H.
Qed.

(** X1.  [normalize_instructor_list] returns names that are not empty,
    carry no surrounding whitespace and hold none of the separators
    (the ideographic comma, the comma, the slash, the full-width slash);
    an empty cell gives no instructor. *)
Theorem normalize_instructor_list_items (value : str) :
  Forall (fun item =>
            item ≠ [] ∧ strip item = item ∧
            Forall (fun c => c ≠ 12289 ∧ c ≠ 44 ∧ c ≠ 47 ∧ c ≠ 65295)%N item)
         (normalize_instructor_list value) ∧
  normalize_instructor_list [] = [].
Proof.
  split; [|done]. unfold normalize_instructor_list.
  destruct (negb (truthy value)); [constructor|].
  apply Forall_forall. intros item Hin.
  apply list_elem_of_omap in Hin as (raw & Hraw & Hitem).
  destruct (truthy (strip raw)) eqn:Et; [|done]. injection Hitem as <-.
  split; [by apply truthy_true|]. split; [apply strip_idem|].
  apply strip_Forall. eapply Forall_impl; [by eapply re_split_pieces|].
  intros c Hc. unfold instructor_separator in Hc.
  rewrite !orb_false_iff, !N.eqb_neq in Hc. tauto.
Qed.

Lemma normalize_name_list_chars value :
  Forall (fun name =>
            name ≠ [] ∧
            Forall (fun c => isspace c = false ∧ c ≠ 44%N ∧ c ≠ 12289%N) name)
         (normalize_name_list value).
Proof.
  unfold normalize_name_list.
  destruct (negb (truthy value)); [constructor|].
  apply Forall_forall. intros name Hin.
  apply list_elem_of_filter in Hin as [Hne Hin]. split; [by apply truthy_true|].
  eapply Forall_impl; [by eapply re_split_pieces|].
  intros c Hc. unfold name_separator in Hc.
  rewrite !orb_false_iff, !N.eqb_neq in Hc. tauto.
Qed.

(** X2.  [normalize_name_list] returns names that are not empty and hold
    no whitespace, no comma and no ideographic comma; a cell that is
    empty or blank gives no name. *)
Theorem normalize_name_list_items (value : str) :
  Forall (fun name =>
            name ≠ [] ∧
            Forall (fun c => isspace c = false ∧ c ≠ 44%N ∧ c ≠ 12289%N) name)
         (normalize_name_list value) ∧
  (strip value = [] → normalize_name_list value = []).
Proof.
  split; [apply normalize_name_list_chars|].
  unfold normalize_name_list. intros ->. by destruct (negb (truthy value)).
Qed.

(** The theorem for a blank cell. *)
Lemma normalize_name_list_items_witness : normalize_name_list (lit "  　 ") = [].
Proof.
  apply (proj2 (normalize_name_list_items (lit "  　 "))). by vm_compute.
Defined.

Lemma normalize_name_list_trimmed value :
  Forall (fun name => strip name = name ∧ name ≠ []) (normalize_name_list value).
Proof.
  eapply Forall_impl; [apply normalize_name_list_chars|].
  intros name [Hne Hc]. split; [|done]. apply strip_no_space.
  eapply Forall_impl; [exact Hc|]. by intros c [? _].
Qed.

(** X3.  The category of the faculties as the metadata extractor splits
    them: a faculty cell that yields three or more distinct names is
    always classified as general education, whatever the title.  The
    names are split at whitespace too, so a cell such as
    ["Faculty of Science、Faculty of Engineering"] yields four distinct
    names and falls under this rule. *)
Theorem split_faculties_three_names_general (value course_title : str) :
  3 ≤ size (list_to_set (normalize_name_list value) : gset str) →
  determine_course_category (normalize_name_list value) course_title
  = general_education.
Proof.
  intros H.
  rewrite determine_course_category_on_trimmed by apply normalize_name_list_trimmed.
  unfold category_rules. destruct (normalize_name_list value); [done|].
  rewrite (bool_decide_eq_true_2 _ H). by destruct (existsb _ _).
Qed.

(** The theorem on the faculty cell of §8. *)
Lemma split_faculties_three_names_general_witness :
  determine_course_category
    (normalize_name_list (lit "Faculty of Science、Faculty of Engineering"))
    (lit "Intro to CS")
  = general_education.
Proof.
  apply split_faculties_three_names_general. vm_compute. lia.
Defined.

(** ** Identifier parser: composing and trimming *)

(** X4.  Round trip: joining a code (not empty, free of whitespace and
    colons) and a title (not empty, on one line, already trimmed) with
    an ASCII or full-width colon gives a string that
    [parse_course_identifier] splits back into that code and title, even
    when the title itself holds colons or spaces. *)
Theorem parse_course_identifier_round_trip (code title : str) (c : N) :
  code ≠ [] →
  Forall (fun x => isspace x = false ∧ x ≠ ascii_colon ∧ x ≠ full_width_colon) code →
  c = ascii_colon ∨ c = full_width_colon →
  title ≠ [] →
  Forall (fun x => x ≠ 10%N) title →
  strip title = title →
  parse_course_identifier (code ++ c :: title) = (code, title).
Proof.
  intros Hne Hcode Hc Htne Htitle Hstrip.
  assert (Hm : identifier_match (code ++ c :: title) code title).
  { exists c, []. rewrite app_nil_r. repeat split; auto. }
  apply re_match_identifier in Hm as [c' Hm].
  unfold parse_course_identifier. by rewrite Hm, Hstrip.
Qed.

(** The theorem for a title that holds a colon and spaces. *)
Lemma parse_course_identifier_round_trip_witness :
  parse_course_identifier (lit "ab-1" ++ 58%N :: lit "Topics: Logic I")
  = (lit "ab-1", lit "Topics: Logic I").
Proof.
  apply parse_course_identifier_round_trip.
  - discriminate.
  - repeat constructor; discriminate.
  - by left.
  - discriminate.
  - repeat constructor; discriminate.
  - by vm_compute.
Defined.

(** X5.  Both components that [parse_course_identifier] returns are
    trimmed, whatever the input: neither the code nor the title starts
    or ends with whitespace. *)
Theorem parse_course_identifier_trimmed (value : str) :
  strip (parse_course_identifier value).1 = (parse_course_identifier value).1 ∧
  strip (parse_course_identifier value).2 = (parse_course_identifier value).2.
Proof.
  unfold parse_course_identifier.
  destruct (re_match course_identifier_pattern value) as [caps|] eqn:E.
  - apply re_match_identifier_inv in E as (code & c & title & -> & Hm).
    destruct Hm as (_ & _ & _ & _ & Hcode & _). simpl. split; [|apply strip_idem].
    apply strip_no_space. eapply Forall_impl; [exact Hcode|]. by intros x [? _].
  - destruct (split_maxsplit1 value) as [|a [|b [|? ?]]]; simpl;
      split; apply strip_idem || done.
Qed.

(** ** Extracted entries and built records *)

Lemma extract_textbooks_entries lower soup :
  Forall (fun entry =>
            ∃ header_map row,
              entry = row_entry header_map row ∧ resolved_title header_map row ≠ [])
         (extract_textbooks lower soup).
Proof.
  unfold extract_textbooks.
  destruct (find_with_next _ (descendants soup)) as [[heading next_elements]|];
    [|constructor].
  destruct (find_with_next _ next_elements) as [[table rest]|]; [|constructor].
  destruct (find_all [lit "tr"] table) as [|row0 rest0]; [constructor|].
  rewrite foldl_row_step. cbn [app]. apply Forall_forall. intros entry Hin.
  apply list_elem_of_fmap in Hin as (row & -> & Hrow).
  apply list_elem_of_filter in Hrow as [Hne _]. eauto.
Qed.

(** X6.  Every entry that [extract_textbooks] returns is a dictionary
    with exactly the six keys title, reading, authors, publisher, isbn
    and note, and its title is not empty and is trimmed. *)
Theorem extract_textbooks_entry_shape (lower : str -> str) (soup : node) :
  Forall (fun entry =>
            dom entry = ({[ k_title; k_reading; k_authors; k_publisher; k_isbn; k_note ]}
                         : gset str) ∧
            ∃ title, entry !! k_title = Some title ∧ title ≠ [] ∧ strip title = title)
         (extract_textbooks lower soup).
Proof.
  eapply Forall_impl; [apply extract_textbooks_entries|].
  intros entry (header_map & row & -> & Hne). split.
  - unfold row_entry, textbook_entry. rewrite !dom_insert_L, dom_empty_L. set_solver.
  - exists (resolved_title header_map row).
    split; [unfold row_entry, textbook_entry; by rewrite lookup_insert_eq|].
    split; [done|]. unfold resolved_title. apply strip_idem.
Qed.

Lemma build_record_returns lower metadata title category tags entries :
  Forall (fun entry => is_Some (entry !! k_title)) entries →
  ∃ records,
    Forall2 (fun entry r => build_record lower metadata title category tags entry = Return r)
            entries records.
Proof.
  induction 1 as [|entry entries [t Ht] _ [records IH]]; [by exists []|].
  eexists (_ :: records). constructor; [|exact IH].
  unfold build_record, getitem. rewrite Ht. reflexivity.
Qed.

(** X7.  [build_records] fails exactly when the metadata extractor
    fails, and with the same error: no extracted entry lacks the title
    the builder indexes, so no [KeyError] arises.  When the metadata is
    there it returns one record per extracted textbook. *)
Theorem build_records_errors (lower : str -> str) (soup : node) :
  (∀ e, build_records lower soup = Raise e ↔ extract_course_metadata soup = Raise e) ∧
  (∀ metadata,
     extract_course_metadata soup = Return metadata →
     ∃ records, build_records lower soup = Return records ∧
                length records = length (extract_textbooks lower soup)).
Proof.
  rewrite build_records_unfold.
  destruct (extract_course_metadata soup) as [metadata|e0].
  - destruct (build_record_returns lower metadata (resolve_course_title metadata)
                (determine_course_category (CourseMetadata.faculties metadata)
                   (resolve_course_title metadata))
                (derive_tags lower
                   (determine_course_category (CourseMetadata.faculties metadata)
                      (resolve_course_title metadata))
                   (CourseMetadata.faculties metadata) (resolve_course_title metadata)
                   (CourseMetadata.instruction_language metadata))
                (extract_textbooks lower soup)) as [records HF].
    { eapply Forall_impl; [apply extract_textbooks_entries|].
      intros entry (hm & row & -> & _). unfold row_entry, textbook_entry.
      rewrite lookup_insert_eq. eauto. }
    cbv zeta. rewrite (fold_append_returns _ _ [] records HF). split.
    + intros e. split; intros; discriminate.
    + intros md _. exists records. split; [done|].
      symmetry. by eapply Forall2_length.
  - split; [|intros; discriminate]. intros e. split; by intros [= ->].
Qed.

(** The theorem on the sample page, where the metadata is found. *)
Lemma build_records_errors_witness :
  ∃ records, build_records ascii_lower sample_document = Return records ∧
             length records = length (extract_textbooks ascii_lower sample_document).
Proof.
  assert (H : ∃ metadata, extract_course_metadata sample_document = Return metadata)
    by (eexists; vm_compute; reflexivity).
  destruct H as [metadata H].
  exact (proj2 (build_records_errors ascii_lower sample_document) metadata H).
Defined.

Lemma resolve_course_title_nonempty metadata : resolve_course_title metadata ≠ [].
Proof.
  unfold resolve_course_title.
  destruct (CourseMetadata.course_title metadata) as [|c s]; simpl; [|done].
  by destruct (CourseMetadata.course_code metadata).
Qed.

(** X8.  Every record of a document carries the metadata of that
    document: code, campus, faculties, instructors, language, year,
    term, schedule, classroom and credits as extracted, the category
    computed from the faculties and the resolved title, and as course
    title the extracted title, or the code when the title is empty, or
    ["Untitled Course"] when both are; so the course title of a record
    is never empty. *)
Theorem build_records_metadata_fields (lower : str -> str) (soup : node)
    (metadata : CourseMetadata.t) (records : list TextbookRecord) :
  extract_course_metadata soup = Return metadata →
  build_records lower soup = Return records →
  Forall (fun r =>
            course_code r = CourseMetadata.course_code metadata ∧
            course_title r = resolve_course_title metadata ∧
            course_title r ≠ [] ∧
            campus r = CourseMetadata.campus metadata ∧
            faculty_names r = CourseMetadata.faculties metadata ∧
            instructors r = Some (CourseMetadata.instructors metadata) ∧
            instruction_language r = CourseMetadata.instruction_language metadata ∧
            academic_year r = CourseMetadata.academic_year metadata ∧
            term r = CourseMetadata.term metadata ∧
            schedule r = CourseMetadata.schedule metadata ∧
            classroom r = CourseMetadata.classroom metadata ∧
            credits r = CourseMetadata.credits metadata ∧
            course_category r
            = determine_course_category (CourseMetadata.faculties metadata)
                                        (resolve_course_title metadata))
         records.
Proof.
  intros Hmd. rewrite build_records_unfold, Hmd. cbv zeta. intros H.
  apply fold_append_results in H as (rs & -> & HF). cbn [app].
  induction HF as [|entry r entries rs Hr _ IH]; constructor; [|exact IH].
  unfold build_record, getitem in Hr.
  destruct (entry !! k_title) as [t|]; [|discriminate].
  simpl in Hr. injection Hr as <-. cbn.
  repeat split; try done. apply resolve_course_title_nonempty.
Qed.

(** The theorem on the sample page. *)
Lemma build_records_metadata_fields_witness :
  ∃ metadata records,
    extract_course_metadata sample_document = Return metadata ∧
    build_records ascii_lower sample_document = Return records ∧
    Forall (fun r => course_title r = lit "Intro to CS" ∧ course_code r = lit "ABC123")
           records.
Proof.
  eexists _, _. split; [vm_compute; reflexivity|]. split; [vm_compute; reflexivity|].
  eapply Forall_impl.
  - eapply (build_records_metadata_fields ascii_lower sample_document);
      vm_compute; reflexivity.
  - intros r (Hc & Ht & _). split; [exact Ht | exact Hc].
Defined.

(** X9.  The [tag_names] value of a record, split at its commas, is a
    sorted sequence without repetition whose members are the tags that
    [derive_tags] gives for the course, together with
    [international-student] when the note of that textbook matches the
    international-course detector. *)
Theorem build_records_tags (lower : str -> str) (soup : node)
    (metadata : CourseMetadata.t) (records : list TextbookRecord) :
  extract_course_metadata soup = Return metadata →
  build_records lower soup = Return records →
  Forall2 (fun entry r =>
             let tags := filter (fun part => part ≠ []) (split_char 44 (tag_names r)) in
             Sorted str_le tags ∧ NoDup tags ∧
             ∀ t, t ∈ tags ↔
                  t ∈ derive_tags lower (course_category r)
                        (CourseMetadata.faculties metadata)
                        (resolve_course_title metadata)
                        (CourseMetadata.instruction_language metadata) ∨
                  (t = international_student ∧
                   detect_international_course lower (dict_get k_note [] entry) = true))
          (extract_textbooks lower soup) records.
Proof.
  intros Hmd. rewrite build_records_unfold, Hmd. cbv zeta. intros H.
  apply fold_append_results in H as (rs & -> & HF). cbn [app].
  eapply Forall2_impl; [exact HF|]. intros entry r Hr. cbv beta in Hr.
  apply build_record_fields in Hr as (_ & _ & _ & _ & _ & _ & _ & _ & Hcat & Ht).
  rewrite Hcat, Ht. cbv zeta.
  set (base := derive_tags lower _ _ _ _).
  rewrite split_join_filter.
  2:{ apply record_tags_no_comma, derive_tags_no_comma,
        determine_course_category_values. }
  destruct (sorted_elements_spec
              (if detect_international_course lower (dict_get k_note [] entry)
               then list_to_set base ∪ {[ international_student ]}
               else list_to_set base)) as (HS & HN & Hmem).
  split; [done|]. split; [done|]. intros t. rewrite Hmem.
  destruct (detect_international_course lower (dict_get k_note [] entry)).
  - rewrite elem_of_union, elem_of_list_to_set, elem_of_singleton. tauto.
  - rewrite elem_of_list_to_set. split; [tauto|]. intros [?|[_ ?]]; done.
Qed.

(** The theorem on the sample page. *)
Lemma build_records_tags_witness :
  ∃ record,
    build_records ascii_lower sample_document = Return [record] ∧
    Sorted str_le (filter (fun part => part ≠ []) (split_char 44 (tag_names record))).
Proof.
  assert (Hm : ∃ metadata, extract_course_metadata sample_document = Return metadata)
    by (eexists; vm_compute; reflexivity).
  destruct Hm as [metadata Hm].
  assert (Hb : ∃ record, build_records ascii_lower sample_document = Return [record])
    by (eexists; vm_compute; reflexivity).
  destruct Hb as [record Hb]. exists record. split; [exact Hb|].
  pose proof (build_records_tags ascii_lower sample_document metadata [record] Hm Hb) as HF.
  destruct (extract_textbooks ascii_lower sample_document) as [|entry entries];
    [by apply Forall2_nil_cons_inv in HF|].
  apply Forall2_cons in HF as [(HS & _) _]. exact HS.
Defined.

(** ** Keyword tables *)

(** X10.  [normalize_textbook_header] maps a blank label to no field,
    every other label to no field or to one of the six canonical field
    names, looks at the trimmed label only, and gives the title
    keywords priority: a label in which 書名 or タイトル occurs is a
    title column whatever else it says. *)
Theorem normalize_textbook_header_keys (lower : str -> str) (label : str) :
  (strip label = [] → normalize_textbook_header lower label = None) ∧
  (∀ key, normalize_textbook_header lower label = Some key →
          key ∈ [k_title; k_reading; k_authors; k_publisher; k_isbn; k_note]) ∧
  normalize_textbook_header lower (strip label) = normalize_textbook_header lower label ∧
  (occurs_in (lit "書名") (strip label) ∨ occurs_in (lit "タイトル") (strip label) →
   normalize_textbook_header lower label = Some k_title).
Proof.
  unfold normalize_textbook_header. rewrite strip_idem.
  split; [by intros ->|]. split; [|split; [done|]].
  - intros key.
    repeat match goal with
           | |- context [if ?b then _ else _] => destruct b
           end; intros [= <-]; set_solver.
  - intros H.
    assert (strip label ≠ []) as Hne.
    { intros Hnil. rewrite Hnil in H.
      destruct H as [(b & a & H)|(b & a & H)]; destruct b; discriminate. }
    apply truthy_true in Hne. rewrite Hne. cbn [negb].
    destruct H as [H|H]; apply str_in_spec in H; rewrite H; [done|].
    by rewrite orb_true_r.
Qed.

(** The theorem for a header cell that names both the title and the
    author. *)
Lemma normalize_textbook_header_keys_witness :
  normalize_textbook_header ascii_lower (lit " 書名 / 著者 ") = Some k_title.
Proof.
  apply (normalize_textbook_header_keys ascii_lower (lit " 書名 / 著者 ")).
  left. apply str_in_spec. by vm_compute.
Defined.

(** X11.  [normalize_language_tag] gives no tag for the empty string
    and otherwise no tag or one of english, japanese, chinese, korean,
    french, german; a value in which 英語 occurs is tagged english even
    when it names other languages too. *)
Theorem normalize_language_tag_values (lower : str -> str) (language_value : str) :
  normalize_language_tag lower [] = None ∧
  (∀ tag, normalize_language_tag lower language_value = Some tag →
          tag ∈ [lit "english"; lit "japanese"; lit "chinese"; lit "korean";
                 lit "french"; lit "german"]) ∧
  (occurs_in (lit "英語") language_value →
   normalize_language_tag lower language_value = Some (lit "english")).
Proof.
  split; [done|]. unfold normalize_language_tag. split.
  - intros tag.
    repeat match goal with
           | |- context [if ?b then _ else _] => destruct b
           end; intros [= <-]; set_solver.
  - intros H.
    assert (language_value ≠ []) as Hne.
    { intros ->. destruct H as (b & a & H). destruct b; discriminate. }
    apply truthy_true in Hne. rewrite Hne. cbn [negb].
    apply str_in_spec in H. rewrite H. by rewrite orb_true_r.
Qed.

(** The theorem for a course taught in two languages. *)
Lemma normalize_language_tag_values_witness :
  normalize_language_tag ascii_lower (lit "日本語・英語") = Some (lit "english").
Proof.
  apply (normalize_language_tag_values ascii_lower (lit "日本語・英語")).
  apply str_in_spec. by vm_compute.
Defined.

(** ** Positional fallback *)

Lemma positional_fallback_beyond index text_ values :
  5 ≤ index → positional_fallback index text_ values = values.
Proof. intros H. do 5 (destruct index as [|index]; [lia|]). done. Qed.

Lemma cell_step_beyond values (f : nat → node → nat * node) cells :
  (∀ i c, 5 ≤ (f i c).1) →
  foldl (cell_step []) values (imap f cells) = values.
Proof.
  revert values f. induction cells as [|c cells IH]; intros values f Hf; [done|].
  cbn [imap foldl]. rewrite IH by (intros i c'; apply Hf).
  unfold cell_step. specialize (Hf 0 c). destruct (f 0 c) as [index cell].
  by apply positional_fallback_beyond.
Qed.

(** X12.  In a table without a header row the columns are taken by
    position: the first five cells of a row give title, authors,
    publisher, isbn and note, a missing cell leaves its field out,
    further cells are ignored, and no reading is ever set. *)
Theorem row_values_positional (cells : list node) :
  row_values [] cells !! k_title = get_text_strip <$> cells !! 0 ∧
  row_values [] cells !! k_authors = get_text_strip <$> cells !! 1 ∧
  row_values [] cells !! k_publisher = get_text_strip <$> cells !! 2 ∧
  row_values [] cells !! k_isbn = get_text_strip <$> cells !! 3 ∧
  row_values [] cells !! k_note = get_text_strip <$> cells !! 4 ∧
  row_values [] cells !! k_reading = None.
Proof.
  unfold row_values.
  destruct cells as [|c0 [|c1 [|c2 [|c3 [|c4 rest]]]]];
    cbn [imap foldl cell_step];
    rewrite ?cell_step_beyond by (intros; simpl; lia);
    unfold positional_fallback, setdefault;
    repeat (rewrite ?lookup_insert_ne by done; rewrite ?lookup_insert_eq;
            rewrite ?lookup_empty; cbn [lookup list_lookup fmap option_fmap option_map]);
    repeat split; done.
Qed.

(** ** Section texts *)

Lemma section_text_from_found alternatives l :
  section_text_from alternatives l ≠ [] →
  ∃ before header next_elements sibling rest,
    l = before ++ header :: next_elements ∧
    tag_matches [lit "h3"; lit "th"] alternatives header = true ∧
    find_with_next is_tag next_elements = Some (sibling, rest) ∧
    section_text_from alternatives l = get_text_strip sibling.
Proof.
  induction l as [|n l IH]; [done|]. cbn [section_text_from].
  assert (Hrest : section_text_from alternatives l ≠ [] →
          ∃ before header next_elements sibling rest,
            n :: l = before ++ header :: next_elements ∧
            tag_matches [lit "h3"; lit "th"] alternatives header = true ∧
            find_with_next is_tag next_elements = Some (sibling, rest) ∧
            section_text_from alternatives l = get_text_strip sibling).
  { intros H. destruct (IH H) as (b & h & ne & sib & r & -> & ? & ? & ?).
    by exists (n :: b), h, ne, sib, r. }
  destruct (tag_matches _ alternatives n) eqn:Em; [|exact Hrest].
  destruct (find_with_next is_tag l) as [[sibling rest]|] eqn:Ef; [|exact Hrest].
  destruct (truthy (get_text_strip sibling)) eqn:Et; [|exact Hrest].
  intros _. by exists [], n, l, sibling, rest.
Qed.

(** X13.  [extract_section_text] returns the empty string when no [h3]
    or [th] element of the document has a string that the label pattern
    matches; and a text it returns is the stripped text of the first
    tag after some such header. *)
Theorem extract_section_text_result (soup : node) (alternatives : list str) :
  (Forall (fun n => tag_matches [lit "h3"; lit "th"] alternatives n = false)
          (descendants soup) →
   extract_section_text soup alternatives = []) ∧
  (extract_section_text soup alternatives ≠ [] →
   ∃ before header next_elements sibling rest,
     descendants soup = before ++ header :: next_elements ∧
     tag_matches [lit "h3"; lit "th"] alternatives header = true ∧
     find_with_next is_tag next_elements = Some (sibling, rest) ∧
     extract_section_text soup alternatives = get_text_strip sibling).
Proof.
  unfold extract_section_text. split; [|apply section_text_from_found].
  induction 1 as [|n l Hn _ IH]; [done|]. cbn [section_text_from]. by rewrite Hn.
Qed.

(** The theorem on the sample page, which has no campus section. *)
Lemma extract_section_text_result_witness :
  extract_section_text sample_document [lit "キャンパス"] = [].
Proof.
  apply (extract_section_text_result sample_document [lit "キャンパス"]).
  apply Forall_forall. intros n Hn. apply list_elem_of_In in Hn.
  vm_compute in Hn. intuition (subst; reflexivity).
Defined.

(** ** The passes only append *)

Lemma appended_prefix existing addition : existing `prefix_of` appended existing addition.
Proof.
  unfold appended. destruct (negb _); [done|]. destruct (str_in _ _); [done|].
  destruct existing as [|c s]; simpl.
  - apply prefix_nil.
  - by apply prefix_cons, prefix_app_r.
Qed.

Lemma note_extended_refl r : note_extended r r.
Proof. by split. Qed.

Lemma note_extended_trans r1 r2 r3 :
  note_extended r1 r2 → note_extended r2 r3 → note_extended r1 r3.
Proof. intros [H1 P1] [H2 P2]. split; [congruence|]. by etrans. Qed.

Lemma alias_update_extends titles_by_code r :
  note_extended r (alias_update titles_by_code r).
Proof.
  split; [apply alias_update_note_only|]. unfold alias_update.
  destruct (negb _); [done|]. case_bool_decide; [done|].
  destruct (sorted _); [done|]. apply appended_prefix.
Qed.

Lemma scope_update_extends r : note_extended r (scope_update r).
Proof.
  split; [apply scope_update_note_only|]. unfold scope_update.
  case_bool_decide; destruct (str_eqb _ _); cbn [note set_note];
    try done; try apply appended_prefix.
  etrans; apply appended_prefix.
Qed.

Lemma pass_extends update records (σ : store) i r :
  (∀ r, update (update r) = update r) →
  (∀ r, note_extended r (update r)) →
  σ !! i = Some r →
  ∃ r', foldl (fun σ i => alter update i σ) σ records !! i = Some r' ∧
        note_extended r r' ∧ (i ∉ records → r' = r).
Proof.
  intros Hidem Hext Hi. rewrite pass_lookup by done. rewrite Hi. simpl.
  case_bool_decide; eexists; (split; [done|]); split; auto using note_extended_refl.
  - done.
Qed.

Lemma pass_length update records (σ : store) :
  length (foldl (fun σ i => alter update i σ) σ records) = length σ.
Proof.
  revert σ. induction records as [|i records IH]; intros σ; [done|].
  cbn [foldl]. by rewrite IH, length_alter.
Qed.

(** X14.  Both passes only append to notes: they keep the number of
    records, and every record comes out with all fields but the note
    unchanged and with a note that starts with its old note; a record
    that is not listed is not touched at all. *)
Theorem annotate_passes_append_only (records : list nat) (σ : store) (i : nat)
    (r : TextbookRecord) :
  σ !! i = Some r →
  (∃ r', annotate_aliases records σ !! i = Some r' ∧
         note_extended r r' ∧ (i ∉ records → r' = r)) ∧
  (∃ r', annotate_faculty_scope records σ !! i = Some r' ∧
         note_extended r r' ∧ (i ∉ records → r' = r)) ∧
  length (annotate_aliases records σ) = length σ ∧
  length (annotate_faculty_scope records σ) = length σ.
Proof.
  intros Hi. rewrite annotate_aliases_pass, annotate_faculty_scope_pass.
  split; [|split; [|split]].
  - apply pass_extends; auto using alias_update_idem, alias_update_extends.
  - apply pass_extends; auto using scope_update_idem, scope_update_extends.
  - apply pass_length.
  - apply pass_length.
Qed.

(** The theorem on the sample store: the faculty-scope pass extends the
    note of the second record, which lists two faculties. *)
Lemma annotate_passes_append_only_witness :
  ∃ r', annotate_faculty_scope [0; 1; 2] sample_store !! 1 = Some r' ∧
        lit "used weekly" `prefix_of` note r'.
Proof.
  destruct (annotate_passes_append_only [0; 1; 2] sample_store 1
              (sample_record "XYZ9" "General Physics" ["Science"; "Engineering"]%string
                 faculty_course "used weekly") eq_refl)
    as (_ & (r' & Hr' & [_ Hp] & _) & _).
  exists r'. split; [exact Hr' | exact Hp].
Defined.

(** ** What the alias pass writes *)

Lemma collect_titles_from (acc : gmap str (gset str)) records (σ : store) code title :
  title ∈ default ∅
    (foldl (fun titles_by_code record =>
              match σ !! record with
              | Some r =>
                if truthy (course_code r)
                then <[course_code r :=
                         default ∅ (titles_by_code !! course_code r) ∪ {[ course_title r ]}]>
                       titles_by_code
                else titles_by_code
              | None => titles_by_code
              end) acc records !! code)
  ↔ title ∈ default (∅ : gset str) (acc !! code) ∨
    ∃ i r, i ∈ records ∧ σ !! i = Some r ∧ course_code r ≠ [] ∧
           course_code r = code ∧ course_title r = title.
Proof.
  revert acc. induction records as [|i records IH]; intros acc.
  - simpl. split; [by left|]. intros [H|(i & r & Hi & _)]; [done|].
    by apply elem_of_nil in Hi.
  - cbn [foldl]. rewrite IH. clear IH. split.
    + intros [H|(j & r & Hj & Hr)].
      * destruct (σ !! i) as [ri|] eqn:Ei; [|by left].
        destruct (truthy (course_code ri)) eqn:Et; [|by left].
        destruct (decide (course_code ri = code)) as [Hc|Hc].
        -- subst code. rewrite lookup_insert_eq in H. simpl in H.
           apply elem_of_union in H as [H|H]; [by left|].
           apply elem_of_singleton in H. right. exists i, ri.
           split; [apply list_elem_of_here|]. by apply truthy_true in Et.
        -- rewrite lookup_insert_ne in H by done. by left.
      * right. exists j, r. split; [by apply list_elem_of_further | done].
    + intros [H|(j & r & Hj & Hr & Hne & Hc & Ht)].
      * left. destruct (σ !! i) as [ri|]; [|done].
        destruct (truthy (course_code ri)); [|done].
        destruct (decide (course_code ri = code)) as [Hc|Hc].
        -- subst code. rewrite lookup_insert_eq. simpl. apply elem_of_union. by left.
        -- by rewrite lookup_insert_ne.
      * apply elem_of_cons in Hj as [->|Hj].
        -- left. rewrite Hr. apply truthy_true in Hne. rewrite Hne. subst code.
           rewrite lookup_insert_eq. simpl. apply elem_of_union. right.
           by apply elem_of_singleton.
        -- right. by exists j, r.
Qed.

(** The titles collected under a code are the titles of the listed
    records that carry it. *)
Lemma collect_titles_spec records (σ : store) code title :
  title ∈ default (∅ : gset str) (collect_titles records σ !! code) ↔
  ∃ i r, i ∈ records ∧ σ !! i = Some r ∧ course_code r ≠ [] ∧
         course_code r = code ∧ course_title r = title.
Proof.
  unfold collect_titles. rewrite collect_titles_from, lookup_empty. simpl.
  split; [|by right]. intros [H|H]; [|done]. by apply not_elem_of_empty in H.
Qed.

Lemma occurs_in_trans a b c : occurs_in a b → occurs_in b c → occurs_in a c.
Proof.
  intros (p1 & q1 & ->) (p2 & q2 & ->). exists (p2 ++ p1), (q1 ++ q2).
  by rewrite <- !app_assoc.
Qed.

Lemma join_occurs sep items item : item ∈ items → occurs_in item (join sep items).
Proof.
  induction items as [|x items IH]; [by intros ?%elem_of_nil|].
  intros [->|Hin]%elem_of_cons.
  - destruct items as [|y items].
    + exists [], []. by rewrite app_nil_r.
    + exists [], (sep ++ join sep (y :: items)). done.
  - destruct items as [|y items]; [by apply elem_of_nil in Hin|].
    destruct (IH Hin) as (b & a & Hj).
    change (join sep (x :: y :: items)) with (x ++ sep ++ join sep (y :: items)).
    rewrite Hj. exists (x ++ sep ++ b), a. by rewrite <- !app_assoc.
Qed.

Lemma alias_note_nonempty other_titles : alias_note other_titles ≠ [].
Proof.
  unfold alias_note. intros H. apply app_eq_nil in H as [H _].
  vm_compute in H. discriminate.
Qed.

Lemma alias_note_prefix other_titles : occurs_in (lit "別名称: ") (alias_note other_titles).
Proof. exists [], (join note_separator other_titles). done. Qed.

(** X15.  What the alias pass leaves in a listed record.  If another
    listed record has the same non-empty course code under a different
    title, the note of the record afterwards holds the label 別名称 and
    that other title.  If the code is empty, or every listed record
    with that code has the same title, the record is left as it was. *)
Theorem alias_pass_notes (records : list nat) (σ : store) (i : nat) (ri : TextbookRecord) :
  σ !! i = Some ri →
  i ∈ records →
  (∀ j rj,
     j ∈ records → σ !! j = Some rj →
     course_code ri ≠ [] →
     course_code rj = course_code ri →
     course_title rj ≠ course_title ri →
     ∃ r', annotate_aliases records σ !! i = Some r' ∧
           occurs_in (lit "別名称: ") (note r') ∧
           occurs_in (course_title rj) (note r')) ∧
  (course_code ri = [] ∨
   (∀ j rj, j ∈ records → σ !! j = Some rj →
            course_code rj = course_code ri → course_title rj = course_title ri) →
   annotate_aliases records σ !! i = Some ri).
Proof.
  intros Hi Hin. rewrite annotate_aliases_pass.
  rewrite pass_lookup by apply alias_update_idem.
  rewrite Hi, (bool_decide_eq_true_2 _ Hin). simpl.
  set (T := collect_titles records σ). split.
  - intros j rj Hj Hrj Hne Hcode Htitle.
    eexists. split; [done|].
    assert (Hti : course_title ri ∈ default (∅ : gset str) (T !! course_code ri)).
    { apply collect_titles_spec. by exists i, ri. }
    assert (Htj : course_title rj ∈ default (∅ : gset str) (T !! course_code ri)).
    { apply collect_titles_spec. exists j, rj. repeat split; try done. congruence. }
    unfold alias_update. apply truthy_true in Hne. rewrite Hne. cbn [negb].
    destruct (T !! course_code ri) as [S|] eqn:ES;
      [|by apply not_elem_of_empty in Hti].
    cbn [default] in *. unfold id in *.
    rewrite bool_decide_eq_false_2.
    2:{ assert (({[ course_title ri ]} ∪ {[ course_title rj ]} : gset str) ⊆ S) as Hsub.
        { apply union_subseteq. split; by apply singleton_subseteq_l. }
        apply subseteq_size in Hsub.
        rewrite size_union in Hsub.
        - rewrite !size_singleton in Hsub. lia.
        - apply disjoint_singleton_l. intros Heq%elem_of_singleton. by apply Htitle. }
    destruct (sorted _) as [|t ts] eqn:Es.
    { assert (course_title rj ∈ ([] : list str)) as Hnil; [|by apply elem_of_nil in Hnil].
      rewrite <- Es. apply sorted_elem_of, list_elem_of_filter.
      split; [done|]. by apply elem_of_elements. }
    cbn [note set_note].
    assert (Hadd : occurs_in (alias_note (t :: ts))
                     (appended (note ri) (alias_note (t :: ts)))).
    { apply str_in_spec, appended_contains, alias_note_nonempty. }
    split.
    + eapply occurs_in_trans; [apply alias_note_prefix | exact Hadd].
    + eapply occurs_in_trans; [|exact Hadd]. unfold alias_note.
      destruct (join_occurs note_separator (t :: ts) (course_title rj)) as (b & a & Hj').
      { rewrite <- Es. apply sorted_elem_of, list_elem_of_filter.
        split; [done|]. by apply elem_of_elements. }
      rewrite Hj'. exists (lit "別名称: " ++ b), a. by rewrite <- !app_assoc.
  - intros Hsame. f_equal. unfold alias_update.
    destruct (truthy (course_code ri)) eqn:Et; cbn [negb]; [|done].
    destruct Hsame as [Hnil|Hsame]; [by rewrite Hnil in Et|].
    case_bool_decide; [done|].
    assert (filter (fun title => title ≠ course_title ri)
              (elements (default {[ course_title ri ]} (T !! course_code ri))) = [])
      as ->; [|done].
    apply elem_of_nil_inv. intros t Ht.
    apply list_elem_of_filter in Ht as [Hne Ht]. apply elem_of_elements in Ht.
    destruct (T !! course_code ri) as [S|] eqn:ES; cbn [default] in Ht.
    + assert (t ∈ default (∅ : gset str) (T !! course_code ri)) as Ht'
        by by rewrite ES.
      apply collect_titles_spec in Ht' as (j & rj & Hj & Hrj & _ & Hc & <-).
      apply Hne. by eapply Hsame.
    + apply elem_of_singleton in Ht. done.
Qed.

(** The theorem on the sample store: the first record learns the other
    title under which XYZ9 is listed. *)
Lemma alias_pass_notes_witness :
  ∃ r', annotate_aliases [0; 1; 2] sample_store !! 0 = Some r' ∧
        occurs_in (lit "別名称: ") (note r') ∧
        occurs_in (lit "General Physics") (note r').
Proof.
  refine (proj1 (alias_pass_notes [0; 1; 2] sample_store 0 _ eq_refl _) 1 _ _ eq_refl _ _ _).
  - set_solver.
  - set_solver.
  - discriminate.
  - reflexivity.
  - discriminate.
Defined.

(** ** What the faculty-scope pass writes *)

Lemma length_sorted_elements (S : gset str) : length (sorted (elements S)) = size S.
Proof. unfold sorted. by rewrite merge_sort_Permutation. Qed.

(** X16.  What the faculty-scope pass leaves in a listed record.  A
    record of category [general-education] gets a note that holds the
    fixed general-education remark; a record with more than one
    distinct faculty name gets a note that holds the label 複数学部向け
    and each of its faculty names; a record with at most one distinct
    faculty name and another category is left as it was. *)
Theorem faculty_scope_pass_notes (records : list nat) (σ : store) (i : nat)
    (r : TextbookRecord) :
  σ !! i = Some r →
  i ∈ records →
  ∃ r', annotate_faculty_scope records σ !! i = Some r' ∧
        (course_category r = general_education →
         occurs_in general_education_note (note r')) ∧
        (1 < size (list_to_set (faculty_names r) : gset str) →
         occurs_in (lit "複数学部向け: ") (note r') ∧
         ∀ faculty, faculty ∈ faculty_names r → occurs_in faculty (note r')) ∧
        (size (list_to_set (faculty_names r) : gset str) ≤ 1 →
         course_category r ≠ general_education → r' = r).
Proof.
  intros Hi Hin. rewrite annotate_faculty_scope_pass.
  rewrite pass_lookup by apply scope_update_idem.
  rewrite Hi, (bool_decide_eq_true_2 _ Hin). simpl.
  eexists. split; [done|]. unfold scope_update.
  rewrite length_sorted_elements.
  set (unique := sorted (elements (list_to_set (faculty_names r) : gset str))).
  split; [|split].
  - intros Hcat. unfold str_eqb. rewrite (bool_decide_eq_true_2 _ Hcat).
    cbn [note set_note]. by apply str_in_spec, appended_contains.
  - intros Hsize. rewrite (bool_decide_eq_true_2 _ Hsize).
    assert (Hscope : occurs_in (faculty_scope_note unique)
              (note (if str_eqb (course_category r) general_education
                     then set_note (set_note r (appended (note r) (faculty_scope_note unique)))
                            (appended
                               (note (set_note r
                                        (appended (note r) (faculty_scope_note unique))))
                               general_education_note)
                     else set_note r (appended (note r) (faculty_scope_note unique))))).
    { apply str_in_spec. destruct (str_eqb _ _); cbn [note set_note].
      - apply appended_mono. by apply appended_contains.
      - by apply appended_contains. }
    split.
    + eapply occurs_in_trans; [|exact Hscope].
      exists [], (join (lit ", ") unique). done.
    + intros faculty Hf. eapply occurs_in_trans; [|exact Hscope].
      destruct (join_occurs (lit ", ") unique faculty) as (b & a & Hj).
      { unfold unique. by apply sorted_elem_of, elem_of_elements, elem_of_list_to_set. }
      unfold faculty_scope_note. rewrite Hj.
      exists (lit "複数学部向け: " ++ b), a. by rewrite <- !app_assoc.
  - intros Hsize Hcat. rewrite bool_decide_eq_false_2 by lia.
    unfold str_eqb. by rewrite (bool_decide_eq_false_2 _ Hcat).
Qed.

(** The theorem on the sample store: the second record lists two
    faculties. *)
Lemma faculty_scope_pass_notes_witness :
  ∃ r', annotate_faculty_scope [0; 1; 2] sample_store !! 1 = Some r' ∧
        occurs_in (lit "複数学部向け: ") (note r').
Proof.
  destruct (faculty_scope_pass_notes [0; 1; 2] sample_store 1
              (sample_record "XYZ9" "General Physics" ["Science"; "Engineering"]%string
                 faculty_course "used weekly") eq_refl)
    as (r' & Hr' & _ & Hmulti & _).
  - apply elem_of_cons. right. apply list_elem_of_here.
  - exists r'. split; [exact Hr'|].
    assert (Hsize : 1 < size (list_to_set
                       (faculty_names
                          (sample_record "XYZ9" "General Physics"
                             ["Science"; "Engineering"]%string faculty_course
                             "used weekly")) : gset str))
      by (vm_compute; lia).
    exact (proj1 (Hmulti Hsize)).
Defined.

(** ** The whole run: errors and rows *)

Lemma collect_raise lower documents e :
  foldl (fun acc soup =>
           all_records ← acc;
           records ← build_records lower soup;
           Return (all_records ++ records))
        (Raise e) documents = Raise e.
Proof. induction documents as [|soup documents IH]; [done|]. exact IH. Qed.

Lemma collect_returns lower documents rss init :
  Forall2 (fun soup rs => build_records lower soup = Return rs) documents rss →
  foldl (fun acc soup =>
           all_records ← acc;
           records ← build_records lower soup;
           Return (all_records ++ records))
        (Return init) documents = Return (init ++ concat rss).
Proof.
  intros HF. revert init. induction HF as [|soup rs documents rss Hs _ IH]; intros init.
  - simpl. by rewrite app_nil_r.
  - cbn [foldl concat]. rewrite Hs. simpl. rewrite IH. by rewrite <- app_assoc.
Qed.

(** X17.  One document that cannot be parsed aborts the whole run: if
    the documents before it are parsed and its own parse raises, [main]
    raises that same error and writes nothing, whatever follows. *)
Theorem main_aborts_on_first_failure (lower : str -> str)
    (before after : list node) (failing : node) (rss : list (list TextbookRecord))
    (e : exn) :
  Forall2 (fun soup rs => build_records lower soup = Return rs) before rss →
  build_records lower failing = Raise e →
  main lower (before ++ failing :: after) = Raise e.
Proof.
  intros Hbefore Hfail. unfold main.
  rewrite foldl_app, (collect_returns _ _ _ _ Hbefore). cbn [foldl].
  rewrite Hfail. simpl. by rewrite collect_raise.
Qed.

(** The theorem for a run over the sample page followed by the page
    whose course-info row has no data cell. *)
Lemma main_aborts_on_first_failure_witness :
  main ascii_lower [sample_document; document_without_data_cells; sample_document]
  = Raise (ValueError "Course metadata row missing expected columns").
Proof.
  assert (H : ∃ rs, build_records ascii_lower sample_document = Return rs)
    by (eexists; vm_compute; reflexivity).
  destruct H as [rs H].
  apply (main_aborts_on_first_failure ascii_lower [sample_document] [sample_document]
           document_without_data_cells [rs]).
  - by repeat constructor.
  - by vm_compute.
Defined.

(** X18.  A run in which no document yields a textbook record, and so
    also a run over no document, aborts with [SystemExit]. *)
Theorem main_without_records (lower : str -> str) (documents : list node) :
  Forall (fun soup => build_records lower soup = Return []) documents →
  ∃ msg, main lower documents = Raise (SystemExit msg).
Proof.
  intros H. unfold main.
  rewrite (collect_returns lower documents (map (fun _ => []) documents) []).
  - assert (concat (map (fun _ : node => ([] : list TextbookRecord)) documents) = []) as ->.
    { clear. induction documents; [done|]. simpl. done. }
    simpl. eauto.
  - induction H; constructor; done.
Qed.

(** The theorem for a run over a page that has the course-info table
    but no textbook heading. *)
Lemma main_without_records_witness :
  ∃ msg,
    main ascii_lower
      [BeautifulSoup [course_info [tr [th "Course"]; tr [td "ABC123：Intro to CS"]]]]
    = Raise (SystemExit msg).
Proof.
  apply main_without_records. constructor; [by vm_compute | constructor].
Defined.

(** X19.  When every document is parsed and at least one record
    results, [main] writes the header and then one row per record, in
    the order of the documents and of the textbooks within them; the
    record behind each row is the built record with nothing but its
    note extended. *)
Theorem main_writes_every_record (lower : str -> str) (documents : list node)
    (rss : list (list TextbookRecord)) :
  Forall2 (fun soup rs => build_records lower soup = Return rs) documents rss →
  concat rss ≠ [] →
  ∃ σ, main lower documents = Return (CSV_HEADER :: map to_csv_row σ) ∧
       Forall2 note_extended (concat rss) σ.
Proof.
  intros HF Hne. unfold main. rewrite (collect_returns _ _ _ _ HF). cbn [app].
  simpl. destruct (concat rss) as [|r0 all_records] eqn:Eall; [done|].
  set (references := seq 0 (length (r0 :: all_records))).
  set (σ1 := annotate_aliases references (r0 :: all_records)).
  set (σ2 := annotate_faculty_scope references σ1).
  assert (Hlen : length σ2 = length (r0 :: all_records)).
  { unfold σ2, σ1. rewrite annotate_faculty_scope_pass, annotate_aliases_pass.
    by rewrite !pass_length. }
  assert (Hext : Forall2 note_extended (r0 :: all_records) σ2).
  { apply Forall2_same_length_lookup_2; [by rewrite Hlen|].
    intros i r r' Hr Hr'.
    destruct (pass_extends (alias_update (collect_titles references (r0 :: all_records)))
                references (r0 :: all_records) i r
                (alias_update_idem _) (alias_update_extends _) Hr)
      as (r1 & Hr1 & Hext1 & _).
    rewrite <- annotate_aliases_pass in Hr1. fold σ1 in Hr1.
    destruct (pass_extends scope_update references σ1 i r1
                scope_update_idem scope_update_extends Hr1)
      as (r2 & Hr2 & Hext2 & _).
    rewrite <- annotate_faculty_scope_pass in Hr2. fold σ2 in Hr2.
    assert (r2 = r') as -> by congruence.
    by eapply note_extended_trans. }
  exists σ2. split; [|done].
  unfold write_csv. destruct σ2; [done|]. done.
Qed.

(** The theorem for a run over the sample page alone. *)
Lemma main_writes_every_record_witness :
  ∃ σ, main ascii_lower [sample_document] = Return (CSV_HEADER :: map to_csv_row σ) ∧
       length σ = 1.
Proof.
  assert (H : ∃ r, build_records ascii_lower sample_document = Return [r])
    by (eexists; vm_compute; reflexivity).
  destruct H as [r H].
  destruct (main_writes_every_record ascii_lower [sample_document] [[r]])
    as (σ & Hmain & Hext).
  - by repeat constructor.
  - discriminate.
  - exists σ. split; [exact Hmain|]. apply Forall2_length in Hext. by rewrite <- Hext.
Defined.

(** ** Short course-info rows *)

(** X20.  A data row of the course-info table that has at least one
    cell is never an error, however short: the code and title come from
    the first cell, and every later field whose cell is missing is
    empty (no year, term, schedule or credits, no faculties, no
    instructors). *)
Theorem extract_course_metadata_short_row (soup table row0 row1 : node)
    (rows : list node) (cell : node) (cells : list node) :
  select_one_course_table soup = Some table →
  find_all [lit "tr"] table = row0 :: row1 :: rows →
  find_all [lit "td"] row1 = cell :: cells →
  ∃ metadata,
    extract_course_metadata soup = Return metadata ∧
    (CourseMetadata.course_code metadata, CourseMetadata.course_title metadata)
      = parse_course_identifier (get_text_strip cell) ∧
    (length cells < 1 → CourseMetadata.academic_year metadata = []) ∧
    (length cells < 2 → CourseMetadata.term metadata = []) ∧
    (length cells < 3 → CourseMetadata.schedule metadata = []) ∧
    (length cells < 4 → CourseMetadata.faculties metadata = []) ∧
    (length cells < 5 → CourseMetadata.instructors metadata = []) ∧
    (length cells < 6 → CourseMetadata.credits metadata = []).
Proof.
  intros Htable Hrows Hcells. unfold extract_course_metadata.
  rewrite Htable, Hrows, Hcells. cbn [map length].
  rewrite bool_decide_eq_false_2 by lia. cbn [lookup list_lookup default].
  unfold id.
  destruct (parse_course_identifier (get_text_strip cell)) as [code title].
  eexists. split; [done|]. cbn.
  split; [done|].
  repeat split; intros Hlen.
  - destruct cells; [done|simpl in Hlen; lia].
  - destruct cells as [|? [|? ?]]; try done; simpl in Hlen; lia.
  - destruct cells as [|? [|? [|? ?]]]; try done; simpl in Hlen; lia.
  - destruct cells as [|? [|? [|? [|? ?]]]]; try done; simpl in Hlen; lia.
  - destruct cells as [|? [|? [|? [|? [|? ?]]]]]; try done; simpl in Hlen; lia.
  - rewrite bool_decide_eq_false_2; [done|]. rewrite length_map. lia.
Qed.

(** The theorem on a page whose data row has the identifier cell only. *)
Lemma extract_course_metadata_short_row_witness :
  ∃ metadata,
    extract_course_metadata
      (BeautifulSoup [course_info [tr [th "Course"]; tr [td "ABC123：Intro to CS"]]])
    = Return metadata ∧
    CourseMetadata.faculties metadata = [] ∧
    CourseMetadata.credits metadata = [].
Proof.
  destruct (extract_course_metadata_short_row
              (BeautifulSoup [course_info [tr [th "Course"]; tr [td "ABC123：Intro to CS"]]])
              (element "table" {[ lit "class" := lit "stdlist" ]}
                 [tr [th "Course"]; tr [td "ABC123：Intro to CS"]])
              (tr [th "Course"]) (tr [td "ABC123：Intro to CS"]) []
              (td "ABC123：Intro to CS") [])
    as (metadata & Hm & _ & _ & _ & _ & Hf & _ & Hc);
    [by vm_compute | by vm_compute | by vm_compute |].
  exists metadata. split; [exact Hm|]. split; [apply Hf | apply Hc]; simpl; lia.
Defined.

(** ** The scraper's CSV as input of [prepare_textbooks.py] *)

Lemma tidy_literal s :
  forallb (fun c => negb (c =? 44)%N) s = true → truthy s = true →
  str_eqb (strip s) s = true → tidy s.
Proof.
  intros H1 H2 H3. split; [by apply no_comma_forallb|].
  split; [by apply truthy_true|]. unfold str_eqb in H3. by apply bool_decide_eq_true in H3.
Qed.

Lemma join_nonempty sep item items : item ≠ [] → join sep (item :: items) ≠ [].
Proof. destruct item; [done|]. intros _. by destruct items. Qed.

Lemma normalize_parts_tidy parts :
  Forall tidy parts →
  map (fun part => normalize_value (Some part))
      (filter (fun part => truthy (strip part) = true) parts) = parts.
Proof.
  induction 1 as [|x xs (_ & Hx & Hs) _ IH]; [done|].
  rewrite filter_cons_True by (rewrite Hs; by apply truthy_true).
  cbn [map]. rewrite IH. cbn [normalize_value]. by rewrite Hs.
Qed.

Lemma split_multi_value_parts (items : list str) :
  Forall tidy items → split_multi_value (Some (join comma items)) = items.
Proof.
  intros H. unfold split_multi_value.
  destruct items as [|item items]; [done|].
  assert (Hne : join comma (item :: items) ≠ []).
  { apply join_nonempty. apply Forall_cons in H as [(_ & ? & _) _]. done. }
  apply truthy_true in Hne. rewrite Hne. cbn [negb].
  rewrite split_join; [|done|by eapply Forall_impl; [exact H|]; intros ? []].
  by apply normalize_parts_tidy.
Qed.

(** X21.  Round trip between the two scripts: joining components that
    hold no comma, are not empty and are trimmed with a comma, as the
    scraper's serializer does, and splitting the value with
    [split_multi_value], as the consumer does, gives the components
    back; the empty list comes back from the empty string. *)
Theorem split_multi_value_round_trip (items : list str) :
  Forall tidy items →
  split_multi_value (Some (join comma items)) = items ∧
  split_multi_value (Some []) = [] ∧
  split_multi_value None = [].
Proof. intros H. split; [by apply split_multi_value_parts | done]. Qed.

(** The theorem for two faculty names. *)
Lemma split_multi_value_round_trip_witness :
  split_multi_value (Some (lit "Science,Engineering")) = [lit "Science"; lit "Engineering"].
Proof.
  refine (proj1 (split_multi_value_round_trip [lit "Science"; lit "Engineering"] _)).
  repeat constructor; try discriminate; try (by vm_compute);
    apply no_comma_forallb; by vm_compute.
Defined.

Lemma normalize_row_dict_row (r : TextbookRecord) :
  normalize_row (dict_row CSV_HEADER (to_csv_row r))
  = Return {| TextbookRow.textbook_title := strip (textbook_title r);
              TextbookRow.course_title := strip (course_title r);
              TextbookRow.campus := strip (campus r);
              TextbookRow.textbook_title_reading := strip (textbook_title_reading r);
              TextbookRow.course_title_reading := [];
              TextbookRow.course_code := strip (course_code r);
              TextbookRow.course_category := strip (course_category r);
              TextbookRow.instruction_language := strip (instruction_language r);
              TextbookRow.note := strip (note r);
              TextbookRow.authors := strip (authors r);
              TextbookRow.publisher := strip (publisher r);
              TextbookRow.publication_year := strip (publication_year r);
              TextbookRow.isbn := strip (isbn r);
              TextbookRow.faculties :=
                split_multi_value (Some (join comma (faculty_names r)));
              TextbookRow.departments := [];
              TextbookRow.tags := split_multi_value (Some (tag_names r)) |}.
Proof. reflexivity. Qed.

Lemma normalize_language_tag_tidy lower language_value tag :
  normalize_language_tag lower language_value = Some tag → tidy (lang_prefix ++ tag).
Proof.
  unfold normalize_language_tag.
  repeat match goal with
         | |- context [if ?b then _ else _] => destruct b
         end; intros [= <-]; by apply tidy_literal.
Qed.

Lemma derive_tags_tidy lower category faculty_names course_title instruction_language :
  category = general_education ∨ category = faculty_course →
  Forall tidy (derive_tags lower category faculty_names course_title instruction_language).
Proof.
  intros Hcat. apply Forall_forall. intros t Ht.
  apply derive_tags_members in Ht as [-> | [(-> & _) | [(-> & _) | (tag & Hl & ->)]]].
  - destruct Hcat as [-> | ->]; by apply tidy_literal.
  - by apply tidy_literal.
  - by apply tidy_literal.
  - by eapply normalize_language_tag_tidy.
Qed.

Lemma record_tags_tidy (override : bool) (base_tags : list str) :
  Forall tidy base_tags →
  Forall tidy
         (sorted (elements
            (if override then list_to_set base_tags ∪ {[ international_student ]}
             else list_to_set base_tags : gset str))).
Proof.
  rewrite !Forall_forall. intros Hbase t Ht.
  apply sorted_elem_of, elem_of_elements in Ht.
  destruct override.
  - apply elem_of_union in Ht as [Ht|Ht].
    + apply Hbase. by apply elem_of_list_to_set in Ht.
    + apply elem_of_singleton in Ht as ->. by apply tidy_literal.
  - apply Hbase. by apply elem_of_list_to_set in Ht.
Qed.

(** X22.  The consumer reads back what the scraper wrote: for every
    record that [build_records] returns, [normalize_row], applied to
    the dictionary of the record's CSV row under the scraper's header,
    raises no [KeyError] and returns a row with the same textbook
    title, course title and category, with the faculty names of the
    record as [faculties], with tags that join back to the record's
    [tag_names], and with no departments, no ISBN and no publication
    year. *)
Theorem normalize_row_of_built_record (lower : str -> str) (soup : node)
    (records : list TextbookRecord) :
  build_records lower soup = Return records →
  Forall (fun r =>
            ∃ row,
              normalize_row (dict_row CSV_HEADER (to_csv_row r)) = Return row ∧
              TextbookRow.textbook_title row = textbook_title r ∧
              TextbookRow.course_category row = course_category r ∧
              TextbookRow.faculties row = faculty_names r ∧
              join comma (TextbookRow.tags row) = tag_names r ∧
              TextbookRow.departments row = [] ∧
              TextbookRow.isbn row = [] ∧
              TextbookRow.publication_year row = [])
         records.
Proof.
  intros H.
  apply build_records_inv in H as (md & title & cat & tags & Hmd & -> & -> & HF).
  apply extract_course_metadata_faculties in Hmd as [value Hfac].
  pose proof (extract_textbooks_entries lower soup) as Hentries.
  induction HF as [|entry r entries records Hr _ IH]; constructor.
  2:{ apply IH. by apply Forall_cons in Hentries as [_ ?]. }
  apply Forall_cons in Hentries as [(hm & row & -> & _) _].
  apply build_record_fields in Hr as (Ht & _ & _ & _ & _ & Hi & Hy & Hf & Hc & Htags).
  eexists. split; [apply normalize_row_dict_row|].
  cbn [TextbookRow.textbook_title TextbookRow.course_category TextbookRow.faculties
       TextbookRow.tags TextbookRow.departments TextbookRow.isbn
       TextbookRow.publication_year].
  rewrite Hi, Hy, Hf, Hc, Htags.
  repeat split.
  - unfold row_entry, textbook_entry in Ht. rewrite lookup_insert_eq in Ht.
    injection Ht as <-. unfold resolved_title. apply strip_idem.
  - destruct (determine_course_category_values (CourseMetadata.faculties md) title)
      as [-> | ->]; by vm_compute.
  - rewrite Hfac. apply split_multi_value_parts. apply Forall_forall. intros name Hin.
    pose proof (normalize_name_list_names value) as H1.
    pose proof (normalize_name_list_trimmed value) as H2.
    rewrite Forall_forall in H1, H2.
    destruct (H1 name Hin) as [? ?], (H2 name Hin) as [? _]. by repeat split.
  - rewrite split_multi_value_parts; [done|].
    apply record_tags_tidy, derive_tags_tidy, determine_course_category_values.
Qed.

(** The theorem on the sample page. *)
Lemma normalize_row_of_built_record_witness :
  ∃ record row,
    build_records ascii_lower sample_document = Return [record] ∧
    normalize_row (dict_row CSV_HEADER (to_csv_row record)) = Return row ∧
    TextbookRow.faculties row = faculty_names record.
Proof.
  assert (Hb : ∃ record, build_records ascii_lower sample_document = Return [record])
    by (eexists; vm_compute; reflexivity).
  destruct Hb as [record Hb].
  pose proof (normalize_row_of_built_record ascii_lower sample_document [record] Hb) as HF.
  apply Forall_cons in HF as [(row & Hrow & _ & _ & Hfac & _) _].
  by exists record, row.
Defined.

(** ** Textbook table: nothing to read, and how much *)

(** X23.  [extract_textbooks] returns no entry when no table follows
    the textbook heading (or the heading is missing); and it never
    returns more entries than the table has rows, a header row not
    counted. *)
Theorem extract_textbooks_bounds (lower : str -> str) (soup : node) :
  (textbook_table soup = None → extract_textbooks lower soup = []) ∧
  (∀ table,
     textbook_table soup = Some table →
     length (extract_textbooks lower soup)
     ≤ length (find_all [lit "tr"] table) - (if has_header_row table then 1 else 0)).
Proof.
  unfold textbook_table, textbook_heading, extract_textbooks, has_header_row.
  destruct (find_with_next _ (descendants soup)) as [[heading next_elements]|];
    [|split; [done|intros; discriminate]].
  destruct (find_with_next _ next_elements) as [[table rest]|];
    [|split; [done|intros; discriminate]].
  split; [intros; discriminate|]. intros t H. injection H as <-.
  destruct (find_all [lit "tr"] table) as [|row0 rest0]; [done|].
  rewrite foldl_row_step. cbn [app]. rewrite length_map.
  etrans; [apply length_filter|].
  destruct (existsb _ _); simpl; lia.
Qed.

(** The theorem on the sample page, whose textbook table has a header
    row and two data rows. *)
Lemma extract_textbooks_bounds_witness :
  length (extract_textbooks ascii_lower sample_document) ≤ 2.
Proof.
  exact (proj2 (extract_textbooks_bounds ascii_lower sample_document)
               sample_textbook_table eq_refl).
Defined.
